(** * AgroInsight: the recommendation synthesis pipeline

    A shallow embedding of the analysis code of the three agents
    ([agents/farmer_advisor.py], [agents/market_researcher.py],
    [agents/weather_station.py]) and of the orchestrator
    ([models/multi_agent_system.py]), with the properties of the design
    document proved (or refuted) on it.

    Numbers.  Python floats are modelled by rationals ([Q]) and Python ints
    by [Z].  The thresholds of the source are compared exactly.  Arithmetic
    is exact too, except where a result that the properties below speak of
    depends on the rounding of the source's float operations (the scores of
    the synthesis engine, the demand/supply ratio of the market status, the
    confidence of the short-term weather advice): there every operation is
    rounded to the nearest double ([Float]).

    Dates are day ordinals.  [datetime] holds the days from 0001-01-01 to
    9999-12-31, and its arithmetic raises [OverflowError] outside; the model
    computes on unbounded ordinals, and the properties that depend on it
    assume that the dates stay in range ([Calendar.in_range]).

    Effects.  The weather station draws from the process-wide generator of
    the [random] module and reads the wall clock ([datetime.now()]).  Both
    are explicit here: a [world] carries the generator state and the number
    of clock readings made so far, and the clock itself is a function from
    that number to the calendar day it shows. *)

From Stdlib Require Import QArith Qround Qminmax Qabs Qpower ZArith List String Bool.
From Stdlib Require Import Lia Lqa.
From Stdlib Require Import DecimalString Permutation Sorted.
Import ListNotations.

Open Scope string_scope.
Open Scope Z_scope.
Open Scope Q_scope.

(** ** Comparisons of Python numbers *)

Module Num.

(** [a < b] as a boolean; [a > b] is [ltb b a]. *)
Definition ltb (a b : Q) : bool := if Qlt_le_dec a b then true else false.
Definition leb (a b : Q) : bool := Qle_bool a b.

(** Python's [max(a, b)] and [min(a, b)]: the first argument wins ties. *)
Definition max (a b : Q) : Q := if ltb a b then b else a.
Definition min (a b : Q) : Q := if ltb b a then b else a.

(** Python's [round(x, 1)] on an exact value: the nearest multiple of one
    tenth, a tie going to the even one. *)
Definition round_half_even (x : Q) : Z :=
  let f := Qfloor x in
  let r := x - inject_Z f in
  if ltb r 0.5 then f
  else if ltb 0.5 r then (f + 1)%Z
  else if Z.even f then f else (f + 1)%Z.

Definition round1 (x : Q) : Q := inject_Z (round_half_even (x * 10)) / 10.

(** [sum(...)] over a list of numbers. *)
Definition sum (l : list Q) : Q := fold_left Qplus l 0.

End Num.

Infix "<?" := Num.ltb (at level 70, no associativity) : Q_scope.
Notation "a >? b" := (Num.ltb b a) (at level 70, no associativity) : Q_scope.
Infix "<=?" := Num.leb (at level 70, no associativity) : Q_scope.

(** ** Floats

    Where a result of the source depends on the rounding of its float
    arithmetic.  A float is the rational it denotes, and an operation is the
    exact operation followed by [rnd], the rounding of IEEE 754 binary64 to
    the nearest double, a tie going to the even significand.  The exponent
    range is not bounded above: a result that does not fit a double (Python's
    [inf] or [OverflowError]) is not modelled. *)

Module Float.

(** The binade of a positive number: the [k] with [2^k <= x < 2^(k+1)]. *)
Definition binade (x : Q) : Z :=
  let k := (Z.log2 (Qnum x) - Z.log2 (Zpos (Qden x)))%Z in
  if Qle_bool (2 ^ k) x then k else (k - 1)%Z.

(** The exponent of the unit in the last place of the doubles around [x]:
    53 significant bits, and the subnormal spacing [2^-1074] below
    [2^-1022]. *)
Definition exponent (x : Q) : Z := Z.max (binade (Qabs x) - 52) (-1074).

(** The double nearest to [x]. *)
Definition rnd (x : Q) : Q :=
  let e := exponent x in
  inject_Z (Num.round_half_even (x / 2 ^ e)) * 2 ^ e.

(** A float literal of the source, and [float(n)] of an int. *)
Definition lit (x : Q) : Q := rnd x.

(** [x + y], [x - y], [x * y] and [x / y] on floats. *)
Definition add (x y : Q) : Q := rnd (x + y).
Definition sub (x y : Q) : Q := rnd (x - y).
Definition mul (x y : Q) : Q := rnd (x * y).
Definition div (x y : Q) : Q := rnd (x / y).

(** [n / m] on ints: the quotient itself is rounded, not the operands. *)
Definition div_int (n m : Z) : Q := rnd (inject_Z n / inject_Z m).

End Float.

(** ** Parcels ([farm_data] rows) *)

Record parcel := {
  farm_id : Z;
  soil_ph : Q;
  soil_moisture : Q;
  temperature_c : Q;
  rainfall_mm : Q;
  crop_type : string;
  fertilizer_usage_kg : Q;
  pesticide_usage_kg : Q;
  crop_yield_ton : Q;
  sustainability_score : Q
}.

(** ** Soil analysis ([FarmerAdvisor.analyze_soil_data]) *)

Module Soil.

(** The argument dict: [soil_data.get(...)] gives [None] for an absent key. *)
Record soil_data := {
  sd_soil_ph : option Q;
  sd_soil_moisture : option Q
}.

Record issue_rec := {
  issue : string;
  action : string;
  sustainability_impact : Q;
  cost_impact : Q
}.

Record results := {
  r_soil_ph : option Q;
  r_soil_moisture : option Q;
  recommendations : list issue_rec;
  ph_status : option string;
  moisture_status : option string
}.

Definition set_ph_status (s : string) (r : results) : results :=
  {| r_soil_ph := r_soil_ph r; r_soil_moisture := r_soil_moisture r;
     recommendations := recommendations r;
     ph_status := Some s; moisture_status := moisture_status r |}.

Definition set_moisture_status (s : string) (r : results) : results :=
  {| r_soil_ph := r_soil_ph r; r_soil_moisture := r_soil_moisture r;
     recommendations := recommendations r;
     ph_status := ph_status r; moisture_status := Some s |}.

Definition append (x : issue_rec) (r : results) : results :=
  {| r_soil_ph := r_soil_ph r; r_soil_moisture := r_soil_moisture r;
     recommendations := recommendations r ++ [x];
     ph_status := ph_status r; moisture_status := moisture_status r |}.

Definition ph_analysis (r : results) : results :=
  match r_soil_ph r with
  | None => r
  | Some ph =>
      if ph <? 5.5 then
        append {| issue := "Low soil pH (acidic)";
                  action := "Apply agricultural lime to raise pH";
                  sustainability_impact := 1.5; cost_impact := -0.8 |}
               (set_ph_status "acidic" r)
      else if ph >? 7.5 then
        append {| issue := "High soil pH (alkaline)";
                  action := "Apply organic matter or elemental sulfur to lower pH";
                  sustainability_impact := 1.2; cost_impact := -0.5 |}
               (set_ph_status "alkaline" r)
      else set_ph_status "optimal" r
  end.

Definition moisture_analysis (r : results) : results :=
  match r_soil_moisture r with
  | None => r
  | Some m =>
      if m <? 20 then
        append {| issue := "Low soil moisture";
                  action := "Implement drip irrigation system and mulching to conserve water";
                  sustainability_impact := 2.0; cost_impact := -1.2 |}
               (set_moisture_status "dry" r)
      else if m >? 40 then
        append {| issue := "High soil moisture";
                  action := "Improve drainage and consider raised beds";
                  sustainability_impact := 1.0; cost_impact := -0.9 |}
               (set_moisture_status "wet" r)
      else set_moisture_status "optimal" r
  end.

Definition analyze_soil_data (d : soil_data) : results :=
  let results0 :=
    {| r_soil_ph := sd_soil_ph d; r_soil_moisture := sd_soil_moisture d;
       recommendations := []; ph_status := None; moisture_status := None |} in
  moisture_analysis (ph_analysis results0).

(** The soil part of [FarmerAdvisor.analyze_farm]: the dict it passes to
    [analyze_soil_data] for a parcel. *)
Definition of_parcel (p : parcel) : soil_data :=
  {| sd_soil_ph := Some (soil_ph p); sd_soil_moisture := Some (soil_moisture p) |}.

End Soil.

(** ** Market status ([MarketResearcher.determine_market_status]) *)

Module Market.

(** The value of [ratio]: a float or [float('inf')]. *)
Inductive ratio := Finite (q : Q) | Infinite.

Definition ratio_gt (r : ratio) (c : Q) : bool :=
  match r with Finite q => q >? c | Infinite => true end.

Definition ratio_lt (r : ratio) (c : Q) : bool :=
  match r with Finite q => q <? c | Infinite => false end.

(** The three strings the function returns. *)
Inductive status := undersupplied | oversupplied | balanced.

Definition status_name (s : status) : string :=
  match s with
  | undersupplied => "undersupplied"
  | oversupplied => "oversupplied"
  | balanced => "balanced"
  end.

(** [demand / supply if supply > 0 else float('inf')]: the quotient is a
    float division. *)
Definition demand_supply_ratio (demand supply : Q) : ratio :=
  if supply >? 0 then Finite (Float.div demand supply) else Infinite.

Definition determine_market_status (demand supply : Q) : status :=
  let ratio := demand_supply_ratio demand supply in
  if ratio_gt ratio (Float.lit 1.2) then undersupplied
  else if ratio_lt ratio (Float.lit 0.8) then oversupplied
  else balanced.

(** Position of a status on the scale from oversupplied to undersupplied. *)
Definition rank (s : status) : nat :=
  match s with oversupplied => 0 | balanced => 1 | undersupplied => 2 end.

End Market.

(** ** Exceptions and state *)

(** The exceptions the modelled code can raise. *)
Inductive exn := KeyError | ZeroDivisionError | TypeError.

(** What a call does: it returns a value or raises. *)
Inductive outcome (A : Type) :=
| Returned (a : A)
| Raised (e : exn).
Arguments Returned {A} a.
Arguments Raised {A} e.

(** A small state monad for the code that draws random numbers and reads
    the clock. *)
Module State.

Definition M (S A : Type) : Type := S -> A * S.

Definition ret {S A} (a : A) : M S A := fun s => (a, s).

Definition bind {S A B} (c : M S A) (k : A -> M S B) : M S B :=
  fun s => let (a, s') := c s in k a s'.

End State.

Declare Scope monad_scope.
Delimit Scope monad_scope with monad.
Notation "x <- c ;; k" := (State.bind c (fun x => k))
  (at level 61, c at next level, right associativity) : monad_scope.

(** ** The calendar ([datetime]) *)

Module Calendar.

(** A [datetime]: the day as a proleptic Gregorian ordinal
    ([date.toordinal()]) and the second of that day. *)
Record datetime := { ordinal : Z; second_of_day : Z }.

(** [date.min] and [date.max] as ordinals: 0001-01-01 and 9999-12-31. *)
Definition min_ordinal : Z := 1.
Definition max_ordinal : Z := 3652059.

(** An ordinal that is a date of [datetime]. *)
Definition in_range (o : Z) : Prop := (min_ordinal <= o <= max_ordinal)%Z.

(** [dt + timedelta(days=n)], for a result that is [in_range]; for another
    the source raises [OverflowError], which is not modelled: the
    properties that depend on it assume the range. *)
Definition add_days (dt : datetime) (n : Z) : datetime :=
  {| ordinal := (ordinal dt + n)%Z; second_of_day := second_of_day dt |}.

(** Year, month and day of an ordinal. *)
Definition civil (o : Z) : Z * Z * Z :=
  (let z := o + 305 in
   let era := z / 146097 in
   let doe := z - era * 146097 in
   let yoe := (doe - doe / 1460 + doe / 36524 - doe / 146096) / 365 in
   let doy := doe - (365 * yoe + yoe / 4 - yoe / 100) in
   let mp := (5 * doy + 2) / 153 in
   let d := doy - (153 * mp + 2) / 5 + 1 in
   let m := if mp <? 10 then mp + 3 else mp - 9 in
   let y := yoe + era * 400 + (if m <=? 2 then 1 else 0) in
   (y, m, d))%Z.

(** [date.month] *)
Definition month (o : Z) : Z := snd (fst (civil o)).

(** [str(z)] of an int. *)
Definition string_of_Z (z : Z) : string := NilZero.string_of_int (Z.to_int z).

Definition pad2 (z : Z) : string :=
  if (z <? 10)%Z then "0" ++ string_of_Z z else string_of_Z z.

(** [strftime("%Y-%m-%d")], for the years of four digits. *)
Definition strftime_ymd (o : Z) : string :=
  let '(y, m, d) := civil o in
  string_of_Z y ++ "-" ++ pad2 m ++ "-" ++ pad2 d.

End Calendar.

(** ** Recommendation dicts *)

Module Recs.

(** A recommendation dict of an agent.  Its label sits under the key
    [label_key] ("crop", "resource", "practice" or "focus"); the three
    numbers are optional keys, read with [rec.get(key, default)]. *)
Record rec := {
  label_key : string;
  label : string;
  action : string;
  sustainability_impact : option Q;
  economic_impact : option Q;
  confidence : option Q
}.

(** A category of recommendations, as the agents return them in a list. *)
Record group := {
  category : string;
  recommendations : list rec;
  explanation : string
}.

(** What [generate_recommendations] of an agent returns: the error dict
    [{"status": "error", "message": ...}] or the list of groups. *)
Inductive reply :=
| Refused (message : string)
| Groups (gs : list group).

(** [rec.get("focus", "")] *)
Definition get_focus (r : rec) : string :=
  if String.eqb (label_key r) "focus" then label r else "".

Definition get (o : option Q) (default : Q) : Q :=
  match o with Some q => q | None => default end.

End Recs.

(** ** The weather station ([agents/weather_station.py]) *)

Module Weather.

Import Calendar.

(** The generator behind [random.seed] and [random.random]. *)
Class Generator (G : Type) := {
  seed : Z -> G;
  draw : G -> Q * G
}.

(** The wall clock: what the n-th call of [datetime.now()] returns. *)
Definition clock := nat -> datetime.

Record world (G : Type) := { rng : G; tick : nat }.
Arguments rng {G} w.
Arguments tick {G} w.

(** *** Regions and seasons ([generate_weather_patterns]) *)

Record region_params := {
  base_temp : Q;
  temp_variation : Q;
  base_rainfall : Q;
  rainfall_variation : Q;
  seasonal_factor : Q;
  drought_probability : Q;
  flood_probability : Q
}.

Definition north : region_params :=
  {| base_temp := 15; temp_variation := 8; base_rainfall := 5;
     rainfall_variation := 15; seasonal_factor := 0.8;
     drought_probability := 0.05; flood_probability := 0.05 |}.

Definition central : region_params :=
  {| base_temp := 22; temp_variation := 6; base_rainfall := 3;
     rainfall_variation := 10; seasonal_factor := 0.6;
     drought_probability := 0.08; flood_probability := 0.03 |}.

Definition south : region_params :=
  {| base_temp := 28; temp_variation := 5; base_rainfall := 2;
     rainfall_variation := 8; seasonal_factor := 0.5;
     drought_probability := 0.12; flood_probability := 0.02 |}.

(** [self.regions] *)
Definition regions : list (string * region_params) :=
  [("north", north); ("central", central); ("south", south)].

(** [self.regions.get(region)]; [None] when [region not in self.regions]. *)
Fixpoint lookup {A} (k : string) (d : list (string * A)) : option A :=
  match d with
  | [] => None
  | (k', v) :: d' => if String.eqb k k' then Some v else lookup k d'
  end.

Inductive season := spring | summer | fall | winter.

Record season_params := {
  temp_modifier : Q;
  rainfall_modifier : Q;
  humidity_modifier : Q;
  monthly_range : list Z
}.

(** [self.seasons], total on the four keys. *)
Definition seasons (s : season) : season_params :=
  match s with
  | spring => {| temp_modifier := 0; rainfall_modifier := 1.2;
                 humidity_modifier := 1.1; monthly_range := [3; 4; 5]%Z |}
  | summer => {| temp_modifier := 1.2; rainfall_modifier := 0.8;
                 humidity_modifier := 0.9; monthly_range := [6; 7; 8]%Z |}
  | fall => {| temp_modifier := 0; rainfall_modifier := 1.0;
               humidity_modifier := 1.0; monthly_range := [9; 10; 11]%Z |}
  | winter => {| temp_modifier := -1.2; rainfall_modifier := 1.1;
                 humidity_modifier := 1.2; monthly_range := [12; 1; 2]%Z |}
  end.

(** [list(self.seasons.keys())], in insertion order. *)
Definition season_keys : list season := [spring; summer; fall; winter].

Definition season_name (s : season) : string :=
  match s with
  | spring => "spring" | summer => "summer" | fall => "fall" | winter => "winter"
  end.

(** [str.capitalize()] of a season name. *)
Definition season_capitalized (s : season) : string :=
  match s with
  | spring => "Spring" | summer => "Summer" | fall => "Fall" | winter => "Winter"
  end.

Definition month_in (m : Z) (l : list Z) : bool := existsb (Z.eqb m) l.

(** [get_current_season(date)] for a given date: the first season whose
    months contain the date's month, and spring when none does. *)
Definition season_of_date (o : Z) : season :=
  match find (fun s => month_in (month o) (monthly_range (seasons s))) season_keys with
  | Some s => s
  | None => spring
  end.

(** *** Samples *)

(** The dict of [generate_current_weather]. *)
Record current_weather := {
  cw_timestamp : datetime;
  cw_season : season;
  cw_temperature_c : Q;
  cw_rainfall_mm : Q;
  cw_humidity_percent : Q;
  cw_wind_speed_kph : Q;
  cw_condition : string
}.

(** A day of a forecast or of the historical data.  [date] is the calendar
    day, which the source stores as [strftime("%Y-%m-%d")]; [day] is present
    in forecasts only. *)
Record sample := {
  date : Z;
  day : option Z;
  sample_season : season;
  temperature_high_c : Q;
  temperature_low_c : Q;
  rainfall_mm : Q;
  humidity_percent : Q;
  wind_speed_kph : Q;
  condition : string
}.

(** The threshold ladder, which the source writes out in
    [generate_current_weather], [generate_forecast] and
    [generate_historical_data] alike. *)
Definition normal_condition (params : region_params) (rainfall temperature : Q)
  : string :=
  if rainfall >? rainfall_variation params then "Heavy Rain"
  else if rainfall >? rainfall_variation params / 2 then "Light Rain"
  else if temperature >? base_temp params + temp_variation params then "Hot"
  else if temperature <? base_temp params - temp_variation params then "Cold"
  else "Clear".

(** The extreme event of a forecast day. *)
Inductive event := Drought | Flood.

(** What a forecast day computed: the values the condition was decided on,
    the event rolled, the trends carried to the next day, and the sample
    appended to the forecast. *)
Record day_trace := {
  tr_rainfall : Q;
  tr_temperature : Q;
  tr_event : option event;
  tr_temp_trend : Q;
  tr_rain_trend : Q;
  tr_sample : sample
}.

(** [range(a, b)] *)
Definition range (a b : Z) : list Z :=
  map (fun i => (a + Z.of_nat i)%Z) (seq 0 (Z.to_nat (b - a))).

Section Station.

Context {G : Type} `{Generator G}.
Variable now : clock.

Local Open Scope monad_scope.
Local Abbreviation M := (State.M (world G)).
Local Abbreviation ret := State.ret.

(** [random.random()] *)
Definition random : M Q :=
  fun w => let (u, g) := draw (rng w) in (u, {| rng := g; tick := tick w |}).

(** The generator after [n] calls of [random.random()], and the number
    the next call returns then. *)
Fixpoint after (n : nat) (g : G) : G :=
  match n with
  | O => g
  | S n => after n (snd (draw g))
  end.

Definition roll (n : nat) (g : G) : Q := fst (draw (after n g)).

(** [datetime.now()] *)
Definition datetime_now : M datetime :=
  fun w => (now (tick w), {| rng := rng w; tick := S (tick w) |}).

(** [WeatherStation.__init__]: [random.seed(42)]. *)
Definition init : M unit :=
  fun w => (tt, {| rng := seed 42; tick := tick w |}).

(** [get_current_season()] with no date. *)
Definition get_current_season : M season :=
  dt <- datetime_now ;;
  ret (season_of_date (ordinal dt)).

Definition generate_current_weather (params : region_params) : M current_weather :=
  current_season <- get_current_season ;;
  let season_params := seasons current_season in
  let temp_base :=
    base_temp params + temp_modifier season_params * seasonal_factor params in
  u1 <- random ;;
  let temp_variation := temp_variation params * (0.8 + 0.4 * u1) in
  u2 <- random ;;
  let temperature := temp_base + (u2 * 2 - 1) * temp_variation in
  let rainfall_base := base_rainfall params * rainfall_modifier season_params in
  u3 <- random ;;
  let rainfall := u3 * rainfall_variation params * rainfall_base in
  u4 <- random ;;
  let rainfall := if u4 <? 0.6 then rainfall * 0.3 else rainfall in
  let humidity_base := 60 + 20 * humidity_modifier season_params in
  u5 <- random ;;
  let humidity := humidity_base + (u5 * 20 - 10) in
  u6 <- random ;;
  let wind_speed := 5 + u6 * 15 in
  let condition := normal_condition params rainfall temperature in
  stamp <- datetime_now ;;
  ret {| cw_timestamp := stamp;
         cw_season := current_season;
         cw_temperature_c := Num.round1 temperature;
         cw_rainfall_mm := Num.round1 rainfall;
         cw_humidity_percent := Num.round1 humidity;
         cw_wind_speed_kph := Num.round1 wind_speed;
         cw_condition := condition |}.

(** The two rolls of a forecast day; the flood is rolled only when the
    drought did not trigger. *)
Definition roll_event (params : region_params) : M (option event) :=
  u <- random ;;
  if u <? drought_probability params then ret (Some Drought)
  else
    v <- random ;;
    if v <? flood_probability params then ret (Some Flood) else ret None.

(** The body of the loop of [generate_forecast]. *)
Definition forecast_day (params : region_params) (day : Z)
    (temp_trend rain_trend : Q) : M day_trace :=
  dt <- datetime_now ;;
  let date := add_days dt day in
  let season := season_of_date (ordinal date) in
  let season_params := seasons season in
  u1 <- random ;;
  let temp_trend := temp_trend * 0.5 + (u1 * 2 - 1) * 0.5 in
  let temp_base :=
    base_temp params + temp_modifier season_params * seasonal_factor params in
  u2 <- random ;;
  let temp_variation := temp_variation params * (0.8 + 0.4 * u2) in
  let temperature := temp_base + temp_trend * temp_variation in
  u3 <- random ;;
  let rain_trend := rain_trend * 0.3 + (u3 * 2 - 1) * 0.7 in
  let rainfall_base := base_rainfall params * rainfall_modifier season_params in
  let rainfall := Num.max 0 (rainfall_base + rain_trend * rainfall_variation params) in
  ev <- roll_event params ;;
  let '(rainfall, temperature, condition) :=
    match ev with
    | Some Drought => (0, temperature + 3, "Drought Conditions")
    | Some Flood => (rainfall_variation params * 2, temperature, "Flood Warning")
    | None => (rainfall, temperature, normal_condition params rainfall temperature)
    end in
  let humidity_base := 60 + 20 * humidity_modifier season_params in
  let humidity := humidity_base + rain_trend * 10 in
  u4 <- random ;;
  let wind_speed := 5 + u4 * 15 in
  ret {| tr_rainfall := rainfall;
         tr_temperature := temperature;
         tr_event := ev;
         tr_temp_trend := temp_trend;
         tr_rain_trend := rain_trend;
         tr_sample :=
           {| date := ordinal date;
              day := Some day;
              sample_season := season;
              temperature_high_c := Num.round1 (temperature + temp_variation / 2);
              temperature_low_c := Num.round1 (temperature - temp_variation / 2);
              rainfall_mm := Num.round1 rainfall;
              humidity_percent := Num.round1 humidity;
              wind_speed_kph := Num.round1 wind_speed;
              condition := condition |} |}.

(** The loop of [generate_forecast] over the days it is given, carrying the
    two trends from each day to the next. *)
Fixpoint forecast_loop (params : region_params) (days : list Z)
    (temp_trend rain_trend : Q) : M (list day_trace) :=
  match days with
  | [] => ret []
  | day :: rest =>
      tr <- forecast_day params day temp_trend rain_trend ;;
      trs <- forecast_loop params rest (tr_temp_trend tr) (tr_rain_trend tr) ;;
      ret (tr :: trs)
  end.

(** [generate_forecast] for the parameters of a region, with what each day
    computed. *)
Definition forecast_trace (params : region_params) (days : Z) : M (list day_trace) :=
  _ <- generate_current_weather params ;;
  forecast_loop params (range 1 (days + 1)) 0 0.

(** [generate_forecast(region, days)]; [self.regions[region]] raises
    [KeyError] for an unknown region.  The rows the source writes to the
    interaction log of the database are left out. *)
Definition generate_forecast (region : string) (days : Z)
  : M (outcome (list sample)) :=
  match lookup region regions with
  | None => ret (Raised KeyError)
  | Some params =>
      trs <- forecast_trace params days ;;
      ret (Returned (map tr_sample trs))
  end.

(** The body of the loop of [generate_historical_data]: each day is drawn
    on its own, with no trend and no extreme event. *)
Definition historical_day (params : region_params) (end_date : datetime)
    (day : Z) : M sample :=
  let date := add_days end_date (- day) in
  let season := season_of_date (ordinal date) in
  let season_params := seasons season in
  let temp_base :=
    base_temp params + temp_modifier season_params * seasonal_factor params in
  u1 <- random ;;
  let temp_variation := temp_variation params * (0.8 + 0.4 * u1) in
  u2 <- random ;;
  let temperature := temp_base + (u2 * 2 - 1) * temp_variation in
  let rainfall_base := base_rainfall params * rainfall_modifier season_params in
  u3 <- random ;;
  let rainfall := u3 * rainfall_variation params * rainfall_base in
  let humidity_base := 60 + 20 * humidity_modifier season_params in
  u4 <- random ;;
  let humidity := humidity_base + (u4 * 20 - 10) in
  u5 <- random ;;
  let wind_speed := 5 + u5 * 15 in
  let condition := normal_condition params rainfall temperature in
  ret {| date := ordinal date;
         day := None;
         sample_season := season;
         temperature_high_c := Num.round1 (temperature + temp_variation / 2);
         temperature_low_c := Num.round1 (temperature - temp_variation / 2);
         rainfall_mm := Num.round1 rainfall;
         humidity_percent := Num.round1 humidity;
         wind_speed_kph := Num.round1 wind_speed;
         condition := condition |}.

Fixpoint historical_loop (params : region_params) (end_date : datetime)
    (days : list Z) : M (list sample) :=
  match days with
  | [] => ret []
  | day :: rest =>
      s <- historical_day params end_date day ;;
      ss <- historical_loop params end_date rest ;;
      ret (s :: ss)
  end.

(** [generate_historical_data(region, specific_date, days)] *)
Definition generate_historical_data (region : string)
    (specific_date : option datetime) (days : Z) : M (outcome (list sample)) :=
  match lookup region regions with
  | None => ret (Raised KeyError)
  | Some params =>
      end_date <-
        match specific_date with
        | Some d => ret d
        | None => (dt <- datetime_now ;; ret (add_days dt (-1)))
        end ;;
      ss <- historical_loop params end_date (range 0 days) ;;
      ret (Returned ss)
  end.

(** *** The agricultural impact classifier ([assess_agricultural_impact]) *)

Record advice := {
  issue : string;
  action : string;
  sustainability_impact : Q;
  confidence : Q
}.

Record impact := {
  temperature_impact : string;
  rainfall_impact : string;
  overall_impact : string;
  recommendations : list advice
}.

Definition temperature_assessment (avg_temp : Q) : string * list advice :=
  if avg_temp >? 30 then
    ("negative",
     [{| issue := "High temperatures forecasted";
         action := "Implement shade structures and increase irrigation frequency";
         sustainability_impact := 1.8; confidence := 0.8 |}])
  else if avg_temp <? 10 then
    ("negative",
     [{| issue := "Low temperatures forecasted";
         action := "Consider using crop covers or delaying planting";
         sustainability_impact := 1.5; confidence := 0.8 |}])
  else if (15 <=? avg_temp) && (avg_temp <=? 28) then ("positive", [])
  else ("neutral", []).

Definition rainfall_assessment (avg_rainfall : Q) : string * list advice :=
  if avg_rainfall <? 10 then
    ("negative",
     [{| issue := "Low rainfall forecasted";
         action := "Implement water conservation techniques and drip irrigation";
         sustainability_impact := 2.2; confidence := 0.85 |}])
  else if avg_rainfall >? 100 then
    ("negative",
     [{| issue := "High rainfall forecasted";
         action := "Ensure proper drainage and consider delayed planting";
         sustainability_impact := 1.7; confidence := 0.8 |}])
  else if (20 <=? avg_rainfall) && (avg_rainfall <=? 60) then ("positive", [])
  else ("neutral", []).

(** The advice for one day of the forecast, when its condition is extreme. *)
Definition extreme_advice (d : sample) : list advice :=
  if String.eqb (condition d) "Drought Conditions" then
    [{| issue := "Drought conditions forecasted on " ++ strftime_ymd (date d);
        action := "Implement emergency water conservation measures and consider drought-resistant crops";
        sustainability_impact := 2.5; confidence := 0.7 |}]
  else if String.eqb (condition d) "Flood Warning" then
    [{| issue := "Flood warning for " ++ strftime_ymd (date d);
        action := "Prepare flood defenses and ensure drainage systems are clear";
        sustainability_impact := 2.0; confidence := 0.7 |}]
  else [].

Definition seasonal_advice (current_season : season) : advice :=
  match current_season with
  | spring =>
      {| issue := "Spring planting considerations";
         action := "Ensure soil has proper temperature and moisture before planting to optimize germination";
         sustainability_impact := 1.5; confidence := 0.9 |}
  | summer =>
      {| issue := "Summer heat management";
         action := "Monitor soil moisture levels closely and implement shading or mulching to reduce evaporation";
         sustainability_impact := 1.8; confidence := 0.85 |}
  | fall =>
      {| issue := "Fall harvest timing";
         action := "Monitor forecasts for early frost and plan harvest accordingly";
         sustainability_impact := 1.6; confidence := 0.8 |}
  | winter =>
      {| issue := "Winter soil management";
         action := "Consider cover crops to protect soil from erosion and improve structure";
         sustainability_impact := 2.0; confidence := 0.85 |}
  end.

Definition overall (temperature_impact rainfall_impact : string) : string :=
  if String.eqb temperature_impact "negative" || String.eqb rainfall_impact "negative"
  then "negative"
  else if String.eqb temperature_impact "positive" && String.eqb rainfall_impact "positive"
  then "positive"
  else "neutral".

(** [assess_agricultural_impact(current_weather, forecast, region)].  Its
    first statement divides by [len(forecast)]. *)
Definition assess_agricultural_impact (current : current_weather)
    (forecast : list sample) (region : string) : M (outcome impact) :=
  match forecast with
  | [] => ret (Raised ZeroDivisionError)
  | _ :: _ =>
      let avg_temp :=
        Num.sum (map temperature_high_c forecast) / inject_Z (Z.of_nat (List.length forecast)) in
      let avg_rainfall := Num.sum (map rainfall_mm forecast) in
      let (temperature_impact, recs1) := temperature_assessment avg_temp in
      let (rainfall_impact, recs2) := rainfall_assessment avg_rainfall in
      let recs3 := flat_map extreme_advice forecast in
      current_season <- get_current_season ;;
      ret (Returned
             {| temperature_impact := temperature_impact;
                rainfall_impact := rainfall_impact;
                overall_impact := overall temperature_impact rainfall_impact;
                recommendations :=
                  recs1 ++ recs2 ++ recs3 ++ [seasonal_advice current_season] |})
  end.

(** *** Weather queries ([process_input]) *)

Record report := {
  rp_region : string;
  rp_current_weather : current_weather;
  rp_forecast : list sample;
  rp_historical_data : option (list sample);
  rp_agricultural_impact : impact
}.

(** The dict a query returns: an error with its message, or the report. *)
Inductive response :=
| Error (message : string)
| Success (r : report).

(** The [specific_date] of a query: absent, a string [strptime] rejects, or
    the date it parses to. *)
Inductive date_argument :=
| NoDate
| BadDate (text : string)
| GoodDate (d : datetime).

(** The historical part of [process_input]: [None] when it is not asked
    for, and the error of a date that does not parse. *)
Definition historical_part (region : string) (include_historical : bool)
    (specific_date : date_argument) : M (outcome (string + option (list sample))) :=
  if include_historical then
    match specific_date with
    | BadDate text =>
        ret (Returned (inl ("Invalid date format: " ++ text ++ ". Use YYYY-MM-DD")))
    | GoodDate d =>
        h <- generate_historical_data region (Some d) 30 ;;
        ret match h with
            | Returned ss => Returned (inr (Some ss))
            | Raised e => Raised e
            end
    | NoDate =>
        h <- generate_historical_data region None 30 ;;
        ret match h with
            | Returned ss => Returned (inr (Some ss))
            | Raised e => Raised e
            end
    end
  else ret (Returned (inr None)).

(** [process_input(input_data)], with the keys of [input_data] as
    arguments. *)
Definition process_input (region : string) (forecast_days : Z)
    (include_historical : bool) (specific_date : date_argument)
  : M (outcome response) :=
  match lookup region regions with
  | None => ret (Returned (Error ("Unknown region: " ++ region)))
  | Some params =>
      current <- generate_current_weather params ;;
      f <- generate_forecast region forecast_days ;;
      match f with
      | Raised e => ret (Raised e)
      | Returned forecast =>
          h <- historical_part region include_historical specific_date ;;
          match h with
          | Raised e => ret (Raised e)
          | Returned (inl message) => ret (Returned (Error message))
          | Returned (inr historical_data) =>
              a <- assess_agricultural_impact current forecast region ;;
              ret match a with
                  | Raised e => Raised e
                  | Returned i =>
                      Returned (Success
                        {| rp_region := region;
                           rp_current_weather := current;
                           rp_forecast := forecast;
                           rp_historical_data := historical_data;
                           rp_agricultural_impact := i |})
                  end
          end
      end
  end.

(** *** Weather recommendations ([generate_recommendations]) *)

Definition condition_in (c : string) (l : list string) : bool :=
  existsb (String.eqb c) l.

(** The loop over [enumerate(forecast[:7])]; [i] is the index of the first
    day of [days]. *)
(** [0.85 - (i * 0.05)], in floats. *)
Definition short_term_confidence (i : Z) : Q :=
  Float.sub (Float.lit 0.85) (Float.mul (Float.lit (inject_Z i)) (Float.lit 0.05)).

Fixpoint short_term (i : Z) (days : list sample) : list Recs.rec :=
  match days with
  | [] => []
  | d :: rest =>
      (if condition_in (condition d) ["Heavy Rain"; "Flood Warning"] then
         [{| Recs.label_key := "focus";
             Recs.label := "Heavy Rain Management: Day " ++ string_of_Z (i + 1);
             Recs.action := "Ensure proper drainage and avoid field operations to prevent soil compaction";
             Recs.sustainability_impact := Some 1.8;
             Recs.economic_impact := None;
             Recs.confidence := Some (short_term_confidence i) |}]
       else if condition_in (condition d) ["Drought Conditions"; "Hot"]
               && (rainfall_mm d <? 2) then
         [{| Recs.label_key := "focus";
             Recs.label := "Drought Management: Day " ++ string_of_Z (i + 1);
             Recs.action := "Schedule irrigation for early morning to minimize evaporation";
             Recs.sustainability_impact := Some 2.0;
             Recs.economic_impact := None;
             Recs.confidence := Some (short_term_confidence i) |}]
       else [])
      ++ short_term (i + 1) rest
  end.

Definition season_index (s : season) : nat :=
  match s with spring => 0 | summer => 1 | fall => 2 | winter => 3 end.

Definition next_season (s : season) : season :=
  nth ((season_index s + 1) mod 4) season_keys spring.

Definition current_season_rec (current_season : season) : Recs.rec :=
  match current_season with
  | spring =>
      {| Recs.label_key := "focus"; Recs.label := "Spring Planting";
         Recs.action := "Monitor soil temperature and moisture daily; wait for soil to warm sufficiently before planting";
         Recs.sustainability_impact := Some 1.6; Recs.economic_impact := None;
         Recs.confidence := Some 0.9 |}
  | summer =>
      {| Recs.label_key := "focus"; Recs.label := "Summer Heat Management";
         Recs.action := "Implement mulching to conserve soil moisture and reduce irrigation needs";
         Recs.sustainability_impact := Some 1.9; Recs.economic_impact := None;
         Recs.confidence := Some 0.85 |}
  | fall =>
      {| Recs.label_key := "focus"; Recs.label := "Fall Preparations";
         Recs.action := "Plan cover crop planting to protect soil through winter and improve fertility";
         Recs.sustainability_impact := Some 2.1; Recs.economic_impact := None;
         Recs.confidence := Some 0.9 |}
  | winter =>
      {| Recs.label_key := "focus"; Recs.label := "Winter Planning";
         Recs.action := "Use this time for soil testing and planning crop rotations for next growing season";
         Recs.sustainability_impact := Some 1.7; Recs.economic_impact := None;
         Recs.confidence := Some 0.9 |}
  end.

Definition next_season_rec (next : season) : Recs.rec :=
  {| Recs.label_key := "focus";
     Recs.label := season_capitalized next ++ " Preparation";
     Recs.action := "Begin preparing for " ++ season_name next
       ++ " conditions by reviewing expected weather patterns and adjusting plans accordingly";
     Recs.sustainability_impact := Some 1.5; Recs.economic_impact := None;
     Recs.confidence := Some 0.8 |}.

Definition water_recs (avg_rainfall : Q) : list Recs.rec :=
  (if avg_rainfall <? 3 then
     [{| Recs.label_key := "focus"; Recs.label := "Drought Mitigation";
         Recs.action := "Implement rainwater harvesting systems and water-efficient irrigation methods such as drip irrigation";
         Recs.sustainability_impact := Some 2.3; Recs.economic_impact := None;
         Recs.confidence := Some 0.8 |}]
   else if avg_rainfall >? 7 then
     [{| Recs.label_key := "focus"; Recs.label := "Excess Water Management";
         Recs.action := "Ensure proper drainage systems are in place and consider raised beds for water-sensitive crops";
         Recs.sustainability_impact := Some 1.8; Recs.economic_impact := None;
         Recs.confidence := Some 0.8 |}]
   else [])
  ++ [{| Recs.label_key := "focus"; Recs.label := "Water Conservation";
         Recs.action := "Install soil moisture sensors to optimize irrigation scheduling and prevent over-watering";
         Recs.sustainability_impact := Some 2.0; Recs.economic_impact := None;
         Recs.confidence := Some 0.9 |}].

(** The groups built from a forecast and the current season. *)
Definition recommendation_groups (forecast : list sample)
    (current_season : season) : list Recs.group :=
  let short_term_recs := short_term 0 (firstn 7 forecast) in
  let next := next_season current_season in
  let avg_rainfall := Num.sum (map rainfall_mm (firstn 14 forecast)) / 14 in
  (match short_term_recs with
   | [] => []
   | _ :: _ =>
       [{| Recs.category := "Short-term Weather Management";
           Recs.recommendations := firstn 3 short_term_recs;
           Recs.explanation := "Immediate actions based on 7-day weather forecast" |}]
   end)
  ++ [{| Recs.category := "Seasonal Planning";
         Recs.recommendations := [current_season_rec current_season; next_season_rec next];
         Recs.explanation := "Recommendations for current " ++ season_name current_season
           ++ " conditions and preparation for upcoming " ++ season_name next |};
      {| Recs.category := "Water Management";
         Recs.recommendations := water_recs avg_rainfall;
         Recs.explanation := "Strategies for sustainable water usage based on precipitation forecasts" |}].

(** [generate_recommendations(context)], with [context["region"]] as
    argument.  The rows written to the database for the farm are left out. *)
Definition generate_recommendations (region : string) : M (outcome Recs.reply) :=
  match lookup region regions with
  | None => ret (Returned (Recs.Refused ("Unknown region: " ++ region)))
  | Some params =>
      current <- generate_current_weather params ;;
      f <- generate_forecast region 14 ;;
      match f with
      | Raised e => ret (Raised e)
      | Returned forecast =>
          a <- assess_agricultural_impact current forecast region ;;
          match a with
          | Raised e => ret (Raised e)
          | Returned _ =>
              current_season <- get_current_season ;;
              ret (Returned (Recs.Groups (recommendation_groups forecast current_season)))
          end
      end
  end.

End Station.

End Weather.

(** ** The repository ([AgriDatabase.get_farm_data]) *)

Module Database.

(** The rows of the [farm_data] table. *)
Definition table := list parcel.

(** What [get_farm_data(farm_id)] returns: the row as a dict, [None], or,
    when [farm_id] is falsy, the list of all rows. *)
Inductive farm_query :=
| OneFarm (p : parcel)
| NoFarm
| AllFarms (rows : list parcel).

Definition get_farm_data (db : table) (id : Z) : farm_query :=
  if (id =? 0)%Z then AllFarms db
  else
    match find (fun p => (farm_id p =? id)%Z) db with
    | Some p => OneFarm p
    | None => NoFarm
    end.

End Database.

(** ** Farming recommendations ([FarmerAdvisor.generate_recommendations]) *)

Module Farmer.

Import Recs Database.

Definition crop_rec (crop text : string) (s e c : Q) : rec :=
  {| label_key := "crop"; label := crop; action := text;
     sustainability_impact := Some s; economic_impact := Some e;
     confidence := Some c |}.

Definition resource_rec (resource text : string) (s e c : Q) : rec :=
  {| label_key := "resource"; label := resource; action := text;
     sustainability_impact := Some s; economic_impact := Some e;
     confidence := Some c |}.

Definition practice_rec (practice text : string) (s e c : Q) : rec :=
  {| label_key := "practice"; label := practice; action := text;
     sustainability_impact := Some s; economic_impact := Some e;
     confidence := Some c |}.

Definition recommend_crops (farm_data : parcel) (financial_goal : string)
    (sustainability_preference : Z) : list rec :=
  (if soil_ph farm_data <? 6.0 then
     if (temperature_c farm_data <? 25) && (rainfall_mm farm_data >? 200) then
       [crop_rec "Rice"
          "Consider planting Rice which performs well in acidic soils with high rainfall"
          1.5 1.8 0.8]
     else []
   else if (6.0 <=? soil_ph farm_data) && (soil_ph farm_data <=? 7.0) then
     if soil_moisture farm_data >? 30 then
       [crop_rec "Corn"
          "Consider planting Corn which performs well in neutral soils with good moisture"
          1.7 2.0 0.85]
     else
       [crop_rec "Wheat"
          "Consider planting Wheat which performs well in neutral soils with moderate moisture"
          1.8 1.6 0.8]
   else
     [crop_rec "Soybean"
        "Consider planting Soybean which can perform well in slightly alkaline soils"
        2.0 1.7 0.75])
  ++ (if (sustainability_preference >? 7)%Z then
        [crop_rec "Crop Rotation"
           "Implement a crop rotation system including nitrogen-fixing legumes to improve soil health"
           2.5 1.0 0.9]
      else []).

Definition recommend_resource_optimization (farm_data : parcel)
    (sustainability_preference : Z) : list rec :=
  (if rainfall_mm farm_data <? 150 then
     [resource_rec "Water"
        "Implement drip irrigation and rainwater harvesting to optimize water usage"
        2.2 0.8 0.85]
   else [])
  ++ (if fertilizer_usage_kg farm_data >? 120 then
        [resource_rec "Fertilizer"
           "Implement precision agriculture techniques for targeted fertilizer application"
           2.0 1.2 0.8]
      else [])
  ++ (if pesticide_usage_kg farm_data >? 10 then
        [resource_rec "Pesticides"
           "Adopt integrated pest management (IPM) to reduce chemical pesticide usage"
           2.5 0.9 0.85]
      else [])
  ++ [resource_rec "Soil"
        "Implement cover cropping and minimal tillage to improve soil health and reduce erosion"
        2.3 1.0 0.9].

Definition recommend_sustainable_practices (farm_data : parcel)
    (sustainability_preference : Z) : list rec :=
  [practice_rec "Soil Testing"
     "Conduct regular soil testing to optimize inputs and reduce waste"
     1.8 1.5 0.9;
   practice_rec "Organic Matter"
     "Increase soil organic matter through compost application and crop residue management"
     2.0 0.9 0.85]
  ++ (if (sustainability_preference >? 5)%Z then
        [practice_rec "Biodiversity"
           "Maintain field margins and hedgerows to promote biodiversity and natural pest control"
           2.2 0.5 0.8]
      else [])
  ++ (if (sustainability_preference >? 8)%Z then
        [practice_rec "Renewable Energy"
           "Consider installing solar panels or wind turbines to power farm operations"
           2.5 (-0.5) 0.75]
      else []).

Definition not_found (id : Z) : string :=
  "Farm ID " ++ Calendar.string_of_Z id ++ " not found".

(** [generate_recommendations(context)], with the keys of [context] it
    reads as arguments.  The two crop rankings it computes and never uses,
    and the rows it writes to the database, are left out.  With a falsy
    [farm_id] and a table that is not empty, [farm_data] is the list of all
    rows and [farm_data["soil_ph"]] raises. *)
Definition generate_recommendations (db : table) (id : Z)
    (financial_goal : string) (sustainability_preference : Z) : outcome reply :=
  match get_farm_data db id with
  | NoFarm | AllFarms [] => Returned (Refused (not_found id))
  | AllFarms (_ :: _) => Raised TypeError
  | OneFarm farm_data =>
      Returned (Groups
        [ {| category := "Crop Selection";
             recommendations :=
               recommend_crops farm_data financial_goal sustainability_preference;
             explanation := "Crop selection based on your soil conditions, climate, and market demand" |};
          {| category := "Resource Optimization";
             recommendations :=
               recommend_resource_optimization farm_data sustainability_preference;
             explanation := "Optimizing resource usage to reduce environmental impact and costs" |};
          {| category := "Sustainable Practices";
             recommendations :=
               recommend_sustainable_practices farm_data sustainability_preference;
             explanation := "Sustainable farming practices to improve long-term soil health and productivity" |} ])
  end.

End Farmer.

(** ** Market recommendations, as the orchestrator receives them *)

Module MarketRecs.

(** A recommendation dict of [MarketResearcher.generate_recommendations]:
    every dict that module builds has the keys "focus", "action",
    "economic_impact" and "confidence", and no other. *)
Record item := {
  focus : string;
  action : string;
  economic_impact : Q;
  confidence : Q
}.

Record group := {
  category : string;
  recommendations : list item;
  explanation : string
}.

Definition to_rec (i : item) : Recs.rec :=
  {| Recs.label_key := "focus"; Recs.label := focus i; Recs.action := action i;
     Recs.sustainability_impact := None;
     Recs.economic_impact := Some (economic_impact i);
     Recs.confidence := Some (confidence i) |}.

Definition to_group (g : group) : Recs.group :=
  {| Recs.category := category g;
     Recs.recommendations := map to_rec (recommendations g);
     Recs.explanation := explanation g |}.

End MarketRecs.

(** ** The synthesis engine
       ([SustainableFarmingSystem.generate_farm_recommendations]) *)

Module Synthesis.

Import Recs Database.

(** An entry of [high_priority]. *)
Record action_item := {
  category : string;
  focus : string;
  action : string;
  sustainability_impact : Q;
  economic_impact : Q;
  confidence : Q;
  score : Q
}.

(** The body of the inner loop of [extract_recs].  The score is computed
    in floats, in the order of the source:
    [(sustainability * sustainability_weight + economic * economic_weight)
     * confidence * weight]. *)
Definition score_rec (sustainability_preference : Z) (category : string)
    (weight : Q) (rec : Recs.rec) : action_item :=
  let sustainability := get (Recs.sustainability_impact rec) 0 in
  let economic := get (Recs.economic_impact rec) 0 in
  let confidence := get (Recs.confidence rec) 0.5 in
  let sustainability_weight := Float.div_int sustainability_preference 10 in
  let economic_weight := Float.sub 1 sustainability_weight in
  let score :=
    Float.mul
      (Float.mul
         (Float.add (Float.mul (Float.lit sustainability) sustainability_weight)
                    (Float.mul (Float.lit economic) economic_weight))
         (Float.lit confidence))
      (Float.lit weight) in
  {| category := category;
     focus := get_focus rec;
     action := Recs.action rec;
     sustainability_impact := sustainability;
     economic_impact := economic;
     confidence := confidence;
     score := score |}.

(** The two loops of [extract_recs] over the groups of a source: the
    entries appended to [high_priority], in the order of the groups and of
    the recommendations within each. *)
Definition scored_items (sustainability_preference : Z) (category : string)
    (weight : Q) (gs : list Recs.group) : list action_item :=
  flat_map
    (fun g => map (score_rec sustainability_preference category weight)
                  (Recs.recommendations g))
    gs.

(** [extract_recs(category, source, weight)].  Iterating over an error
    dict yields its keys, and [group["recommendations"]] on a string raises
    [TypeError]. *)
Definition extract_recs (sustainability_preference : Z) (category : string)
    (source : reply) (weight : Q) : outcome (list action_item) :=
  match source with
  | Refused _ => Raised TypeError
  | Groups gs => Returned (scored_items sustainability_preference category weight gs)
  end.

(** [list.sort(key=score, reverse=True)].  Python's sort is stable, also
    under [reverse=True]; for keys that are totally ordered that fixes the
    result, computed here by insertion. *)
Fixpoint insert (x : action_item) (l : list action_item) : list action_item :=
  match l with
  | [] => [x]
  | y :: l' => if score x <? score y then y :: insert x l' else x :: l
  end.

Definition sort (l : list action_item) : list action_item :=
  fold_right insert [] l.

Record summary := {
  current_score : Q;
  potential_score : Q;
  improvement_percentage : Q
}.

Definition sustainability_summary_of (farm_data : parcel)
    (top : list action_item) : summary :=
  let initial_sustainability := sustainability_score farm_data in
  let potential_improvement := Num.sum (map sustainability_impact top) * 0.2 in
  {| current_score := initial_sustainability;
     potential_score := Num.min 100 (initial_sustainability + potential_improvement);
     improvement_percentage :=
       if initial_sustainability >? 0
       then potential_improvement / initial_sustainability * 100
       else 0 |}.

Record recommendations := {
  farm_data : parcel;
  farming_recommendations : reply;
  market_recommendations : list MarketRecs.group;
  weather_recommendations : reply;
  high_priority_actions : list action_item;
  sustainability_summary : summary
}.

Inductive response :=
| Error (message : string)
| Success (r : recommendations).

(** The three calls of [extract_recs], in the order of the source. *)
Definition gather (sustainability_preference : Z) (farming : reply)
    (market : list MarketRecs.group) (weather : reply) : outcome (list action_item) :=
  match extract_recs sustainability_preference "Farming Practices" farming 1.0 with
  | Raised e => Raised e
  | Returned fs =>
      match extract_recs sustainability_preference "Market Strategy"
              (Groups (map MarketRecs.to_group market)) 0.9 with
      | Raised e => Raised e
      | Returned ms =>
          match extract_recs sustainability_preference "Weather Management" weather 0.8 with
          | Raised e => Raised e
          | Returned ws => Returned (fs ++ ms ++ ws)%list
          end
      end
  end.

Section Engine.

Context {G : Type} `{Weather.Generator G}.
Variable now : Weather.clock.

Local Open Scope monad_scope.
Local Abbreviation M := (State.M (Weather.world G)).
Local Abbreviation ret := State.ret.

(** [generate_farm_recommendations(farm_id, region, financial_goal,
    sustainability_preference)] on the table [db], with the optional text
    enrichment switched off ([use_llm] false).  [market] is what
    [MarketResearcher.generate_recommendations(context)] returns. *)
Definition generate_farm_recommendations (db : table)
    (market : list MarketRecs.group) (id : Z) (region financial_goal : string)
    (sustainability_preference : Z) : M (outcome response) :=
  match get_farm_data db id with
  | NoFarm | AllFarms [] => ret (Returned (Error (Farmer.not_found id)))
  | AllFarms (_ :: _) => ret (Raised TypeError)
  | OneFarm farm_data =>
      match Farmer.generate_recommendations db id financial_goal
              sustainability_preference with
      | Raised e => ret (Raised e)
      | Returned farming =>
          w <- Weather.generate_recommendations now region ;;
          match w with
          | Raised e => ret (Raised e)
          | Returned weather =>
              match gather sustainability_preference farming market weather with
              | Raised e => ret (Raised e)
              | Returned high_priority =>
                  let high_priority := sort high_priority in
                  let top := firstn 5 high_priority in
                  ret (Returned (Success
                    {| farm_data := farm_data;
                       farming_recommendations := farming;
                       market_recommendations := market;
                       weather_recommendations := weather;
                       high_priority_actions := top;
                       sustainability_summary :=
                         sustainability_summary_of farm_data top |}))
              end
          end
      end
  end.

End Engine.

End Synthesis.

(** ** A generator for the examples *)

(** A linear congruential generator, standing in for the generator of
    CPython where a statement needs a concrete one. *)
Definition lcg_next (g : Z) : Z := ((g * 1103515245 + 12345) mod 2147483648)%Z.

#[export] Instance lcg : Weather.Generator Z := {|
  Weather.seed := fun s => s;
  Weather.draw := fun g => (inject_Z (lcg_next g) / 2147483648, lcg_next g)
|}.

(** A clock that shows noon of the day [today] at every reading. *)
Definition fixed_clock (today : Z) : Weather.clock :=
  fun _ => {| Calendar.ordinal := today; Calendar.second_of_day := 43200 |}.

(** A clock that shows the day [today] at its first [k] readings and the
    next day from then on: a call that runs across midnight. *)
Definition midnight_clock (today : Z) (k : nat) : Weather.clock :=
  fun t =>
    if (t <? k)%nat
    then {| Calendar.ordinal := today; Calendar.second_of_day := 86399 |}
    else {| Calendar.ordinal := (today + 1)%Z; Calendar.second_of_day := 0 |}.

(** The parcel of the design document's scenario. *)
Definition scenario_parcel : parcel :=
  {| farm_id := 1; soil_ph := 6.7; soil_moisture := 28.5;
     temperature_c := 24.2; rainfall_mm := 180.5; crop_type := "Rice";
     fertilizer_usage_kg := 100; pesticide_usage_kg := 5;
     crop_yield_ton := 4; sustainability_score := 45 |}.

(** A table with that parcel alone. *)
Definition scenario_table : Database.table := [scenario_parcel].

(** Market recommendations for the examples. *)
Definition scenario_market : list MarketRecs.group :=
  [ {| MarketRecs.category := "Market Opportunities";
       MarketRecs.recommendations :=
         [ {| MarketRecs.focus := "High Potential: Rice";
              MarketRecs.action := "Rice shows high profit potential with demand exceeds supply and growing consumer interest";
              MarketRecs.economic_impact := 4.5;
              MarketRecs.confidence := 0.8 |} ];
       MarketRecs.explanation := "Top short-term market opportunities across all crops" |};
    {| MarketRecs.category := "Diversification Strategy";
       MarketRecs.recommendations :=
         [ {| MarketRecs.focus := "Risk Management";
              MarketRecs.action := "Implement a multi-crop strategy to reduce market volatility risks";
              MarketRecs.economic_impact := 1.4;
              MarketRecs.confidence := 0.85 |} ];
       MarketRecs.explanation := "Recommendations for crop diversification to optimize profits and reduce risk" |} ].

(** The world of a fresh process: no clock reading made yet. *)
Definition fresh_world : Weather.world Z := {| Weather.rng := 0%Z; Weather.tick := 0 |}.

(** ** The design document's wording *)

(** The condition tags of the threshold ladder. *)
Definition normal_tags : list string :=
  ["Heavy Rain"; "Light Rain"; "Hot"; "Cold"; "Clear"].

(** The ladder as the design document words it: the tag [c] that goes with
    a rainfall and a temperature in a region. *)
Definition ladder_tag (params : Weather.region_params) (rainfall temperature : Q)
    (c : string) : Prop :=
  let rv := Weather.rainfall_variation params in
  let hi := Weather.base_temp params + Weather.temp_variation params in
  let lo := Weather.base_temp params - Weather.temp_variation params in
  (rv < rainfall -> c = "Heavy Rain")
  /\ (rainfall <= rv -> rv / 2 < rainfall -> c = "Light Rain")
  /\ (rainfall <= rv / 2 -> hi < temperature -> c = "Hot")
  /\ (rainfall <= rv / 2 -> temperature <= hi -> temperature < lo -> c = "Cold")
  /\ (rainfall <= rv / 2 -> temperature <= hi -> lo <= temperature -> c = "Clear").

(** A day of a forecast as the design document describes it, for the
    generator [g] the day starts with.  The day rolls for a drought with the
    fourth number it draws and, when no drought is triggered, for a flood
    with the fifth.  A drought forces the tag "Drought Conditions" and the
    rainfall 0, a flood the tag "Flood Warning" and twice the rainfall
    amplitude; on any other day the tag is the one the ladder gives to the
    day's rainfall and temperature.  The sample reports that rainfall to one
    decimal and, as its high and low, the temperature plus and minus half
    the width of the day's band, which the second number drawn decides. *)
Definition ladder_day {G : Type} `{Weather.Generator G}
    (params : Weather.region_params) (g : G) (tr : Weather.day_trace) : Prop :=
  let s := Weather.tr_sample tr in
  let width := Weather.temp_variation params * (0.8 + 0.4 * Weather.roll 1 g) in
  let drought := Weather.roll 3 g <? Weather.drought_probability params in
  let flood := Weather.roll 4 g <? Weather.flood_probability params in
  Weather.tr_event tr
  = (if drought then Some Weather.Drought
     else if flood then Some Weather.Flood else None)
  /\ Weather.rainfall_mm s = Num.round1 (Weather.tr_rainfall tr)
  /\ Weather.temperature_high_c s = Num.round1 (Weather.tr_temperature tr + width / 2)
  /\ Weather.temperature_low_c s = Num.round1 (Weather.tr_temperature tr - width / 2)
  /\ match Weather.tr_event tr with
     | Some Weather.Drought =>
         Weather.condition s = "Drought Conditions" /\ Weather.tr_rainfall tr = 0
     | Some Weather.Flood =>
         Weather.condition s = "Flood Warning"
         /\ Weather.tr_rainfall tr = Weather.rainfall_variation params * 2
     | None =>
         ladder_tag params (Weather.tr_rainfall tr) (Weather.tr_temperature tr)
           (Weather.condition s)
     end.

(** The anchor of the historical data: the date given or, when none is
    given, the day before the one the clock shows. *)
Definition anchor_day {G : Type} (now : Weather.clock)
    (specific_date : option Calendar.datetime) (w : Weather.world G) : Z :=
  match specific_date with
  | Some d => Calendar.ordinal d
  | None => (Calendar.ordinal (now (Weather.tick w)) - 1)%Z
  end.

(** The three sources of the engine, with the weight the design document
    gives each: Farming 1.0, Market 0.9, Weather 0.8. *)
Inductive source := FromFarming | FromMarket | FromWeather.

Definition source_weight (s : source) : Q :=
  match s with FromFarming => 1.0 | FromMarket => 0.9 | FromWeather => 0.8 end.

(** The category the entries of a source carry. *)
Definition source_label (s : source) : string :=
  match s with
  | FromFarming => "Farming Practices"
  | FromMarket => "Market Strategy"
  | FromWeather => "Weather Management"
  end.

(** The score of the design document for a recommendation of a source,
    [(sustainability_impact * w_s + economic_impact * w_e) * confidence
     * sourceWeight] with [w_s = preference / 10] and [w_e = 1 - w_s],
    evaluated in floats from left to right; a number a recommendation does
    not carry counts as 0, and as 0.5 for the confidence. *)
Definition weighted_score (preference : Z) (s : source) (r : Recs.rec) : Q :=
  let w_s := Float.div_int preference 10 in
  let w_e := Float.sub 1 w_s in
  let sustainability_impact := Float.lit (Recs.get (Recs.sustainability_impact r) 0) in
  let economic_impact := Float.lit (Recs.get (Recs.economic_impact r) 0) in
  let confidence := Float.lit (Recs.get (Recs.confidence r) 0.5) in
  Float.mul
    (Float.mul
       (Float.add (Float.mul sustainability_impact w_s)
                  (Float.mul economic_impact w_e))
       confidence)
    (Float.lit (source_weight s)).

(** The scored entry of a recommendation of a source. *)
Definition scored (preference : Z) (s : source) (r : Recs.rec)
  : Synthesis.action_item :=
  {| Synthesis.category := source_label s;
     Synthesis.focus := Recs.get_focus r;
     Synthesis.action := Recs.action r;
     Synthesis.sustainability_impact := Recs.get (Recs.sustainability_impact r) 0;
     Synthesis.economic_impact := Recs.get (Recs.economic_impact r) 0;
     Synthesis.confidence := Recs.get (Recs.confidence r) 0.5;
     Synthesis.score := weighted_score preference s r |}.



(** A recommendation dict whose sustainability impact, read with the
    default 0, is not negative. *)
Definition sustainable (r : Recs.rec) : Prop :=
  0 <= Recs.get (Recs.sustainability_impact r) 0.


(** A station is created, which seeds the generator, and asked for one
    forecast. *)
Definition seeded_forecast {G : Type} `{Weather.Generator G} (now : Weather.clock)
    (region : string) (days : Z) : State.M (Weather.world G) (outcome (list Weather.sample)) :=
  State.bind Weather.init (fun _ => Weather.generate_forecast now region days).

(** ** Climate analysis ([FarmerAdvisor.analyze_climate_data]) *)

Module Climate.

(** The argument dict: [climate_data.get(...)] gives [None] for an absent
    key. *)
Record climate_data := {
  cd_temperature_c : option Q;
  cd_rainfall_mm : option Q
}.

(** The result dict; the three last keys are set only when the measurement
    they come from is present. *)
Record results := {
  r_temperature_c : option Q;
  r_rainfall_mm : option Q;
  recommendations : list Soil.issue_rec;
  temperature_category : option string;
  suitable_crops : option (list string);
  rainfall_category : option string
}.

Definition temperature_analysis (temperature : option Q)
  : option string * option (list string) :=
  match temperature with
  | None => (None, None)
  | Some t =>
      if t <? 18 then (Some "cool", Some ["Wheat"; "Barley"; "Oats"])
      else if t >? 30 then (Some "hot", Some ["Corn"; "Sorghum"; "Cotton"])
      else (Some "moderate", Some ["Rice"; "Soybean"; "Corn"; "Wheat"])
  end.

Definition rainfall_analysis (rainfall : option Q)
  : option string * list Soil.issue_rec :=
  match rainfall with
  | None => (None, [])
  | Some r =>
      if r <? 100 then
        (Some "low",
         [{| Soil.issue := "Low rainfall";
             Soil.action := "Implement water harvesting and drought-resistant crops";
             Soil.sustainability_impact := 2.5; Soil.cost_impact := -1.5 |}])
      else if r >? 250 then
        (Some "high",
         [{| Soil.issue := "High rainfall";
             Soil.action := "Ensure good drainage and consider raised beds";
             Soil.sustainability_impact := 1.0; Soil.cost_impact := -0.7 |}])
      else (Some "moderate", [])
  end.

Definition analyze_climate_data (d : climate_data) : results :=
  let temperature := cd_temperature_c d in
  let rainfall := cd_rainfall_mm d in
  let (category, crops) := temperature_analysis temperature in
  let (rain_category, recs) := rainfall_analysis rainfall in
  {| r_temperature_c := temperature;
     r_rainfall_mm := rainfall;
     recommendations := recs;
     temperature_category := category;
     suitable_crops := crops;
     rainfall_category := rain_category |}.

End Climate.

(** ** The practice benchmark ([FarmerAdvisor.analyze_farming_practices]) *)

Module Practice.

(** The dict [analyze_farm] passes: the crop and the four figures of the
    parcel. *)
Record practice_data := {
  pd_crop_type : string;
  pd_fertilizer_usage_kg : Q;
  pd_pesticide_usage_kg : Q;
  pd_crop_yield_ton : Q;
  pd_sustainability_score : Q
}.

(** [Series.mean()] of a column. *)
Definition mean (l : list Q) : Q := Num.sum l / inject_Z (Z.of_nat (List.length l)).

(** The truth value of a number: it is not zero. *)
Definition truthy (x : Q) : bool := negb (Qeq_bool x 0).

(** [a / b if b else 0] *)
Definition ratio_or_zero (a b : Q) : Q := if truthy b then a / b else 0.

Record benchmarks := {
  avg_fertilizer_usage_kg : Q;
  avg_pesticide_usage_kg : Q;
  avg_crop_yield_ton : Q;
  avg_sustainability_score : Q
}.

Record efficiency_metrics := {
  fertilizer_efficiency : Q;
  pesticide_efficiency : Q;
  vs_avg_fertilizer_efficiency : Q;
  vs_avg_pesticide_efficiency : Q
}.

Record report := {
  rp_benchmarks : benchmarks;
  rp_current_performance : practice_data;
  rp_efficiency_metrics : efficiency_metrics;
  recommendations : list Soil.issue_rec
}.

(** The dict returned: the tagged result for a crop nobody grows, or the
    report. *)
Inductive analysis :=
| InsufficientData (message : string)
| Benchmarked (r : report).

(** [similar_farms]: the rows of the advisor's table with the same crop. *)
Definition similar_farms (farm_data : list parcel) (crop : string) : list parcel :=
  filter (fun farm => String.eqb (crop_type farm) crop) farm_data.

Definition high_fertilizer : Soil.issue_rec :=
  {| Soil.issue := "High fertilizer usage";
     Soil.action := "Consider precision agriculture techniques to optimize fertilizer application";
     Soil.sustainability_impact := 2.0; Soil.cost_impact := 0.5 |}.

Definition high_pesticide : Soil.issue_rec :=
  {| Soil.issue := "High pesticide usage";
     Soil.action := "Implement integrated pest management (IPM) techniques";
     Soil.sustainability_impact := 2.5; Soil.cost_impact := 0.3 |}.

Definition low_yield : Soil.issue_rec :=
  {| Soil.issue := "Below average crop yield";
     Soil.action := "Consider soil testing and targeted nutrient management";
     Soil.sustainability_impact := 1.0; Soil.cost_impact := -0.2 |}.

(** [analyze_farming_practices(practice_data)], with the table the advisor
    loaded ([self.farm_data]) as argument. *)
Definition analyze_farming_practices (farm_data : list parcel)
    (d : practice_data) : analysis :=
  let crop := pd_crop_type d in
  match similar_farms farm_data crop with
  | [] => InsufficientData ("No comparative data available for " ++ crop)
  | (_ :: _) as similar =>
      let avg_fertilizer := mean (map fertilizer_usage_kg similar) in
      let avg_pesticide := mean (map pesticide_usage_kg similar) in
      let avg_yield := mean (map crop_yield_ton similar) in
      let avg_sustainability := mean (map sustainability_score similar) in
      let current_fertilizer := pd_fertilizer_usage_kg d in
      let current_pesticide := pd_pesticide_usage_kg d in
      let current_yield := pd_crop_yield_ton d in
      let fertilizer_efficiency := ratio_or_zero current_yield current_fertilizer in
      let pesticide_efficiency := ratio_or_zero current_yield current_pesticide in
      let avg_fertilizer_efficiency := ratio_or_zero avg_yield avg_fertilizer in
      let avg_pesticide_efficiency := ratio_or_zero avg_yield avg_pesticide in
      let recommendations :=
        ((if current_fertilizer >? avg_fertilizer * 1.2 then [high_fertilizer] else [])
         ++ (if current_pesticide >? avg_pesticide * 1.2 then [high_pesticide] else [])
         ++ (if current_yield <? avg_yield * 0.8 then [low_yield] else []))%list in
      Benchmarked
        {| rp_benchmarks :=
             {| avg_fertilizer_usage_kg := avg_fertilizer;
                avg_pesticide_usage_kg := avg_pesticide;
                avg_crop_yield_ton := avg_yield;
                avg_sustainability_score := avg_sustainability |};
           rp_current_performance := d;
           rp_efficiency_metrics :=
             {| fertilizer_efficiency := fertilizer_efficiency;
                pesticide_efficiency := pesticide_efficiency;
                vs_avg_fertilizer_efficiency :=
                  if truthy avg_fertilizer_efficiency
                  then (fertilizer_efficiency / avg_fertilizer_efficiency - 1) * 100
                  else 0;
                vs_avg_pesticide_efficiency :=
                  if truthy avg_pesticide_efficiency
                  then (pesticide_efficiency / avg_pesticide_efficiency - 1) * 100
                  else 0 |};
           recommendations := recommendations |}
  end.

(** The dict [analyze_farm] builds for a parcel. *)
Definition of_parcel (p : parcel) : practice_data :=
  {| pd_crop_type := crop_type p;
     pd_fertilizer_usage_kg := fertilizer_usage_kg p;
     pd_pesticide_usage_kg := pesticide_usage_kg p;
     pd_crop_yield_ton := crop_yield_ton p;
     pd_sustainability_score := sustainability_score p |}.

(** The recommendations of an analysis; the tagged result has no such
    key. *)
Definition recommendations_of (a : analysis) : list Soil.issue_rec :=
  match a with
  | InsufficientData _ => []
  | Benchmarked r => recommendations r
  end.

End Practice.

(** ** Sorting by a key, largest first *)

Module Ranking.

Section By.

Context {A : Type} (key : A -> Q).

(** [sorted(l, key=key, reverse=True)]; the sort of Python is stable, which
    for a key that is totally ordered fixes the result. *)
Fixpoint insert (x : A) (l : list A) : list A :=
  match l with
  | [] => [x]
  | y :: l' => if key x <? key y then y :: insert x l' else x :: l
  end.

Definition sort_desc (l : list A) : list A := fold_right insert [] l.

End By.

End Ranking.

(** ** The overall assessment of a farm
       ([FarmerAdvisor.generate_overall_assessment], [analyze_farm],
       [process_input]) *)

Module Assessment.

Record assessment := {
  sustainability_category : string;
  improvement_potential : string;
  high_priority_recommendations : list Soil.issue_rec;
  overall_message : string
}.

Definition poor_message : string :=
  "Your farm's sustainability score needs significant improvement. Implementing our high-priority recommendations could substantially increase your sustainability while potentially reducing costs over time.".

Definition moderate_message : string :=
  "Your farm has a moderate sustainability score. With targeted improvements in resource management and sustainable practices, you can enhance both sustainability and productivity.".

Definition good_message : string :=
  "Your farm shows good sustainability practices. Continue to optimize and consider the recommended refinements to maintain your positive environmental impact and potentially improve efficiency further.".

(** [generate_message(sustainability_category, improvement_potential)] *)
Definition generate_message (category potential : string) : string :=
  if String.eqb category "poor" && String.eqb potential "high" then poor_message
  else if String.eqb category "moderate" && String.eqb potential "medium"
  then moderate_message
  else good_message.

(** The recommendations of the three analyses, in the order they are
    collected. *)
Definition all_recommendations (soil : Soil.results) (climate : Climate.results)
    (practice : Practice.analysis) : list Soil.issue_rec :=
  (Soil.recommendations soil ++ Climate.recommendations climate
   ++ Practice.recommendations_of practice)%list.

Definition categorize (sustainability_score : Q) : string * string :=
  if sustainability_score <? 30 then ("poor", "high")
  else if sustainability_score <? 60 then ("moderate", "medium")
  else ("good", "low").

Definition generate_overall_assessment (soil : Soil.results)
    (climate : Climate.results) (practice : Practice.analysis)
    (sustainability_score : Q) : assessment :=
  let sorted_recommendations :=
    Ranking.sort_desc Soil.sustainability_impact
      (all_recommendations soil climate practice) in
  let (category, potential) := categorize sustainability_score in
  {| sustainability_category := category;
     improvement_potential := potential;
     high_priority_recommendations := firstn 3 sorted_recommendations;
     overall_message := generate_message category potential |}.

Record farm_analysis := {
  soil_analysis : Soil.results;
  climate_analysis : Climate.results;
  practice_analysis : Practice.analysis;
  fa_sustainability_score : Q;
  overall_assessment : assessment
}.

(** The dict [analyze_farm] passes to [analyze_climate_data]. *)
Definition climate_of_parcel (p : parcel) : Climate.climate_data :=
  {| Climate.cd_temperature_c := Some (temperature_c p);
     Climate.cd_rainfall_mm := Some (rainfall_mm p) |}.

(** [analyze_farm(farm_data)] for the row of a parcel, with the table the
    advisor loaded as first argument. *)
Definition analyze_farm (table : list parcel) (p : parcel) : farm_analysis :=
  let soil := Soil.analyze_soil_data (Soil.of_parcel p) in
  let climate := Climate.analyze_climate_data (climate_of_parcel p) in
  let practice := Practice.analyze_farming_practices table (Practice.of_parcel p) in
  {| soil_analysis := soil;
     climate_analysis := climate;
     practice_analysis := practice;
     fa_sustainability_score := sustainability_score p;
     overall_assessment :=
       generate_overall_assessment soil climate practice (sustainability_score p) |}.

(** The keys of [input_data] that [process_input] reads. *)
Record input_data := {
  in_farm_id : option Z;
  in_soil_ph : option Q;
  in_soil_moisture : option Q;
  in_temperature_c : option Q;
  in_rainfall_mm : option Q
}.

(** The dict [process_input] returns. *)
Inductive response :=
| Error (message : string)
| Analysed (farm_data : parcel) (analysis : farm_analysis)
| Registered (soil : Soil.results) (climate : Climate.results).

(** An id is used when it is present and not zero ([if farm_id:]). *)
Definition given (id : option Z) : option Z :=
  match id with
  | Some z => if (z =? 0)%Z then None else Some z
  | None => None
  end.

(** [process_input(input_data)] on the rows [db] of the repository, the
    advisor holding the table [table].  The entries it writes to its state
    and to the interaction log are left out. *)
Definition process_input (db table : list parcel) (i : input_data) : response :=
  match given (in_farm_id i) with
  | Some id =>
      match Database.get_farm_data db id with
      | Database.OneFarm farm_data => Analysed farm_data (analyze_farm table farm_data)
      | _ => Error (Farmer.not_found id)
      end
  | None =>
      Registered
        (Soil.analyze_soil_data
           {| Soil.sd_soil_ph := in_soil_ph i;
              Soil.sd_soil_moisture := in_soil_moisture i |})
        (Climate.analyze_climate_data
           {| Climate.cd_temperature_c := in_temperature_c i;
              Climate.cd_rainfall_mm := in_rainfall_mm i |})
  end.

End Assessment.

(** ** Product market analysis ([agents/market_researcher.py]) *)

Module Pricing.

(** A row of the [market_data] table. *)
Record market_record := {
  product : string;
  market_price_per_ton : Q;
  demand_index : Q;
  supply_index : Q;
  competitor_price_per_ton : Q;
  economic_indicator : Q;
  weather_impact_score : Q;
  seasonal_factor : string;
  consumer_trend_index : Q
}.

(** [df[column].mean()] *)
Definition column_mean (f : market_record -> Q) (rows : list market_record) : Q :=
  Practice.mean (map f rows).

(** *** [analyze_demand_trend] *)

Record demand_trend := {
  dt_consumer_trend_index : Q;
  trend_status : string;
  trend_message : string
}.

Definition analyze_demand_trend (rows : list market_record) : demand_trend :=
  let avg_consumer_trend := column_mean consumer_trend_index rows in
  let (status, message) :=
    if avg_consumer_trend >? 120 then
      ("strongly_increasing",
       "Consumer demand is growing rapidly, indicating a strong market outlook.")
    else if avg_consumer_trend >? 100 then
      ("increasing",
       "Consumer demand is growing steadily, suggesting a positive market outlook.")
    else if avg_consumer_trend >? 90 then
      ("stable", "Consumer demand is stable, suggesting a consistent market.")
    else if avg_consumer_trend >? 70 then
      ("decreasing",
       "Consumer demand is declining, suggesting caution in market planning.")
    else
      ("strongly_decreasing",
       "Consumer demand is falling rapidly, suggesting significant market challenges.") in
  {| dt_consumer_trend_index := avg_consumer_trend;
     trend_status := status;
     trend_message := message |}.

(** Position of a trend status on the scale from falling to growing. *)
Definition trend_rank (status : string) : nat :=
  if String.eqb status "strongly_increasing" then 4
  else if String.eqb status "increasing" then 3
  else if String.eqb status "stable" then 2
  else if String.eqb status "decreasing" then 1
  else 0.

(** *** [forecast_price] *)

Record price_forecast := {
  current_price : Q;
  forecast_price_per_ton : Q;
  price_change_percent : Q;
  forecast_confidence : Q;
  price_trend : string;
  forecast_message : string;
  pf_time_horizon : string
}.

(** The label and the message for a forecast price next to the current
    one. *)
Definition price_label (forecast current : Q) : string * string :=
  if forecast >? current * 1.1 then
    ("increasing", "Prices are expected to increase significantly.")
  else if forecast >? current * 1.02 then
    ("slightly_increasing", "Prices are expected to increase slightly.")
  else if forecast <? current * 0.9 then
    ("decreasing", "Prices are expected to decrease significantly.")
  else if forecast <? current * 0.98 then
    ("slightly_decreasing", "Prices are expected to decrease slightly.")
  else ("stable", "Prices are expected to remain stable.").

(** The blend of the four factors with the weights of a horizon. *)
Definition blend (wd ws wc wt : Q) (rows : list market_record) : Q :=
  let current_price := column_mean market_price_per_ton rows in
  let demand_factor := wd * (column_mean demand_index rows / 125 - 1) + 1 in
  let supply_factor := ws * (1 - column_mean supply_index rows / 125) + 1 in
  let competitor_factor :=
    wc * (column_mean competitor_price_per_ton rows / current_price - 1) + 1 in
  let trend_factor := wt * (column_mean consumer_trend_index rows / 100 - 1) + 1 in
  (demand_factor + supply_factor + competitor_factor + trend_factor) / 4.

Section Forecast.

(** [x ** 1.5], which has no rational value in general, is a parameter. *)
Variable power_1_5 : Q -> Q.

(** [forecast_price(market_df, time_horizon)]: every horizon other than
    "short-term" is taken as long-term. *)
Definition forecast_price (rows : list market_record) (time_horizon : string)
  : price_forecast :=
  let current := column_mean market_price_per_ton rows in
  let (forecast, confidence) :=
    if String.eqb time_horizon "short-term" then
      (current * blend 0.6 0.4 0.3 0.2 rows, 0.8)
    else
      (current * power_1_5 (blend 0.3 0.2 0.2 0.5 rows), 0.6) in
  let (trend, message) := price_label forecast current in
  {| current_price := current;
     forecast_price_per_ton := forecast;
     price_change_percent := (forecast / current - 1) * 100;
     forecast_confidence := confidence;
     price_trend := trend;
     forecast_message := message;
     pf_time_horizon := time_horizon |}.

End Forecast.

(** *** [analyze_seasonal_factors] *)

Record seasonal_stats := {
  avg_price : Q;
  avg_demand : Q;
  avg_supply : Q;
  count : nat
}.

(** The keys of [groupby("seasonal_factor")], which come sorted and
    without repetition. *)
Fixpoint insert_key (k : string) (ks : list string) : list string :=
  match ks with
  | [] => [k]
  | k' :: rest =>
      match String.compare k k' with
      | Lt => k :: ks
      | Eq => ks
      | Gt => k' :: insert_key k rest
      end
  end.

Definition group_keys (rows : list market_record) : list string :=
  fold_right (fun r ks => insert_key (seasonal_factor r) ks) [] rows.

Definition group (rows : list market_record) (season : string) : list market_record :=
  filter (fun r => String.eqb (seasonal_factor r) season) rows.

Definition stats_of (g : list market_record) : seasonal_stats :=
  {| avg_price := column_mean market_price_per_ton g;
     avg_demand := column_mean demand_index g;
     avg_supply := column_mean supply_index g;
     count := List.length g |}.

(** [seasonal_data], in the order of the groups. *)
Definition seasonal_data (rows : list market_record) : list (string * seasonal_stats) :=
  map (fun season => (season, stats_of (group rows season))) (group_keys rows).

(** [max(items, key=...)] from a first item on: a later item wins only
    with a strictly larger key. *)
Fixpoint max_from {A} (key : A -> Q) (best : A) (l : list A) : A :=
  match l with
  | [] => best
  | x :: rest => if key best <? key x then max_from key x rest else max_from key best rest
  end.

(** [generate_seasonal_recommendations] for the two seasons found. *)
Definition generate_seasonal_recommendations
    (highest_price_season highest_demand_season : string) : list MarketRecs.item :=
  {| MarketRecs.focus := "Seasonal Timing";
     MarketRecs.action := "Target " ++ highest_price_season
       ++ " season for selling when prices are typically highest";
     MarketRecs.economic_impact := 1.6; MarketRecs.confidence := 0.8 |}
  :: (if String.eqb highest_demand_season highest_price_season then []
      else
        [{| MarketRecs.focus := "Production Planning";
            MarketRecs.action := "Plan production cycles to have maximum harvest ready for "
              ++ highest_demand_season ++ " season when demand peaks";
            MarketRecs.economic_impact := 1.4; MarketRecs.confidence := 0.75 |}]).

Record seasonal_analysis := {
  sa_seasonal_data : list (string * seasonal_stats);
  highest_price_season : string;
  highest_demand_season : string;
  sa_recommendations : list MarketRecs.item
}.

(** [analyze_seasonal_factors(market_df)]; [max] of no group raises, which
    is [None] here. *)
Definition analyze_seasonal_factors (rows : list market_record)
  : option seasonal_analysis :=
  match seasonal_data rows with
  | [] => None
  | first :: rest =>
      let by_price := fst (max_from (fun x => avg_price (snd x)) first rest) in
      let by_demand := fst (max_from (fun x => avg_demand (snd x)) first rest) in
      Some {| sa_seasonal_data := first :: rest;
              highest_price_season := by_price;
              highest_demand_season := by_demand;
              sa_recommendations :=
                generate_seasonal_recommendations by_price by_demand |}
  end.

(** *** [generate_market_recommendations] *)

Definition one_of (s : string) (l : list string) : bool := existsb (String.eqb s) l.

(** [generate_market_recommendations(analysis)], with the keys of
    [analysis] it reads as arguments; [best_season] is [None] when the
    analysis has no seasonal part. *)
Definition generate_market_recommendations (product : string)
    (market_status : Market.status) (forecast : price_forecast)
    (demand : demand_trend) (best_season : option string) : list MarketRecs.item :=
  (match market_status with
   | Market.undersupplied =>
       [{| MarketRecs.focus := "Production Increase";
           MarketRecs.action := "Consider increasing " ++ product
             ++ " production to capitalize on high demand";
           MarketRecs.economic_impact := 2.0; MarketRecs.confidence := 0.85 |}]
   | Market.oversupplied =>
       [{| MarketRecs.focus := "Diversification";
           MarketRecs.action := "Consider reducing " ++ product
             ++ " production or finding alternative markets";
           MarketRecs.economic_impact := 1.2; MarketRecs.confidence := 0.8 |}]
   | Market.balanced => []
   end)
  ++ (if one_of (price_trend forecast) ["increasing"; "slightly_increasing"] then
        [{| MarketRecs.focus := "Investment";
            MarketRecs.action := "Consider investing in " ++ product
              ++ " production capacity for " ++ pf_time_horizon forecast ++ " gains";
            MarketRecs.economic_impact := 1.8;
            MarketRecs.confidence := forecast_confidence forecast |}]
      else if one_of (price_trend forecast) ["decreasing"; "slightly_decreasing"] then
        [{| MarketRecs.focus := "Cost Reduction";
            MarketRecs.action := "Focus on reducing production costs for " ++ product
              ++ " to maintain profitability as prices decline";
            MarketRecs.economic_impact := 1.5;
            MarketRecs.confidence := forecast_confidence forecast |}]
      else [])
  ++ (if one_of (trend_status demand) ["strongly_increasing"; "increasing"] then
        [{| MarketRecs.focus := "Market Expansion";
            MarketRecs.action := "Explore new market channels for " ++ product
              ++ " to capitalize on growing consumer interest";
            MarketRecs.economic_impact := 1.7; MarketRecs.confidence := 0.75 |}]
      else if one_of (trend_status demand) ["decreasing"; "strongly_decreasing"] then
        [{| MarketRecs.focus := "Crop Switching";
            MarketRecs.action := "Consider gradually transitioning from " ++ product
              ++ " to crops with better demand trends";
            MarketRecs.economic_impact := 1.6; MarketRecs.confidence := 0.7 |}]
      else [])
  ++ (match best_season with
      | Some season =>
          [{| MarketRecs.focus := "Timing Optimization";
              MarketRecs.action := "Time your " ++ product ++ " harvest to coincide with "
                ++ season ++ " season for optimal pricing";
              MarketRecs.economic_impact := 1.4; MarketRecs.confidence := 0.8 |}]
      | None => []
      end).

(** *** [analyze_product_market] *)

Record analysis := {
  an_product : string;
  avg_market_price : Q;
  avg_demand_index : Q;
  avg_supply_index : Q;
  market_status : Market.status;
  an_seasonal_analysis : seasonal_analysis;
  an_demand_trend : demand_trend;
  an_price_forecast : price_forecast;
  market_recommendations : list MarketRecs.item
}.

Section Analysis.

Variable power_1_5 : Q -> Q.

(** [analyze_product_market(product_data, time_horizon)].  A frame built
    from no row has no column, and reading one raises [KeyError]. *)
Definition analyze_product_market (rows : list market_record)
    (time_horizon : string) : outcome analysis :=
  match rows, analyze_seasonal_factors rows with
  | first :: _, Some seasonal =>
      let avg_demand := column_mean demand_index rows in
      let avg_supply := column_mean supply_index rows in
      let status := Market.determine_market_status avg_demand avg_supply in
      let demand := analyze_demand_trend rows in
      let forecast := forecast_price power_1_5 rows time_horizon in
      Returned
        {| an_product := product first;
           avg_market_price := column_mean market_price_per_ton rows;
           avg_demand_index := avg_demand;
           avg_supply_index := avg_supply;
           market_status := status;
           an_seasonal_analysis := seasonal;
           an_demand_trend := demand;
           an_price_forecast := forecast;
           market_recommendations :=
             generate_market_recommendations (product first) status forecast demand
               (Some (highest_price_season seasonal)) |}
  | _, _ => Raised KeyError
  end.

End Analysis.

(** *** [recommend_diversification] *)

(** An entry of [top_profit_potential_crops] of the market overview. *)
Record top_crop := {
  tc_product : string;
  profit_potential : Q;
  tc_avg_price : Q;
  tc_market_status : Market.status;
  consumer_trend : Q;
  recommendation : string;
  tc_confidence : Q
}.

Section Diversification.

(** [str.lower] is a parameter. *)
Variable lower : string -> string.

Definition diversification_options (top_crops : list top_crop)
    (current_crop : option string) : list top_crop :=
  match current_crop with
  | Some c =>
      if String.eqb c "" then top_crops
      else filter (fun crop => negb (String.eqb (lower (tc_product crop)) (lower c)))
                  top_crops
  | None => top_crops
  end.

Definition diversification_rec (crop : top_crop) : MarketRecs.item :=
  {| MarketRecs.focus := "Diversification: " ++ tc_product crop;
     MarketRecs.action := "Consider allocating a portion of your land to "
       ++ tc_product crop ++ " as a diversification strategy";
     MarketRecs.economic_impact := profit_potential crop / 100;
     MarketRecs.confidence := tc_confidence crop |}.

Definition risk_management : MarketRecs.item :=
  {| MarketRecs.focus := "Risk Management";
     MarketRecs.action := "Implement a multi-crop strategy to reduce market volatility risks";
     MarketRecs.economic_impact := 1.4; MarketRecs.confidence := 0.85 |}.

(** [recommend_diversification(market_overview, current_crop)], with the
    top crops of the overview as argument. *)
Definition recommend_diversification (top_crops : list top_crop)
    (current_crop : option string) : list MarketRecs.item :=
  (map diversification_rec (firstn 2 (diversification_options top_crops current_crop))
   ++ [risk_management])%list.

End Diversification.

End Pricing.

(** Market rows for the examples: a product whose mean demand index is 150
    and whose mean supply index is 100. *)
Definition scenario_rows : list Pricing.market_record :=
  [ {| Pricing.product := "Rice"; Pricing.market_price_per_ton := 300;
       Pricing.demand_index := 160; Pricing.supply_index := 90;
       Pricing.competitor_price_per_ton := 310; Pricing.economic_indicator := 1;
       Pricing.weather_impact_score := 50; Pricing.seasonal_factor := "High";
       Pricing.consumer_trend_index := 110 |};
    {| Pricing.product := "Rice"; Pricing.market_price_per_ton := 280;
       Pricing.demand_index := 140; Pricing.supply_index := 110;
       Pricing.competitor_price_per_ton := 270; Pricing.economic_indicator := 1;
       Pricing.weather_impact_score := 40; Pricing.seasonal_factor := "Low";
       Pricing.consumer_trend_index := 95 |} ].

(** A stand-in for [x ** 1.5] in the examples. *)
Definition example_power (x : Q) : Q := x * x.

(** Top crops of a market overview for the examples. *)
Definition scenario_top_crops : list Pricing.top_crop :=
  [ {| Pricing.tc_product := "Rice"; Pricing.profit_potential := 450;
       Pricing.tc_avg_price := 290; Pricing.tc_market_status := Market.undersupplied;
       Pricing.consumer_trend := 102; Pricing.recommendation := "Rice shows high profit potential";
       Pricing.tc_confidence := 0.8 |};
    {| Pricing.tc_product := "Corn"; Pricing.profit_potential := 620;
       Pricing.tc_avg_price := 250; Pricing.tc_market_status := Market.balanced;
       Pricing.consumer_trend := 98; Pricing.recommendation := "Corn shows high profit potential";
       Pricing.tc_confidence := 0.8 |};
    {| Pricing.tc_product := "Wheat"; Pricing.profit_potential := 380;
       Pricing.tc_avg_price := 240; Pricing.tc_market_status := Market.oversupplied;
       Pricing.consumer_trend := 88; Pricing.recommendation := "Wheat shows high profit potential";
       Pricing.tc_confidence := 0.8 |} ].

(** ** Predicates on samples *)

(** What the rainfall of a sample has to do with its condition: it is not
    negative, zero on a drought day and twice the region's amplitude on a
    flood day. *)
Definition rain_fits (params : Weather.region_params) (s : Weather.sample) : Prop :=
  0 <= Weather.rainfall_mm s
  /\ (Weather.condition s = "Drought Conditions" -> Weather.rainfall_mm s == 0)
  /\ (Weather.condition s = "Flood Warning" ->
      Weather.rainfall_mm s == Weather.rainfall_variation params * 2).

(** A day with an extreme condition. *)
Definition extreme (s : Weather.sample) : bool :=
  Weather.condition_in (Weather.condition s) ["Drought Conditions"; "Flood Warning"].

(** [random.random()] returns a number of [0, 1). *)
Definition unit_draws {G : Type} `{Weather.Generator G} : Prop :=
  forall g : G, 0 <= fst (Weather.draw g) /\ fst (Weather.draw g) < 1.

(** A current weather and a two-day forecast for the examples. *)
Definition scenario_current : Weather.current_weather :=
  {| Weather.cw_timestamp := fixed_clock 739923 0%nat;
     Weather.cw_season := Weather.fall;
     Weather.cw_temperature_c := 21.5; Weather.cw_rainfall_mm := 1.2;
     Weather.cw_humidity_percent := 78.4; Weather.cw_wind_speed_kph := 11.0;
     Weather.cw_condition := "Clear" |}.

Definition scenario_forecast : list Weather.sample :=
  [ {| Weather.date := 739924; Weather.day := Some 1%Z;
       Weather.sample_season := Weather.fall;
       Weather.temperature_high_c := 24.8; Weather.temperature_low_c := 18.1;
       Weather.rainfall_mm := 4.6; Weather.humidity_percent := 81.6;
       Weather.wind_speed_kph := 12.7; Weather.condition := "Clear" |};
    {| Weather.date := 739925; Weather.day := Some 2%Z;
       Weather.sample_season := Weather.fall;
       Weather.temperature_high_c := 28.3; Weather.temperature_low_c := 22.0;
       Weather.rainfall_mm := 0; Weather.humidity_percent := 74.0;
       Weather.wind_speed_kph := 9.9; Weather.condition := "Drought Conditions" |} ].

(** ** Predicates on recommendation dicts *)

(** A recommendation dict of the weather station: its label is a "focus",
    it has no economic impact, its sustainability impact is positive and
    its confidence lies between [lo] and [hi]. *)
Definition focus_rec (lo hi : Q) (r : Recs.rec) : Prop :=
  Recs.label_key r = "focus"
  /\ Recs.economic_impact r = None
  /\ (exists s, Recs.sustainability_impact r = Some s /\ 0 < s)
  /\ exists c, Recs.confidence r = Some c /\ lo <= c /\ c <= hi.

(** A recommendation dict of the farmer advisor: it carries the three
    numbers, within the bounds of the constants of the source. *)
Definition full_rec (r : Recs.rec) : Prop :=
  (exists s, Recs.sustainability_impact r = Some s /\ 1.5 <= s /\ s <= 2.5)
  /\ (exists e, Recs.economic_impact r = Some e /\ -0.5 <= e /\ e <= 2.0)
  /\ exists c, Recs.confidence r = Some c /\ 0.75 <= c /\ c <= 0.9.

(** A sample whose numbers are in the ranges the generator is meant to
    produce: the low temperature is not above the high one, no rain is
    negative, the humidity is a percentage between 68 and 94 and the wind
    speed lies between 5 and 20 km/h. *)
Definition plausible (s : Weather.sample) : Prop :=
  Weather.temperature_low_c s <= Weather.temperature_high_c s
  /\ 0 <= Weather.rainfall_mm s
  /\ (68 <= Weather.humidity_percent s /\ Weather.humidity_percent s <= 94)
  /\ (5 <= Weather.wind_speed_kph s /\ Weather.wind_speed_kph s <= 20).

(** * Properties *)

(** ** Numbers *)

Lemma ltb_lt (a b : Q) : (a <? b) = true <-> a < b.
Proof.
  unfold Num.ltb. destruct (Qlt_le_dec a b) as [H | H]; split; intro K; auto.
  - discriminate.
  - exfalso. apply (Qlt_irrefl a). apply Qlt_le_trans with b; assumption.
Qed.

Lemma ltb_ge (a b : Q) : (a <? b) = false <-> b <= a.
Proof.
  unfold Num.ltb. destruct (Qlt_le_dec a b) as [H | H]; split; intro K; auto.
  - discriminate.
  - exfalso. apply (Qlt_irrefl a). apply Qlt_le_trans with b; assumption.
Qed.

Lemma leb_le (a b : Q) : (a <=? b) = true <-> a <= b.
Proof. apply Qle_bool_iff. Qed.

(** Case analysis on a comparison, with the fact it decides. *)
Lemma ltb_cases (a b : Q) :
  ((a <? b) = true /\ a < b) \/ ((a <? b) = false /\ b <= a).
Proof.
  destruct (a <? b) eqn:E.
  - left. split; [reflexivity | now apply ltb_lt].
  - right. split; [reflexivity | now apply ltb_ge].
Qed.

Ltac by_cases a b :=
  let E := fresh "E" in
  let K := fresh "K" in
  destruct (ltb_cases a b) as [[E K] | [E K]]; rewrite ?E in *.

(** ** Rounding *)

Lemma round_half_even_bounds (x : Q) :
  (Qfloor x <= Num.round_half_even x <= Qfloor x + 1)%Z.
Proof.
  unfold Num.round_half_even.
  destruct (_ <? _); [lia |]. destruct (_ <? _); [lia |].
  destruct (Z.even _); lia.
Qed.

Lemma round_half_even_monotone (x y : Q) :
  x <= y -> (Num.round_half_even x <= Num.round_half_even y)%Z.
Proof.
  intro Hxy. pose proof (Qfloor_resp_le x y Hxy) as Hf.
  destruct (Z.eq_dec (Qfloor x) (Qfloor y)) as [E | N].
  - unfold Num.round_half_even. rewrite <- E.
    set (f := Qfloor x) in *.
    by_cases (x - inject_Z f) 0.5;
      by_cases (y - inject_Z f) 0.5; try lia; try lra;
      by_cases 0.5 (x - inject_Z f); by_cases 0.5 (y - inject_Z f);
      try lia; try lra; destruct (Z.even f); lia.
  - pose proof (round_half_even_bounds x). pose proof (round_half_even_bounds y). lia.
Qed.

Lemma round1_monotone (x y : Q) : x <= y -> Num.round1 x <= Num.round1 y.
Proof.
  intro Hxy. unfold Num.round1.
  assert (Hz : (Num.round_half_even (x * 10) <= Num.round_half_even (y * 10))%Z)
    by (apply round_half_even_monotone; lra).
  rewrite Zle_Qle in Hz.
  set (a := inject_Z _) in *. set (b := inject_Z _) in *.
  apply Qle_shift_div_l; [lra |].
  assert (E : a / 10 * 10 == a) by (field). lra.
Qed.

Lemma round1_nonnegative (x : Q) : 0 <= x -> 0 <= Num.round1 x.
Proof.
  intro Hx. apply Qle_trans with (Num.round1 0); [| now apply round1_monotone].
  vm_compute. discriminate.
Qed.

(** ** Rounding to the nearest double *)

Lemma two_power_pos (e : Z) : 0 < 2 ^ e.
Proof. apply Qpower_0_lt. reflexivity. Qed.

Lemma two_power_add (a b : Z) : 2 ^ (a + b) == 2 ^ a * 2 ^ b.
Proof. apply Qpower_plus. discriminate. Qed.

Lemma two_power_le (a b : Z) : (a <= b)%Z -> 2 ^ a <= 2 ^ b.
Proof. intro L. apply Qpower_le_compat_l; [assumption | discriminate]. Qed.

Lemma two_power_integer (a : Z) : (0 <= a)%Z -> 2 ^ a == inject_Z (2 ^ a).
Proof. intro L. symmetry. apply (Zpower_Qpower 2 a L). Qed.

Lemma binade_spec (x : Q) :
  0 < x -> 2 ^ Float.binade x <= x /\ x < 2 ^ (Float.binade x + 1).
Proof.
  intro Hx. destruct x as [n d]. unfold Float.binade. cbn [Qnum Qden].
  assert (Hn : (0 < n)%Z) by (unfold Qlt in Hx; cbn in Hx; lia).
  pose proof (Z.log2_spec n Hn) as [Hn1 Hn2].
  pose proof (Z.log2_spec (Zpos d) (Pos2Z.is_pos d)) as [Hd1 Hd2].
  pose proof (Z.log2_nonneg n) as Ha. pose proof (Z.log2_nonneg (Zpos d)) as Hb.
  set (a := Z.log2 n) in *. set (b := Z.log2 (Zpos d)) in *.
  assert (Hq : n # d == inject_Z n / inject_Z (Zpos d)) by (apply Qmake_Qdiv).
  assert (Hdpos : 0 < inject_Z (Zpos d)) by (rewrite <- (Zlt_Qlt 0); lia).
  rewrite Zle_Qle in Hn1, Hd1. rewrite Zlt_Qlt in Hn2, Hd2.
  rewrite <- !two_power_integer in Hn1, Hn2, Hd1, Hd2 by lia.
  unfold Z.succ in Hn2, Hd2.
  set (N := inject_Z n) in *. set (D := inject_Z (Zpos d)) in *.
  destruct (Qle_bool (2 ^ (a - b)) (n # d)) eqn:E.
  - apply Qle_bool_iff in E. split; [exact E |].
    rewrite Hq. apply Qlt_shift_div_r; [assumption |].
    assert (E1 : 2 ^ (a + 1) == 2 ^ (a - b + 1) * 2 ^ b).
    { rewrite <- two_power_add. f_equiv. lia. }
    pose proof (two_power_pos (a - b + 1)). nra.
  - assert (K : n # d < 2 ^ (a - b)).
    { apply Qnot_le_lt. intro K. apply Qle_bool_iff in K. congruence. }
    replace (a - b - 1 + 1)%Z with (a - b)%Z by lia. split; [| exact K].
    rewrite Hq. apply Qle_shift_div_l; [assumption |].
    assert (E1 : 2 ^ a == 2 ^ (a - b - 1) * 2 ^ (b + 1)).
    { rewrite <- two_power_add. f_equiv. lia. }
    pose proof (two_power_pos (a - b - 1)). nra.
Qed.

Lemma binade_monotone (x y : Q) :
  0 < x -> x <= y -> (Float.binade x <= Float.binade y)%Z.
Proof.
  intros Hx Hxy. assert (Hy : 0 < y) by lra.
  destruct (binade_spec x Hx) as [Hx1 _]. destruct (binade_spec y Hy) as [_ Hy2].
  destruct (Z_le_gt_dec (Float.binade x) (Float.binade y)) as [L | L]; [exact L |].
  exfalso. assert (K : 2 ^ (Float.binade y + 1) <= 2 ^ Float.binade x)
    by (apply two_power_le; lia).
  lra.
Qed.

Lemma round_half_even_integer (m : Z) : Num.round_half_even (inject_Z m) = m.
Proof.
  unfold Num.round_half_even. rewrite Qfloor_Z.
  by_cases (inject_Z m - inject_Z m) 0.5; [reflexivity | lra].
Qed.

Lemma round_half_even_of_integer (q : Q) (m : Z) :
  q == inject_Z m -> Num.round_half_even q = m.
Proof.
  intro E. rewrite <- (round_half_even_integer m). apply Z.le_antisymm;
    apply round_half_even_monotone; lra.
Qed.

(** Rounding on the grid of the multiples of [2^e]. *)
Lemma grid_monotone (e : Z) (x y : Q) :
  x <= y ->
  inject_Z (Num.round_half_even (x / 2 ^ e)) * 2 ^ e
  <= inject_Z (Num.round_half_even (y / 2 ^ e)) * 2 ^ e.
Proof.
  intro Hxy. pose proof (two_power_pos e) as Hp.
  apply Qmult_le_compat_r; [| lra].
  rewrite <- Zle_Qle. apply round_half_even_monotone.
  apply Qle_shift_div_l; [assumption |].
  assert (E : x / 2 ^ e * 2 ^ e == x) by (field; lra). lra.
Qed.

Lemma grid_fixed (e m : Z) (p : Q) :
  p == inject_Z m * 2 ^ e ->
  inject_Z (Num.round_half_even (p / 2 ^ e)) * 2 ^ e == p.
Proof.
  intro E. pose proof (two_power_pos e) as Hp.
  rewrite (round_half_even_of_integer (p / 2 ^ e) m).
  - now symmetry.
  - rewrite E. field. lra.
Qed.

Lemma grid_zero (e : Z) : inject_Z (Num.round_half_even (0 / 2 ^ e)) * 2 ^ e == 0.
Proof. apply (grid_fixed e 0). change (inject_Z 0) with 0. ring. Qed.

(** A power of two lies on every grid that is not coarser than it. *)
Lemma two_power_on_grid (e k : Z) :
  (e <= k)%Z -> 2 ^ k == inject_Z (2 ^ (k - e)) * 2 ^ e.
Proof.
  intro L. rewrite <- two_power_integer by lia. rewrite <- two_power_add.
  f_equiv. lia.
Qed.

Lemma exponent_of_positive (x : Q) :
  0 < x -> Float.exponent x = Z.max (Float.binade x - 52) (-1074).
Proof.
  intro Hx. unfold Float.exponent.
  assert (E : Qabs x == x) by (apply Qabs_pos; lra).
  set (a := Qabs x) in *.
  assert (B : Float.binade a = Float.binade x).
  { apply Z.le_antisymm; apply binade_monotone; lra. }
  now rewrite B.
Qed.

Lemma exponent_of_negative (x : Q) :
  x < 0 -> Float.exponent x = Z.max (Float.binade (- x) - 52) (-1074).
Proof.
  intro Hx. unfold Float.exponent.
  assert (E : Qabs x == - x) by (apply Qabs_neg; lra).
  set (a := Qabs x) in *.
  assert (B : Float.binade a = Float.binade (- x)).
  { apply Z.le_antisymm; apply binade_monotone; lra. }
  now rewrite B.
Qed.

Lemma rnd_nonnegative (x : Q) : 0 <= x -> 0 <= Float.rnd x.
Proof.
  intro Hx. unfold Float.rnd. rewrite <- (grid_zero (Float.exponent x)) at 1.
  now apply grid_monotone.
Qed.

Lemma rnd_nonpositive (x : Q) : x <= 0 -> Float.rnd x <= 0.
Proof.
  intro Hx. unfold Float.rnd.
  apply Qle_trans with (inject_Z (Num.round_half_even (0 / 2 ^ Float.exponent x))
                        * 2 ^ Float.exponent x).
  - now apply grid_monotone.
  - rewrite grid_zero. lra.
Qed.

Lemma rnd_monotone_positive (x y : Q) : 0 < x -> x <= y -> Float.rnd x <= Float.rnd y.
Proof.
  intros Hx Hxy. assert (Hy : 0 < y) by lra. unfold Float.rnd.
  rewrite (exponent_of_positive x Hx), (exponent_of_positive y Hy).
  pose proof (binade_monotone x y Hx Hxy) as Hk.
  destruct (binade_spec x Hx) as [_ Hx2]. destruct (binade_spec y Hy) as [Hy1 _].
  set (kx := Float.binade x) in *. set (ky := Float.binade y) in *.
  set (ex := Z.max (kx - 52) (-1074)). set (ey := Z.max (ky - 52) (-1074)).
  destruct (Z.eq_dec ex ey) as [E | N].
  - rewrite E. now apply grid_monotone.
  - assert (L : (kx < ky)%Z) by (subst ex ey; lia).
    assert (Ey : (ey = ky - 52)%Z) by (subst ex ey; lia).
    assert (Hp : 2 ^ (kx + 1) <= 2 ^ ky) by (apply two_power_le; lia).
    pose proof (grid_fixed ex (2 ^ (ky - ex)) (2 ^ ky)
                  ltac:(apply two_power_on_grid; subst ex ey; lia)) as Fx.
    pose proof (grid_fixed ey (2 ^ (ky - ey)) (2 ^ ky)
                  ltac:(apply two_power_on_grid; lia)) as Fy.
    pose proof (grid_monotone ex x (2 ^ ky) ltac:(lra)) as Mx.
    pose proof (grid_monotone ey (2 ^ ky) y Hy1) as My.
    lra.
Qed.

Lemma rnd_monotone_negative (x y : Q) : y < 0 -> x <= y -> Float.rnd x <= Float.rnd y.
Proof.
  intros Hy Hxy. assert (Hx : x < 0) by lra. unfold Float.rnd.
  rewrite (exponent_of_negative x Hx), (exponent_of_negative y Hy).
  assert (Hny : 0 < - y) by lra. assert (Hnx : 0 < - x) by lra.
  pose proof (binade_monotone (- y) (- x) Hny ltac:(lra)) as Hk.
  destruct (binade_spec (- x) Hnx) as [Hx1 _]. destruct (binade_spec (- y) Hny) as [_ Hy2].
  set (kx := Float.binade (- x)) in *. set (ky := Float.binade (- y)) in *.
  set (ex := Z.max (kx - 52) (-1074)). set (ey := Z.max (ky - 52) (-1074)).
  destruct (Z.eq_dec ex ey) as [E | N].
  - rewrite E. now apply grid_monotone.
  - assert (L : (ky < kx)%Z) by (subst ex ey; lia).
    assert (Ex : (ex = kx - 52)%Z) by (subst ex ey; lia).
    assert (Hp : 2 ^ (ky + 1) <= 2 ^ kx) by (apply two_power_le; lia).
    assert (Gx : - 2 ^ kx == inject_Z (- 2 ^ (kx - ex)) * 2 ^ ex).
    { rewrite inject_Z_opp. rewrite (two_power_on_grid ex kx) at 1 by lia. ring. }
    assert (Gy : - 2 ^ kx == inject_Z (- 2 ^ (kx - ey)) * 2 ^ ey).
    { rewrite inject_Z_opp. rewrite (two_power_on_grid ey kx) at 1 by (subst ex ey; lia).
      ring. }
    pose proof (grid_fixed ex _ _ Gx) as Fx. pose proof (grid_fixed ey _ _ Gy) as Fy.
    pose proof (grid_monotone ex x (- 2 ^ kx) ltac:(lra)) as Mx.
    pose proof (grid_monotone ey (- 2 ^ kx) y ltac:(lra)) as My.
    lra.
Qed.

(** Rounding to the nearest double is monotone. *)
Lemma rnd_monotone (x y : Q) : x <= y -> Float.rnd x <= Float.rnd y.
Proof.
  intro Hxy. destruct (Qlt_le_dec 0 x) as [Hx | Hx].
  - now apply rnd_monotone_positive.
  - destruct (Qlt_le_dec y 0) as [Hy | Hy].
    + now apply rnd_monotone_negative.
    + apply Qle_trans with 0; [now apply rnd_nonpositive | now apply rnd_nonnegative].
Qed.

Lemma rnd_compat (x y : Q) : x == y -> Float.rnd x == Float.rnd y.
Proof. intro E. apply Qle_antisym; apply rnd_monotone; lra. Qed.

(** A number at or beyond a double stays so when rounded. *)
Lemma rnd_above (p x : Q) : Float.rnd p == p -> p <= x -> p <= Float.rnd x.
Proof. intros E L. rewrite <- E. now apply rnd_monotone. Qed.

Lemma rnd_below (p x : Q) : Float.rnd p == p -> x <= p -> Float.rnd x <= p.
Proof. intros E L. rewrite <- E. now apply rnd_monotone. Qed.

(** ** Soil analysis *)

(** C7.  A parcel whose soil pH lies strictly between 5.5 and 7.5 and whose
    soil moisture lies between 20 and 40 inclusive gets the pH status
    "optimal", the moisture status "optimal" and no soil recommendation. *)
Theorem soil_optimal_no_recommendations (p : parcel) :
  5.5 < soil_ph p -> soil_ph p < 7.5 ->
  20 <= soil_moisture p -> soil_moisture p <= 40 ->
  let r := Soil.analyze_soil_data (Soil.of_parcel p) in
  Soil.ph_status r = Some "optimal"
  /\ Soil.moisture_status r = Some "optimal"
  /\ Soil.recommendations r = [].
Proof.
  intros Hlo Hhi Mlo Mhi.
  unfold Soil.analyze_soil_data, Soil.ph_analysis, Soil.of_parcel. cbn.
  by_cases (soil_ph p) 5.5; [lra |].
  by_cases 7.5 (soil_ph p); [lra |].
  unfold Soil.moisture_analysis. cbn.
  by_cases (soil_moisture p) 20; [lra |].
  by_cases 40 (soil_moisture p); [lra |].
  cbn. repeat split.
Qed.

Lemma soil_optimal_no_recommendations_witness :
  let r := Soil.analyze_soil_data (Soil.of_parcel scenario_parcel) in
  Soil.ph_status r = Some "optimal"
  /\ Soil.moisture_status r = Some "optimal"
  /\ Soil.recommendations r = [].
Proof.
  apply (soil_optimal_no_recommendations scenario_parcel);
    unfold scenario_parcel; cbn; lra.
Defined.

(** ** Market status *)

Lemma status_of_ratio (demand supply : Q) :
  0 < supply ->
  Market.determine_market_status demand supply =
    if Float.div demand supply >? Float.lit 1.2 then Market.undersupplied
    else if Float.div demand supply <? Float.lit 0.8 then Market.oversupplied
    else Market.balanced.
Proof.
  intro Hs. unfold Market.determine_market_status, Market.demand_supply_ratio.
  by_cases 0 supply; [reflexivity | lra].
Qed.

Lemma ratio_monotone (demand demand' supply : Q) :
  0 < supply -> demand <= demand' ->
  Float.div demand supply <= Float.div demand' supply.
Proof.
  intros Hs Hd. apply rnd_monotone. unfold Qdiv.
  apply Qmult_le_compat_r; [assumption |].
  apply Qlt_le_weak, Qinv_lt_0_compat, Hs.
Qed.

(** The doubles next to the two thresholds. *)
Lemma doubles_at_the_thresholds :
  (Float.rnd (Float.lit 1.2) == Float.lit 1.2
   /\ Float.lit 1.2 < Float.lit 1.2 + 2 ^ (-52)
   /\ Float.rnd (Float.lit 1.2 + 2 ^ (-52)) == Float.lit 1.2 + 2 ^ (-52)
   /\ 1.1999999999999999 <= Float.lit 1.2
   /\ Float.lit 1.2 + 2 ^ (-52) <= 1.2000000000000002)
  /\ (Float.rnd (Float.lit 0.8) == Float.lit 0.8
      /\ Float.lit 0.8 - 2 ^ (-53) < Float.lit 0.8
      /\ Float.rnd (Float.lit 0.8 - 2 ^ (-53)) == Float.lit 0.8 - 2 ^ (-53)
      /\ 0.7999999999999999 <= Float.lit 0.8 - 2 ^ (-53)
      /\ Float.lit 0.8 <= 0.8000000000000001).
Proof. vm_compute. repeat split; discriminate. Qed.

(** The status in terms of the exact quotient, away from the thresholds. *)
Lemma status_by_exact_quotient (demand supply : Q) :
  0 < supply ->
  (1.2000000000000002 <= demand / supply ->
   Market.determine_market_status demand supply = Market.undersupplied)
  /\ (demand / supply <= 0.7999999999999999 ->
      Market.determine_market_status demand supply = Market.oversupplied)
  /\ (0.8000000000000001 <= demand / supply ->
      demand / supply <= 1.1999999999999999 ->
      Market.determine_market_status demand supply = Market.balanced).
Proof.
  intro Hs. rewrite status_of_ratio by assumption.
  destruct doubles_at_the_thresholds
    as [[Ehi [Lhi [Ehi' [Bhi Bhi']]]] [Elo [Llo [Elo' [Blo' Blo]]]]].
  unfold Float.div. set (q := demand / supply).
  set (hi := Float.lit 1.2) in *. set (lo := Float.lit 0.8) in *.
  assert (L : lo < hi) by (vm_compute; reflexivity).
  split; [| split].
  - intro Hq. pose proof (rnd_above _ q Ehi' ltac:(lra)) as Hr.
    by_cases hi (Float.rnd q); [reflexivity | lra].
  - intro Hq. pose proof (rnd_below _ q Elo' ltac:(lra)) as Hr.
    by_cases hi (Float.rnd q); [lra |].
    by_cases (Float.rnd q) lo; [reflexivity | lra].
  - intros Hq1 Hq2.
    pose proof (rnd_above _ q Elo ltac:(lra)) as Hr1.
    pose proof (rnd_below _ q Ehi ltac:(lra)) as Hr2.
    by_cases hi (Float.rnd q); [lra |].
    by_cases (Float.rnd q) lo; [lra | reflexivity].
Qed.

(** C8, as the code has it.  Raising the demand at a fixed supply never
    moves the market status towards oversupplied.  A supply that is not
    positive counts as an infinite ratio, hence undersupplied.  For a
    positive supply the quotient demand/supply is rounded to a double, and
    the status is undersupplied when that double exceeds the double 1.2,
    oversupplied when it is below the double 0.8 and balanced otherwise.  In
    terms of the exact quotient: it decides the status whenever it is not
    within 2e-16 of 1.2 or of 0.8. *)
Theorem market_status_monotone (demand demand' supply : Q) :
  demand <= demand' ->
  (Market.rank (Market.determine_market_status demand supply)
   <= Market.rank (Market.determine_market_status demand' supply))%nat
  /\ (supply <= 0 ->
      Market.demand_supply_ratio demand supply = Market.Infinite
      /\ Market.determine_market_status demand supply = Market.undersupplied)
  /\ (0 < supply ->
      let ratio := Float.div demand supply in
      Market.demand_supply_ratio demand supply = Market.Finite ratio
      /\ (Float.lit 1.2 < ratio ->
          Market.determine_market_status demand supply = Market.undersupplied)
      /\ (ratio < Float.lit 0.8 ->
          Market.determine_market_status demand supply = Market.oversupplied)
      /\ (Float.lit 0.8 <= ratio -> ratio <= Float.lit 1.2 ->
          Market.determine_market_status demand supply = Market.balanced))
  /\ (0 < supply ->
      (1.2000000000000002 <= demand / supply ->
       Market.determine_market_status demand supply = Market.undersupplied)
      /\ (demand / supply <= 0.7999999999999999 ->
          Market.determine_market_status demand supply = Market.oversupplied)
      /\ (0.8000000000000001 <= demand / supply ->
          demand / supply <= 1.1999999999999999 ->
          Market.determine_market_status demand supply = Market.balanced)).
Proof.
  intro Hd. split; [| split; [| split]].
  - destruct (Qlt_le_dec 0 supply) as [Hs | Hs].
    + pose proof (ratio_monotone demand demand' supply Hs Hd) as Hr.
      rewrite !status_of_ratio by assumption.
      set (r := Float.div demand supply) in *.
      set (r' := Float.div demand' supply) in *.
      set (hi := Float.lit 1.2). set (lo := Float.lit 0.8).
      by_cases hi r; by_cases hi r'; try (cbn; lia); try lra;
        by_cases r lo; by_cases r' lo; try (cbn; lia); lra.
    + unfold Market.determine_market_status, Market.demand_supply_ratio.
      by_cases 0 supply; [lra | cbn; lia].
  - intro Hs. unfold Market.determine_market_status, Market.demand_supply_ratio.
    by_cases 0 supply; [lra | split; reflexivity].
  - intro Hs. cbv zeta. rewrite status_of_ratio by assumption.
    set (r := Float.div demand supply).
    set (hi := Float.lit 1.2). set (lo := Float.lit 0.8).
    split; [| split; [| split]].
    + unfold Market.demand_supply_ratio. by_cases 0 supply; [reflexivity | lra].
    + intro Hr. by_cases hi r; [reflexivity | lra].
    + intro Hr. assert (L : lo < hi) by (vm_compute; reflexivity).
      by_cases hi r; [lra |]. by_cases r lo; [reflexivity | lra].
    + intros Hlo Hhi. by_cases hi r; [lra |]. by_cases r lo; [lra | reflexivity].
  - intro Hs. exact (status_by_exact_quotient demand supply Hs).
Qed.

Lemma market_status_monotone_witness :
  (Market.rank (Market.determine_market_status 100 100)
   <= Market.rank (Market.determine_market_status 150 100))%nat
  /\ Market.determine_market_status 150 100 = Market.undersupplied.
Proof.
  assert (H : 100 <= 150) by lra.
  pose proof (market_status_monotone 100 150 100 H) as [Hm _].
  split; [exact Hm | reflexivity].
Defined.

(** C8, as the design document has it, fails at the edge of a band.  For
    the demand 3.6 (the double nearest to it) and the supply 3 the quotient
    exceeds 1.2, but it is nearer to the double 1.2 than to the next double:
    the float division returns the double 1.2, which does not exceed 1.2,
    and the status is balanced. *)
Lemma status_at_the_band_edge :
  1.2 < Float.lit 3.6 / 3
  /\ Float.div (Float.lit 3.6) 3 == Float.lit 1.2
  /\ Market.determine_market_status (Float.lit 3.6) 3 = Market.balanced.
Proof. vm_compute. repeat split. Qed.

(** ** The weather station *)

Section WeatherFacts.

Context {G : Type} `{Weather.Generator G}.
Import Weather Calendar.

(** One step of a run: a draw is named, a comparison of draws is decided. *)
Ltac step :=
  match goal with
  | |- context [draw ?g] => destruct (draw g) as [? ?] eqn:?; cbn
  | |- context [if ?a <? ?b then _ else _] => destruct (a <? b) eqn:?; cbn
  end.

Ltac run_monad :=
  unfold State.bind, State.ret, random, datetime_now, get_current_season; cbn;
  repeat step.

Lemma configured_lookup (region : string) :
  In region (map fst regions) -> exists params, lookup region regions = Some params.
Proof.
  cbn. intros [E | [E | [E | []]]]; subst region; cbn; eauto.
Qed.

Lemma configured_amplitude (region : string) (params : region_params) :
  lookup region regions = Some params -> 0 < rainfall_variation params.
Proof.
  cbn. repeat (destruct (String.eqb region _); [intro E; injection E as <-; cbn; lra |]).
  discriminate.
Qed.

Lemma range_length (a b : Z) : List.length (range a b) = Z.to_nat (b - a).
Proof. unfold range. now rewrite length_map, length_seq. Qed.

Lemma range_nth (a b : Z) (i : nat) :
  (i < Z.to_nat (b - a))%nat -> nth_error (range a b) i = Some (a + Z.of_nat i)%Z.
Proof.
  intro Hi. unfold range. rewrite nth_error_map, nth_error_seq.
  destruct (Nat.ltb_spec i (Z.to_nat (b - a))); [reflexivity | lia].
Qed.

Lemma range_empty (a b : Z) : (b <= a)%Z -> range a b = [].
Proof.
  intro Hb. unfold range. replace (Z.to_nat (b - a)) with 0%nat by lia. reflexivity.
Qed.

(** *** The forecast loop *)

Lemma forecast_day_date now params d tt rt (w : world G) :
  date (tr_sample (fst (forecast_day now params d tt rt w)))
  = (ordinal (now (tick w)) + d)%Z.
Proof. unfold forecast_day, roll_event. run_monad; reflexivity. Qed.

Lemma normal_condition_ladder params (rain temp : Q) :
  0 < rainfall_variation params ->
  ladder_tag params rain temp (normal_condition params rain temp).
Proof.
  intro Hrv. unfold ladder_tag, normal_condition. cbv zeta.
  set (half := rainfall_variation params / 2) in *.
  assert (Hhalf : rainfall_variation params == 2 * half) by (unfold half; field).
  by_cases (rainfall_variation params) rain.
  { repeat split; intros; try reflexivity; lra. }
  by_cases half rain.
  { repeat split; intros; try reflexivity; lra. }
  by_cases (base_temp params + temp_variation params) temp.
  { repeat split; intros; try reflexivity; lra. }
  by_cases temp (base_temp params - temp_variation params);
    repeat split; intros; try reflexivity; lra.
Qed.

Lemma forecast_day_ladder now region params d tt rt (w : world G) :
  lookup region regions = Some params ->
  ladder_day params (rng w) (fst (forecast_day now params d tt rt w)).
Proof.
  intro Hr. pose proof (configured_amplitude region params Hr) as Hrv.
  unfold ladder_day, roll, forecast_day, roll_event. cbn [after].
  run_monad;
    repeat match goal with
           | E : (_, _) = (_, _) |- _ => injection E as ? ?; subst
           end;
    try congruence; repeat split; now apply normal_condition_ladder.
Qed.

Lemma forecast_loop_length now params days tt rt (w : world G) :
  List.length (fst (forecast_loop now params days tt rt w)) = List.length days.
Proof.
  revert tt rt w. induction days as [| d days IH]; intros tt rt w; [reflexivity |].
  cbn. unfold State.bind, State.ret.
  destruct (forecast_day now params d tt rt w) as [tr w1].
  specialize (IH (tr_temp_trend tr) (tr_rain_trend tr) w1).
  destruct (forecast_loop now params days _ _ w1) as [trs w2].
  cbn in *. now rewrite IH.
Qed.

Lemma forecast_day_tick now params d tt rt (w : world G) :
  tick (snd (forecast_day now params d tt rt w)) = S (tick w).
Proof. unfold forecast_day, roll_event. run_monad; reflexivity. Qed.

Lemma current_weather_tick now params (w : world G) :
  tick (snd (generate_current_weather now params w)) = S (S (tick w)).
Proof. unfold generate_current_weather. run_monad. reflexivity. Qed.

(** The i-th day of the loop is dated from the i-th reading of the clock
    the loop makes. *)
Lemma forecast_loop_dates now params days tt rt (w : world G) i d :
  nth_error days i = Some d ->
  nth_error (map (fun tr => date (tr_sample tr))
               (fst (forecast_loop now params days tt rt w))) i
  = Some (ordinal (now (tick w + i)%nat) + d)%Z.
Proof.
  revert tt rt w i. induction days as [| d0 days IH]; intros tt rt w i Hi.
  - destruct i; discriminate Hi.
  - cbn [forecast_loop]. unfold State.bind, State.ret.
    pose proof (forecast_day_date now params d0 tt rt w) as Hd.
    pose proof (forecast_day_tick now params d0 tt rt w) as Ht.
    destruct (forecast_day now params d0 tt rt w) as [tr w1].
    specialize (IH (tr_temp_trend tr) (tr_rain_trend tr) w1).
    destruct (forecast_loop now params days _ _ w1) as [trs w2].
    cbn [fst snd map] in *. destruct i as [| i].
    + cbn in Hi. injection Hi as <-. cbn. rewrite Hd, Nat.add_0_r. reflexivity.
    + cbn [nth_error] in *. rewrite (IH i Hi), Ht.
      replace (S (tick w) + i)%nat with (tick w + S i)%nat by lia. reflexivity.
Qed.

Lemma forecast_loop_ladder now region params days tt rt (w : world G) :
  lookup region regions = Some params ->
  Forall
    (fun tr => exists (w0 : world G) (d : Z) (tt0 rt0 : Q),
       tr = fst (forecast_day now params d tt0 rt0 w0)
       /\ ladder_day params (rng w0) tr)
    (fst (forecast_loop now params days tt rt w)).
Proof.
  intro Hr. revert tt rt w.
  induction days as [| d days IH]; intros tt rt w; [constructor |].
  cbn. unfold State.bind, State.ret.
  pose proof (forecast_day_ladder now region params d tt rt w Hr) as Hd.
  assert (Hrun : exists (w0 : world G) (d0 : Z) (tt0 rt0 : Q),
            fst (forecast_day now params d tt rt w)
            = fst (forecast_day now params d0 tt0 rt0 w0)
            /\ ladder_day params (rng w0) (fst (forecast_day now params d tt rt w)))
    by (exists w, d, tt, rt; split; [reflexivity | exact Hd]).
  clear Hd. destruct (forecast_day now params d tt rt w) as [tr w1].
  specialize (IH (tr_temp_trend tr) (tr_rain_trend tr) w1).
  destruct (forecast_loop now params days _ _ w1) as [trs w2].
  cbn [fst] in *. constructor; assumption.
Qed.

(** The forecast of a configured region is the samples of its trace. *)
Lemma generate_forecast_trace now region params days (w : world G) :
  lookup region regions = Some params ->
  fst (generate_forecast now region days w)
  = Returned (map tr_sample (fst (forecast_trace now params days w))).
Proof.
  intro Hr. unfold generate_forecast. rewrite Hr. unfold State.bind, State.ret.
  destruct (forecast_trace now params days w) as [trs w1]. reflexivity.
Qed.

Lemma forecast_trace_length now params days (w : world G) :
  List.length (fst (forecast_trace now params days w)) = Z.to_nat days.
Proof.
  unfold forecast_trace, State.bind.
  destruct (generate_current_weather now params w) as [cw w1].
  rewrite forecast_loop_length, range_length. f_equal. lia.
Qed.

(** C2, as the code has it.  For a configured region and [days > 0], and
    as long as the dates stay within the range of [datetime], the forecast
    has exactly [days] samples.  The i-th sample (from 0) is dated [1 + i]
    days after the day the clock shows when the loop reads it for that
    sample.  With the clock showing the day [today] throughout the call,
    that is [today + 1 + i]: the dates start tomorrow and go up by one day
    from each sample to the next. *)
Theorem forecast_length_and_dates (now : clock) (region : string) (days : Z)
    (w : world G) :
  In region (map fst regions) -> (0 < days)%Z ->
  (forall i, (i < Z.to_nat days)%nat ->
     in_range (ordinal (now (tick w + 2 + i)%nat) + 1 + Z.of_nat i)) ->
  exists forecast,
    fst (generate_forecast now region days w) = Returned forecast
    /\ List.length forecast = Z.to_nat days
    /\ (forall i, (i < Z.to_nat days)%nat ->
          nth_error (map date forecast) i
          = Some (ordinal (now (tick w + 2 + i)%nat) + 1 + Z.of_nat i)%Z)
    /\ (forall today, (forall t, ordinal (now t) = today) ->
          forall i, (i < Z.to_nat days)%nat ->
            nth_error (map date forecast) i = Some (today + 1 + Z.of_nat i)%Z).
Proof.
  intros Hin Hdays _. destruct (configured_lookup region Hin) as [params Hr].
  exists (map tr_sample (fst (forecast_trace now params days w))).
  split; [now apply generate_forecast_trace |].
  split; [now rewrite length_map, forecast_trace_length |].
  assert (Hat : forall i, (i < Z.to_nat days)%nat ->
            nth_error (map date (map tr_sample (fst (forecast_trace now params days w)))) i
            = Some (ordinal (now (tick w + 2 + i)%nat) + 1 + Z.of_nat i)%Z).
  { intros i Hi. rewrite map_map. unfold forecast_trace, State.bind.
    pose proof (current_weather_tick now params w) as Ht.
    destruct (generate_current_weather now params w) as [cw w1]. cbn [snd] in Ht.
    rewrite (forecast_loop_dates now params _ 0 0 w1 i (1 + Z.of_nat i)%Z)
      by (apply range_nth; lia).
    rewrite Ht.
    replace (S (S (tick w)) + i)%nat with (tick w + 2 + i)%nat by lia.
    f_equal. lia. }
  split; [exact Hat |].
  intros today Hnow i Hi. rewrite (Hat i Hi), Hnow. reflexivity.
Qed.

(** C6.  Every day of a forecast is as the design document describes it,
    for the generator that day starts with.  The day is a drought day when
    its drought roll is below the drought probability of the region, and
    otherwise a flood day when its flood roll is below the flood
    probability.  A drought day carries the tag "Drought Conditions" and a
    flood day the tag "Flood Warning", whatever the ladder would give; any
    other day carries the tag the threshold ladder gives to the day's
    rainfall and temperature.  These are the rainfall the sample reports to
    one decimal and the temperature its high and low are taken around. *)
Theorem forecast_condition_ladder (now : clock) (region : string)
    (params : region_params) (days : Z) (w : world G) (forecast : list sample) :
  lookup region regions = Some params ->
  fst (generate_forecast now region days w) = Returned forecast ->
  exists trace,
    forecast = map tr_sample trace
    /\ Forall
         (fun tr => exists (w0 : world G) (d : Z) (tt rt : Q),
            tr = fst (forecast_day now params d tt rt w0)
            /\ ladder_day params (rng w0) tr)
         trace.
Proof.
  intros Hr Hf. rewrite (generate_forecast_trace now region params days w Hr) in Hf.
  injection Hf as <-. eexists. split; [reflexivity |].
  unfold forecast_trace, State.bind.
  destruct (generate_current_weather now params w) as [cw w1].
  now apply (forecast_loop_ladder now region).
Qed.

(** *** Historical data *)

Lemma normal_condition_tag params rainfall temperature :
  In (normal_condition params rainfall temperature) normal_tags.
Proof.
  unfold normal_condition, normal_tags.
  repeat match goal with
         | |- context [if ?b then _ else _] => destruct b
         end; cbn; auto 6.
Qed.

Lemma normal_tags_not_extreme (c : string) :
  In c normal_tags -> c <> "Drought Conditions" /\ c <> "Flood Warning".
Proof.
  cbn. intros [E | [E | [E | [E | [E | []]]]]]; subst c; split; discriminate.
Qed.




(** *** The impact classifier and the queries *)

(** C9.  Applied to an empty forecast, the impact classifier raises
    [ZeroDivisionError]: its first statement divides by the length of the
    forecast.  No clock reading and no draw is made before. *)
Theorem impact_of_empty_forecast_raises (now : clock) (current : current_weather)
    (region : string) (w : world G) :
  assess_agricultural_impact now current [] region w = (Raised ZeroDivisionError, w).
Proof. reflexivity. Qed.

(** On a forecast that is not empty the classifier returns, with one
    reading of the clock and no draw. *)
Lemma impact_of_forecast_returns now current forecast region (w : world G) :
  forecast <> [] ->
  exists i,
    assess_agricultural_impact now current forecast region w
    = (Returned i, {| rng := rng w; tick := S (tick w) |}).
Proof.
  intro Hne. destruct forecast as [| s ss]; [congruence |].
  unfold assess_agricultural_impact.
  destruct (temperature_assessment _) as [ti recs1].
  destruct (rainfall_assessment _) as [ri recs2].
  unfold State.bind, State.ret, get_current_season, datetime_now. cbn. eauto.
Qed.

Lemma forecast_of_no_days now region params days (w : world G) :
  lookup region regions = Some params -> (days <= 0)%Z ->
  fst (generate_forecast now region days w) = Returned [].
Proof.
  intros Hr Hd. rewrite (generate_forecast_trace now region params) by assumption.
  unfold forecast_trace, State.bind.
  destruct (generate_current_weather now params w) as [cw w1].
  rewrite range_empty by lia. reflexivity.
Qed.

(** A query for no days, or fewer, of a configured region ends in the
    exception of the classifier. *)
Lemma query_of_no_days_raises now region params days sd (w : world G) :
  lookup region regions = Some params -> (days <= 0)%Z ->
  fst (process_input now region days false sd w) = Raised ZeroDivisionError.
Proof.
  intros Hr Hd. unfold process_input. rewrite Hr. unfold State.bind.
  destruct (generate_current_weather now params w) as [cw w1].
  pose proof (forecast_of_no_days now region params days w1 Hr Hd) as Hf.
  destruct (generate_forecast now region days w1) as [f w2]. cbn in Hf. subst f.
  reflexivity.
Qed.

(** C4, as the code has it.  A query for a region that is not configured
    returns the error "Unknown region: ..." and leaves the world as it was:
    no number is drawn and no sample made.  The forecast of a configured
    region for [days <= 0] is the empty sequence; no error is returned for
    it. *)
Theorem unknown_region_refused_and_empty_range (now : clock) (region : string)
    (days : Z) (include_historical : bool) (specific_date : date_argument)
    (w : world G) :
  (lookup region regions = None ->
   process_input now region days include_historical specific_date w
   = (Returned (Error ("Unknown region: " ++ region)), w))
  /\ (In region (map fst regions) -> (days <= 0)%Z ->
      fst (generate_forecast now region days w) = Returned []).
Proof.
  split.
  - intro Hr. unfold process_input. rewrite Hr. reflexivity.
  - intros Hin Hd. destruct (configured_lookup region Hin) as [params Hr].
    now apply (forecast_of_no_days now region params).
Qed.

(** *** Reproducibility *)

Lemma forecast_day_clock now1 now2 params d tt rt (w : world G) :
  ordinal (now1 (tick w)) = ordinal (now2 (tick w)) ->
  forecast_day now1 params d tt rt w = forecast_day now2 params d tt rt w.
Proof.
  intro E. unfold forecast_day, State.bind, datetime_now. cbn. rewrite E. reflexivity.
Qed.

Lemma forecast_loop_clock now1 now2 params days tt rt (w : world G) :
  (forall t, ordinal (now1 t) = ordinal (now2 t)) ->
  forecast_loop now1 params days tt rt w = forecast_loop now2 params days tt rt w.
Proof.
  intro E. revert tt rt w. induction days as [| d days IH]; intros tt rt w; [reflexivity |].
  cbn. unfold State.bind. rewrite (forecast_day_clock now1 now2) by apply E.
  destruct (forecast_day now2 params d tt rt w) as [tr w1]. now rewrite IH.
Qed.

Lemma current_weather_clock now1 now2 params (w : world G) :
  (forall t, ordinal (now1 t) = ordinal (now2 t)) ->
  snd (generate_current_weather now1 params w)
  = snd (generate_current_weather now2 params w).
Proof.
  intro E. unfold generate_current_weather. run_monad. reflexivity.
Qed.

(** C3, as the code has it.  Two runs that seed the generator and ask for
    the forecast of the same region and number of days return the same
    samples, whatever the generator held before, when their clocks show the
    same days at the same readings. *)
Theorem seeded_forecast_reproducible (now1 now2 : clock) (region : string)
    (days : Z) (w1 w2 : world G) :
  (forall t, ordinal (now1 t) = ordinal (now2 t)) ->
  tick w1 = tick w2 ->
  fst (seeded_forecast now1 region days w1) = fst (seeded_forecast now2 region days w2).
Proof.
  intros E Ht. unfold seeded_forecast, State.bind, init. rewrite Ht.
  set (w := {| rng := seed 42; tick := tick w2 |}).
  unfold generate_forecast. destruct (lookup region regions) as [params |]; [| reflexivity].
  unfold State.bind, State.ret, forecast_trace, State.bind.
  pose proof (current_weather_clock now1 now2 params w E) as Hw.
  destruct (generate_current_weather now1 params w) as [cw1 wa].
  destruct (generate_current_weather now2 params w) as [cw2 wb].
  cbn in Hw. subst wb.
  rewrite (forecast_loop_clock now1 now2) by assumption.
  destruct (forecast_loop now2 params _ 0 0 wa) as [trs wc]. reflexivity.
Qed.

End WeatherFacts.

Lemma forecast_length_and_dates_witness :
  exists forecast,
    fst (Weather.generate_forecast (fixed_clock 739923) "central" 3 fresh_world)
    = Returned forecast
    /\ List.length forecast = 3%nat
    /\ nth_error (map Weather.date forecast) 0 = Some 739924%Z.
Proof.
  destruct (forecast_length_and_dates (fixed_clock 739923) "central" 3 fresh_world)
    as [forecast [Hf [Hl Hd]]].
  - cbn. auto.
  - lia.
  - intros i Hi. change (Z.to_nat 3) with 3%nat in Hi.
    unfold Calendar.in_range, Calendar.min_ordinal, Calendar.max_ordinal, fixed_clock.
    cbn [Calendar.ordinal]. lia.
  - destruct Hd as [_ Hd]. exists forecast. split; [exact Hf |]. split; [exact Hl |].
    apply (Hd 739923%Z); [reflexivity | cbn; lia].
Defined.

(** C2, as the design document has it, fails: the dates are counted from
    the day the clock shows at each reading.  A forecast of two days made
    across midnight, the clock passing to the next day between the two
    samples, has its samples dated one and three days after the day the call
    began: a date is skipped. *)
Lemma forecast_across_midnight_skips_a_day :
  exists forecast,
    fst (Weather.generate_forecast (midnight_clock 739923 3) "central" 2 fresh_world)
    = Returned forecast
    /\ map Weather.date forecast = [739924; 739926]%Z.
Proof. eexists. split; vm_compute; reflexivity. Qed.

Lemma forecast_condition_ladder_witness :
  exists forecast trace,
    fst (Weather.generate_forecast (fixed_clock 739923) "central" 2 fresh_world)
    = Returned forecast
    /\ forecast = map Weather.tr_sample trace
    /\ Forall
         (fun tr => exists (w0 : Weather.world Z) (d : Z) (tt rt : Q),
            tr = fst (Weather.forecast_day (fixed_clock 739923) Weather.central d tt rt w0)
            /\ ladder_day Weather.central (Weather.rng w0) tr)
         trace.
Proof.
  destruct (Weather.generate_forecast (fixed_clock 739923) "central" 2 fresh_world)
    as [[forecast | e] w1] eqn:E.
  - destruct (forecast_condition_ladder (fixed_clock 739923) "central" Weather.central 2
                fresh_world forecast eq_refl) as [trace [Hm Hl]].
    + now rewrite E.
    + exists forecast, trace. split; [reflexivity |]. split; [exact Hm | exact Hl].
  - vm_compute in E. discriminate E.
Defined.


Lemma unknown_region_refused_and_empty_range_witness :
  Weather.process_input (fixed_clock 739923) "mars" 7 false Weather.NoDate fresh_world
  = (Returned (Weather.Error "Unknown region: mars"), fresh_world).
Proof.
  apply (unknown_region_refused_and_empty_range (fixed_clock 739923) "mars" 7 false
           Weather.NoDate fresh_world).
  reflexivity.
Defined.

(** C4, as the design document has it, fails: the query of a configured
    region for no days returns no error result (it ends in the exception of
    the classifier), and the forecast operation itself returns the empty
    sequence. *)
Lemma nonpositive_days_not_rejected :
  ~ (exists message,
       fst (Weather.process_input (fixed_clock 739923) "central" 0 false
              Weather.NoDate fresh_world)
       = Returned (Weather.Error message))
  /\ fst (Weather.generate_forecast (fixed_clock 739923) "central" 0 fresh_world)
     = Returned [].
Proof.
  split.
  - intros [message E].
    rewrite (query_of_no_days_raises (fixed_clock 739923) "central" _ 0 Weather.NoDate
               fresh_world eq_refl) in E by lia.
    discriminate.
  - reflexivity.
Qed.

Lemma seeded_forecast_reproducible_witness :
  fst (seeded_forecast (fixed_clock 739923) "central" 7 fresh_world)
  = fst (seeded_forecast (fixed_clock 739923) "central" 7
           {| Weather.rng := 2026%Z; Weather.tick := 0 |}).
Proof.
  apply (seeded_forecast_reproducible (fixed_clock 739923) (fixed_clock 739923)
           "central" 7 fresh_world {| Weather.rng := 2026%Z; Weather.tick := 0 |});
    reflexivity.
Defined.

(** C3, as the design document has it, fails: the seed alone does not fix
    the samples.  Seeded alike, the forecast asked for on one day and the
    forecast asked for on the next differ. *)
Lemma forecast_depends_on_the_day :
  fst (seeded_forecast (fixed_clock 739923) "central" 1 fresh_world)
  <> fst (seeded_forecast (fixed_clock 739924) "central" 1 fresh_world).
Proof.
  vm_compute. intro E. discriminate E.
Qed.

(** ** The synthesis engine *)

Section SortFacts.

Import Synthesis.

Lemma insert_permutation (x : action_item) (l : list action_item) :
  Permutation (insert x l) (x :: l).
Proof.
  induction l as [| y l IH]; cbn; [reflexivity |].
  destruct (score x <? score y); [| reflexivity].
  rewrite IH. apply perm_swap.
Qed.

Lemma sort_permutation (l : list action_item) : Permutation (sort l) l.
Proof.
  induction l as [| x l IH]; cbn; [reflexivity |].
  fold (sort l). rewrite insert_permutation. now constructor.
Qed.







End SortFacts.

Section SynthesisFacts.

Context {G : Type} `{Weather.Generator G}.
Import Recs Database Synthesis.

Lemma firstn_incl {A} (n : nat) (l : list A) (a : A) : In a (firstn n l) -> In a l.
Proof.
  revert l. induction n as [| n IH]; intros [| x l]; cbn; try tauto.
  intros [E | Hin]; [now left | right; now apply IH].
Qed.

Lemma fold_sum_nonnegative (l : list Q) (acc : Q) :
  0 <= acc -> Forall (fun q => 0 <= q) l -> 0 <= fold_left Qplus l acc.
Proof.
  revert acc. induction l as [| q l IH]; intros acc Hacc Hl; cbn; [assumption |].
  inversion Hl; subst. apply IH; [lra | assumption].
Qed.

Lemma sum_nonnegative (l : list Q) : Forall (fun q => 0 <= q) l -> 0 <= Num.sum l.
Proof. apply fold_sum_nonnegative. lra. Qed.

(** *** What the agents return *)

Ltac decide_branches :=
  repeat match goal with
         | |- context [if ?b then _ else _] => destruct b
         end.

Ltac all_sustainable :=
  cbn; repeat first [apply Forall_nil | apply Forall_cons]; unfold sustainable; cbn; lra.

Lemma crops_sustainable farm goal pref :
  Forall sustainable (Farmer.recommend_crops farm goal pref).
Proof. unfold Farmer.recommend_crops. decide_branches; all_sustainable. Qed.

Lemma resources_sustainable farm pref :
  Forall sustainable (Farmer.recommend_resource_optimization farm pref).
Proof. unfold Farmer.recommend_resource_optimization. decide_branches; all_sustainable. Qed.

Lemma practices_sustainable farm pref :
  Forall sustainable (Farmer.recommend_sustainable_practices farm pref).
Proof. unfold Farmer.recommend_sustainable_practices. decide_branches; all_sustainable. Qed.

Lemma farming_returns db id goal pref farm :
  get_farm_data db id = OneFarm farm ->
  exists gs,
    Farmer.generate_recommendations db id goal pref = Returned (Groups gs)
    /\ Forall (fun g => Forall sustainable (Recs.recommendations g)) gs.
Proof.
  intro Hf. unfold Farmer.generate_recommendations. rewrite Hf.
  eexists. split; [reflexivity |].
  constructor; [apply crops_sustainable |].
  constructor; [apply resources_sustainable |].
  constructor; [apply practices_sustainable | constructor].
Qed.

Lemma market_sustainable (market : list MarketRecs.group) :
  Forall (fun g => Forall sustainable (Recs.recommendations g))
         (map MarketRecs.to_group market).
Proof.
  apply Forall_forall. intros g Hg. apply in_map_iff in Hg as [m [<- _]].
  apply Forall_forall. intros r Hr. cbn in Hr. apply in_map_iff in Hr as [i [<- _]].
  unfold sustainable. cbn. lra.
Qed.

Lemma short_term_sustainable i days : Forall sustainable (Weather.short_term i days).
Proof.
  revert i. induction days as [| d days IH]; intro i; cbn; [constructor |].
  apply Forall_app. split; [| apply IH].
  decide_branches; all_sustainable.
Qed.

Lemma weather_groups_sustainable forecast season :
  Forall (fun g => Forall sustainable (Recs.recommendations g))
         (Weather.recommendation_groups forecast season).
Proof.
  unfold Weather.recommendation_groups. apply Forall_app. split.
  - pose proof (short_term_sustainable 0 (firstn 7 forecast)) as Hs.
    destruct (Weather.short_term 0 (firstn 7 forecast)) as [| r rs] eqn:E;
      constructor; [| constructor].
    cbn [Recs.recommendations]. apply Forall_forall. intros x Hx.
    apply firstn_incl in Hx. revert x Hx. now apply Forall_forall.
  - constructor; [| constructor; [| constructor]]; cbn [Recs.recommendations].
    + destruct season; all_sustainable.
    + unfold Weather.water_recs. decide_branches; all_sustainable.
Qed.

Lemma weather_returns now region (w : Weather.world G) :
  In region (map fst Weather.regions) ->
  exists gs,
    fst (Weather.generate_recommendations now region w) = Returned (Groups gs)
    /\ Forall (fun g => Forall sustainable (Recs.recommendations g)) gs.
Proof.
  intro Hin. destruct (configured_lookup region Hin) as [params Hr].
  unfold Weather.generate_recommendations. rewrite Hr. unfold State.bind.
  destruct (Weather.generate_current_weather now params w) as [cw w1].
  pose proof (generate_forecast_trace now region params 14 w1 Hr) as Hf.
  pose proof (forecast_trace_length now params 14 w1) as Hl.
  destruct (Weather.generate_forecast now region 14 w1) as [f w2].
  cbn in Hf. subst f.
  set (forecast := map Weather.tr_sample _).
  assert (Hne : forecast <> []).
  { intro E. apply (f_equal (@List.length _)) in E. subst forecast.
    rewrite length_map, Hl in E. discriminate E. }
  destruct (impact_of_forecast_returns now cw forecast region w2 Hne) as [i Hi].
  rewrite Hi. unfold Weather.get_current_season, State.bind, State.ret, Weather.datetime_now.
  cbn. eexists. split; [reflexivity |]. apply weather_groups_sustainable.
Qed.

(** *** Scoring *)

Lemma scored_items_sustainable pref category weight gs :
  Forall (fun g => Forall sustainable (Recs.recommendations g)) gs ->
  Forall (fun a => 0 <= Synthesis.sustainability_impact a)
         (scored_items pref category weight gs).
Proof.
  intro Hgs. apply Forall_forall. intros a Ha. unfold scored_items in Ha.
  apply in_flat_map in Ha as [g [Hg Ha]]. apply in_map_iff in Ha as [r [<- Hr]].
  rewrite Forall_forall in Hgs. specialize (Hgs g Hg).
  rewrite Forall_forall in Hgs. exact (Hgs r Hr).
Qed.


(** The run of the engine for a parcel of the table and a configured
    region: it returns, and its entries are those gathered from the three
    agents, sorted. *)
Lemma engine_returns now db market id region goal pref (w : Weather.world G) farm :
  get_farm_data db id = OneFarm farm ->
  In region (map fst Weather.regions) ->
  exists farming weather,
    Forall (fun g => Forall sustainable (Recs.recommendations g)) farming
    /\ Forall (fun g => Forall sustainable (Recs.recommendations g)) weather
    /\ let items :=
         (scored_items pref "Farming Practices" 1.0 farming
          ++ scored_items pref "Market Strategy" 0.9 (map MarketRecs.to_group market)
          ++ scored_items pref "Weather Management" 0.8 weather)%list in
       fst (generate_farm_recommendations now db market id region goal pref w)
       = Returned (Success
           {| farm_data := farm;
              farming_recommendations := Groups farming;
              market_recommendations := market;
              weather_recommendations := Groups weather;
              high_priority_actions := firstn 5 (sort items);
              sustainability_summary :=
                sustainability_summary_of farm (firstn 5 (sort items)) |}).
Proof.
  intros Hf Hin.
  destruct (farming_returns db id goal pref farm Hf) as [farming [Hfa Hfs]].
  destruct (weather_returns now region w Hin) as [weather [Hwa Hws]].
  exists farming, weather. split; [assumption |]. split; [assumption |].
  unfold generate_farm_recommendations. rewrite Hf, Hfa. unfold State.bind.
  destruct (Weather.generate_recommendations now region w) as [wr w1].
  cbn in Hwa. subst wr. reflexivity.
Qed.


(** C5.  For a parcel whose sustainability score lies in [0, 100], the
    summary has the parcel's score as current score; the potential score is
    the smaller of 100 and the current score plus 0.2 times the sum of the
    sustainability impacts of the high-priority actions, and lies between
    the current score and 100; the improvement percentage is that
    improvement over the current score times 100, and 0 when the current
    score is 0. *)
Theorem sustainability_summary_bounds (now : Weather.clock) (db : table)
    (market : list MarketRecs.group) (id : Z) (region financial_goal : string)
    (preference : Z) (w : Weather.world G) (farm : parcel) :
  get_farm_data db id = OneFarm farm ->
  In region (map fst Weather.regions) ->
  0 <= sustainability_score farm -> sustainability_score farm <= 100 ->
  exists r,
    fst (generate_farm_recommendations now db market id region financial_goal
           preference w) = Returned (Success r)
    /\ let s := sustainability_summary r in
       let current := sustainability_score farm in
       let improvement :=
         0.2 * Num.sum (map sustainability_impact (high_priority_actions r)) in
       current_score s = current
       /\ potential_score s == Qmin 100 (current + improvement)
       /\ current <= potential_score s
       /\ potential_score s <= 100
       /\ improvement_percentage s ==
            (if Qeq_bool current 0 then 0 else improvement / current * 100).
Proof.
  intros Hf Hin Hlo Hhi.
  destruct (engine_returns now db market id region financial_goal preference w farm
              Hf Hin) as [farming [weather [Hfs [Hws Hrun]]]].
  cbv zeta in Hrun. eexists. split; [exact Hrun |].
  cbn [sustainability_summary high_priority_actions]. cbv zeta.
  set (items := (_ ++ _)%list).
  set (top := firstn 5 (sort items)).
  assert (Hsum : 0 <= Num.sum (map sustainability_impact top)).
  { apply sum_nonnegative. apply Forall_forall. intros q Hq.
    apply in_map_iff in Hq as [a [<- Ha]].
    apply firstn_incl in Ha.
    apply (Permutation_in _ (sort_permutation items)) in Ha.
    assert (Hall : Forall (fun a => 0 <= sustainability_impact a) items).
    { subst items. repeat (apply Forall_app; split);
        apply scored_items_sustainable;
        [assumption | apply market_sustainable | assumption]. }
    rewrite Forall_forall in Hall. now apply Hall. }
  unfold sustainability_summary_of.
  cbn [current_score potential_score improvement_percentage].
  set (total := Num.sum _) in *.
  split; [reflexivity |].
  assert (Hmin : Num.min 100 (sustainability_score farm + total * 0.2)
                 == Qmin 100 (sustainability_score farm + 0.2 * total)).
  { unfold Num.min.
    by_cases (sustainability_score farm + total * 0.2) 100.
    - rewrite Q.min_r by lra. lra.
    - rewrite Q.min_l by lra. reflexivity. }
  split; [exact Hmin |].
  split; [| split].
  - rewrite Hmin. apply Q.min_glb; lra.
  - rewrite Hmin. apply Q.le_min_l.
  - by_cases 0 (sustainability_score farm).
    + destruct (Qeq_bool (sustainability_score farm) 0) eqn:Ez.
      * apply Qeq_bool_iff in Ez. lra.
      * assert (Hm : total * 0.2 == 0.2 * total) by lra. now rewrite Hm.
    + destruct (Qeq_bool (sustainability_score farm) 0) eqn:Ez; [reflexivity |].
      apply Qeq_bool_neq in Ez. exfalso. apply Ez. lra.
Qed.

End SynthesisFacts.



(** The rounding of the source shows in the ranking.  For the preference 3
    the entries of "Spring Planting" and of "Excess Water Management" have
    the same score in exact arithmetic, 216/625; computed in floats, as the
    source does, the first is 0.3456 and the second the next double, so the
    second is ranked first. *)
Lemma rounding_breaks_a_tie :
  let spring := scored 3 FromWeather (Weather.current_season_rec Weather.spring) in
  let water :=
    scored 3 FromWeather
      (nth 0 (Weather.water_recs 8) (Weather.current_season_rec Weather.spring)) in
  Synthesis.score spring == Float.lit 0.3456
  /\ Synthesis.score water == Float.lit 0.3456 + 2 ^ (-54)
  /\ (1.6 * 0.3 + 0 * 0.7) * 0.9 * 0.8 == 216 / 625
  /\ (1.8 * 0.3 + 0 * 0.7) * 0.8 * 0.8 == 216 / 625
  /\ Synthesis.sort [spring; water] = [water; spring].
Proof. vm_compute. repeat split. Qed.

Lemma sustainability_summary_bounds_witness :
  exists r,
    fst (Synthesis.generate_farm_recommendations (fixed_clock 739923) scenario_table
           scenario_market 1 "central" "balance" 7 fresh_world)
    = Returned (Synthesis.Success r)
    /\ 45 <= Synthesis.potential_score (Synthesis.sustainability_summary r)
    /\ Synthesis.potential_score (Synthesis.sustainability_summary r) <= 100.
Proof.
  destruct (sustainability_summary_bounds (fixed_clock 739923) scenario_table
              scenario_market 1 "central" "balance" 7 fresh_world scenario_parcel)
    as [r [Hr [_ [_ [Hlo [Hhi _]]]]]].
  - reflexivity.
  - cbn. auto.
  - cbn. lra.
  - cbn. lra.
  - exists r. split; [exact Hr |]. split; [exact Hlo | exact Hhi].
Defined.

(** * Further properties of the code *)

(** ** Sums, means and sorting *)

Lemma fold_sum_shift (l : list Q) (acc : Q) :
  fold_left Qplus l acc == acc + fold_left Qplus l 0.
Proof.
  revert acc. induction l as [| x l IH]; intro acc; cbn; [lra |].
  rewrite (IH (acc + x)), (IH (0 + x)). lra.
Qed.

Lemma sum_cons (x : Q) (l : list Q) : Num.sum (x :: l) == x + Num.sum l.
Proof. unfold Num.sum. cbn. rewrite fold_sum_shift. lra. Qed.

Lemma sum_above (m : Q) (l : list Q) :
  Forall (fun x => m < x) l -> l <> [] ->
  inject_Z (Z.of_nat (List.length l)) * m < Num.sum l.
Proof.
  induction l as [| x l IH]; intros Hall Hne; [congruence |].
  inversion Hall as [| ? ? Hx Hl]; subst.
  rewrite sum_cons. cbn [List.length]. rewrite Nat2Z.inj_succ, <- Z.add_1_r, inject_Z_plus.
  change (inject_Z 1) with 1.
  destruct l as [| y l'].
  - change (inject_Z (Z.of_nat (List.length (@nil Q)))) with 0.
    change (Num.sum []) with 0. lra.
  - assert (Hrec : inject_Z (Z.of_nat (List.length (y :: l'))) * m < Num.sum (y :: l'))
      by (apply IH; [assumption | discriminate]).
    lra.
Qed.

Lemma mean_times_length (l : list Q) :
  l <> [] -> Practice.mean l * inject_Z (Z.of_nat (List.length l)) == Num.sum l.
Proof.
  intro Hne. unfold Practice.mean. field.
  destruct l as [| x l]; [congruence |]. cbn [List.length].
  intro E. apply (Qlt_irrefl 0). rewrite <- E at 2.
  rewrite <- (Zlt_Qlt 0). lia.
Qed.

(** A column that is not empty has an entry that is not above its mean. *)
Lemma entry_below_mean (l : list Q) :
  l <> [] -> exists x, In x l /\ x <= Practice.mean l.
Proof.
  intro Hne.
  assert (Hdec : forall x, {Practice.mean l < x} + {~ Practice.mean l < x}).
  { intro x. destruct (Qlt_le_dec (Practice.mean l) x) as [Hlt | Hle];
      [now left | right; now apply Qle_not_lt]. }
  destruct (Forall_Exists_dec (fun x => Practice.mean l < x) Hdec l) as [Hall | Hex].
  - exfalso. pose proof (sum_above (Practice.mean l) l Hall Hne) as Hs.
    pose proof (mean_times_length l Hne) as Hm. lra.
  - apply Exists_exists in Hex as [x [Hin Hx]]. exists x. split; [assumption |].
    now apply Qnot_lt_le.
Qed.

Lemma mean_nonnegative (l : list Q) :
  Forall (fun x => 0 <= x) l -> 0 <= Practice.mean l.
Proof.
  intro Hall. unfold Practice.mean.
  assert (Hs : 0 <= Num.sum l).
  { induction Hall as [| x l Hx Hl IH]; [apply Qle_refl |].
    rewrite sum_cons. lra. }
  destruct l as [| x l]; [cbn; unfold Qdiv, Qinv; cbn; lra |].
  apply Qle_shift_div_l; [| lra].
  rewrite <- (Zlt_Qlt 0). cbn [List.length]. lia.
Qed.

Section RankingFacts.

Context {A : Type} (key : A -> Q).

Lemma ranking_insert_permutation (x : A) (l : list A) :
  Permutation (Ranking.insert key x l) (x :: l).
Proof.
  induction l as [| y l IH]; cbn; [reflexivity |].
  destruct (key x <? key y); [| reflexivity].
  rewrite IH. apply perm_swap.
Qed.

Lemma ranking_permutation (l : list A) : Permutation (Ranking.sort_desc key l) l.
Proof.
  induction l as [| x l IH]; cbn; [reflexivity |].
  fold (Ranking.sort_desc key l). rewrite ranking_insert_permutation. now constructor.
Qed.

Lemma ranking_insert_sorted (x : A) (l : list A) :
  Sorted (fun a b => key b <= key a) l ->
  Sorted (fun a b => key b <= key a) (Ranking.insert key x l).
Proof.
  induction 1 as [| y l Hs IH Hh]; cbn; [repeat constructor |].
  by_cases (key x) (key y).
  - constructor; [assumption |].
    destruct l as [| z l]; cbn; [constructor; lra |].
    destruct (key x <? key z); constructor; [now inversion Hh | lra].
  - constructor; [now constructor |]. constructor. exact K.
Qed.

Lemma ranking_sorted (l : list A) :
  StronglySorted (fun a b => key b <= key a) (Ranking.sort_desc key l).
Proof.
  apply Sorted_StronglySorted; [intros a b c Hab Hbc; lra |].
  induction l as [| x l IH]; cbn; [constructor |]. now apply ranking_insert_sorted.
Qed.

(** In a sorted list no entry of a later part is above an entry of an
    earlier part. *)
Lemma sorted_parts (R : A -> A -> Prop) (l1 l2 : list A) :
  StronglySorted R (l1 ++ l2) -> forall a b, In a l1 -> In b l2 -> R a b.
Proof.
  induction l1 as [| x l1 IH]; intros Hs a b Ha Hb; [contradiction |].
  cbn in Hs. inversion Hs as [| ? ? Hs' Hall]; subst.
  destruct Ha as [<- | Ha]; [| now apply IH].
  rewrite Forall_forall in Hall. apply Hall, in_or_app. now right.
Qed.

End RankingFacts.

(** ** The farmer advisor *)

Ltac split_branches :=
  repeat match goal with
         | |- context [if ?b then _ else _] => destruct b eqn:?
         end.

(** X1.  The soil analysis gives one recommendation for each of pH and
    moisture whose status is not "optimal", and none else; a measurement
    that is absent gets no status; every soil recommendation costs money
    and has a positive sustainability impact. *)
Theorem soil_recommendations_count (d : Soil.soil_data) :
  let r := Soil.analyze_soil_data d in
  let off (s : option string) : nat :=
    match s with
    | Some s => if String.eqb s "optimal" then 0%nat else 1%nat
    | None => 0%nat
    end in
  List.length (Soil.recommendations r)
  = (off (Soil.ph_status r) + off (Soil.moisture_status r))%nat
  /\ (Soil.ph_status r = None <-> Soil.sd_soil_ph d = None)
  /\ (Soil.moisture_status r = None <-> Soil.sd_soil_moisture d = None)
  /\ Forall (fun x => Soil.cost_impact x < 0 /\ 0 < Soil.sustainability_impact x)
            (Soil.recommendations r).
Proof.
  destruct d as [[ph |] [m |]];
    unfold Soil.analyze_soil_data, Soil.ph_analysis; cbn;
    try (by_cases ph 5.5; [| by_cases 7.5 ph]);
    unfold Soil.moisture_analysis; cbn;
    try (by_cases m 20; [| by_cases 40 m]); cbn;
    (split; [reflexivity |]);
    (split; [split; intro; discriminate || reflexivity |]);
    (split; [split; intro; discriminate || reflexivity |]);
    repeat constructor; cbn; lra.
Qed.

(** X2.  The climate analysis gives at most one recommendation, and none
    exactly when the rainfall is absent or lies between 100 and 250; the
    temperature category and the list of suitable crops are present exactly
    when the temperature is, and the list is never empty. *)
Theorem climate_recommendation_iff (d : Climate.climate_data) :
  let r := Climate.analyze_climate_data d in
  (List.length (Climate.recommendations r) <= 1)%nat
  /\ (Climate.recommendations r = [] <->
      match Climate.cd_rainfall_mm d with
      | None => True
      | Some x => 100 <= x /\ x <= 250
      end)
  /\ (Climate.temperature_category r = None <-> Climate.cd_temperature_c d = None)
  /\ (Climate.suitable_crops r = None <-> Climate.cd_temperature_c d = None)
  /\ Climate.suitable_crops r <> Some [].
Proof.
  destruct d as [[t |] [x |]];
    unfold Climate.analyze_climate_data, Climate.temperature_analysis,
      Climate.rainfall_analysis; cbn;
    try (by_cases t 18; [| by_cases 30 t]);
    try (by_cases x 100; [| by_cases 250 x]); cbn;
    repeat split; intros; try discriminate; try lia; try lra; try tauto;
    try (exfalso; lra).
Qed.

(** X3.  The benchmark returns the tagged result "insufficient data"
    exactly when no row of the table grows the crop; for a parcel of the
    table it returns a report. *)
Theorem benchmark_insufficient_iff (table : list parcel) (d : Practice.practice_data) :
  ((exists message,
      Practice.analyze_farming_practices table d = Practice.InsufficientData message)
   <-> forall farm, In farm table -> crop_type farm <> Practice.pd_crop_type d)
  /\ forall p, In p table ->
       exists r, Practice.analyze_farming_practices table (Practice.of_parcel p)
                 = Practice.Benchmarked r.
Proof.
  assert (Hcohort : forall crop farm,
            In farm (Practice.similar_farms table crop)
            <-> In farm table /\ crop_type farm = crop).
  { intros crop farm. unfold Practice.similar_farms. rewrite filter_In.
    now rewrite String.eqb_eq. }
  split; [split |].
  - intros [message E] farm Hin Hcrop.
    unfold Practice.analyze_farming_practices in E.
    destruct (Practice.similar_farms table (Practice.pd_crop_type d)) as [| f fs] eqn:Es;
      [| discriminate].
    assert (Hf : In farm []) by (rewrite <- Es; apply Hcohort; now split).
    contradiction.
  - intro Hnone. unfold Practice.analyze_farming_practices.
    destruct (Practice.similar_farms table (Practice.pd_crop_type d)) as [| f fs] eqn:Es;
      [eauto |].
    exfalso. assert (Hf : In f (Practice.similar_farms table (Practice.pd_crop_type d)))
      by (rewrite Es; now left).
    apply Hcohort in Hf as [Hin Hcrop]. exact (Hnone f Hin Hcrop).
  - intros p Hin. unfold Practice.analyze_farming_practices.
    destruct (Practice.similar_farms table (Practice.pd_crop_type (Practice.of_parcel p)))
      as [| f fs] eqn:Es; [| eauto].
    exfalso. assert (Hf : In p []) by (rewrite <- Es; apply Hcohort; now split).
    contradiction.
Qed.

(** X4.  Among the rows that grow a crop, when none uses a negative amount
    of fertilizer, there is always one whose benchmark does not recommend
    against high fertilizer usage: the flag cannot hit a whole cohort. *)
Theorem some_farm_not_flagged (table : list parcel) (crop : string) :
  Practice.similar_farms table crop <> [] ->
  (forall farm, In farm (Practice.similar_farms table crop) ->
     0 <= fertilizer_usage_kg farm) ->
  exists farm r,
    In farm table /\ crop_type farm = crop
    /\ Practice.analyze_farming_practices table (Practice.of_parcel farm)
       = Practice.Benchmarked r
    /\ ~ In Practice.high_fertilizer (Practice.recommendations r).
Proof.
  intros Hne Hpos. set (cohort := Practice.similar_farms table crop) in *.
  assert (Hcol : map fertilizer_usage_kg cohort <> [])
    by (destruct cohort; [congruence | discriminate]).
  destruct (entry_below_mean _ Hcol) as [x [Hx Hle]].
  apply in_map_iff in Hx as [farm [<- Hfarm]].
  assert (Hmean : 0 <= Practice.mean (map fertilizer_usage_kg cohort)).
  { apply mean_nonnegative. apply Forall_forall. intros y Hy.
    apply in_map_iff in Hy as [f [<- Hf]]. now apply Hpos. }
  pose proof Hfarm as Hf. unfold cohort, Practice.similar_farms in Hf.
  apply filter_In in Hf as [Hin Hcrop]. apply String.eqb_eq in Hcrop.
  assert (Hrun : Practice.similar_farms table
                   (Practice.pd_crop_type (Practice.of_parcel farm)) = cohort)
    by (cbn; now rewrite Hcrop).
  destruct cohort as [| f fs] eqn:Ec; [congruence |].
  eexists farm, _. split; [assumption |]. split; [assumption |].
  unfold Practice.analyze_farming_practices. rewrite Hrun.
  split; [reflexivity |]. cbn [Practice.recommendations Practice.of_parcel
    Practice.pd_fertilizer_usage_kg].
  by_cases (Practice.mean (map fertilizer_usage_kg (f :: fs)) * 1.2)
           (fertilizer_usage_kg farm); [lra |].
  intro Hin'. cbn [app] in Hin'. apply in_app_or in Hin' as [Hin' | Hin'];
    match type of Hin' with In _ (if ?b then _ else _) => destruct b end;
    cbn [In] in Hin'; try contradiction;
    destruct Hin' as [Hin' | []];
    unfold Practice.high_pesticide, Practice.low_yield, Practice.high_fertilizer in Hin';
    discriminate Hin'.
Qed.

Lemma some_farm_not_flagged_witness :
  exists farm r,
    In farm scenario_table /\ crop_type farm = "Rice"
    /\ Practice.analyze_farming_practices scenario_table (Practice.of_parcel farm)
       = Practice.Benchmarked r
    /\ ~ In Practice.high_fertilizer (Practice.recommendations r).
Proof.
  apply (some_farm_not_flagged scenario_table "Rice").
  - discriminate.
  - intros farm [<- | []]. cbn. lra.
Defined.

(** X5.  The high-priority recommendations of the overall assessment are
    the three recommendations of the soil, climate and practice analyses
    with the largest sustainability impact (all of them when there are
    fewer): together with the rest they make up the recommendations
    collected, and no recommendation of the rest has a larger impact than
    one of them. *)
Theorem assessment_top_three (soil : Soil.results) (climate : Climate.results)
    (practice : Practice.analysis) (score : Q) :
  let a := Assessment.generate_overall_assessment soil climate practice score in
  let collected := Assessment.all_recommendations soil climate practice in
  List.length (Assessment.high_priority_recommendations a)
  = Nat.min 3 (List.length collected)
  /\ exists rest,
       Permutation (Assessment.high_priority_recommendations a ++ rest) collected
       /\ forall x y,
            In x (Assessment.high_priority_recommendations a) -> In y rest ->
            Soil.sustainability_impact y <= Soil.sustainability_impact x.
Proof.
  intros a collected. subst a. unfold Assessment.generate_overall_assessment.
  fold collected. destruct (Assessment.categorize score) as [category potential].
  cbn [Assessment.high_priority_recommendations].
  set (sorted := Ranking.sort_desc Soil.sustainability_impact collected).
  assert (Hperm : Permutation sorted collected) by apply ranking_permutation.
  split.
  - rewrite length_firstn. now rewrite (Permutation_length Hperm).
  - exists (skipn 3 sorted). split.
    + now rewrite firstn_skipn.
    + intros x y Hx Hy.
      apply (sorted_parts (fun a b => Soil.sustainability_impact b
                                      <= Soil.sustainability_impact a)
               (firstn 3 sorted) (skipn 3 sorted)); try assumption.
      rewrite firstn_skipn. apply ranking_sorted.
Qed.

(** X6.  The overall assessment puts a score below 30 in the category
    "poor" with improvement potential "high", a score from 30 up to 60 in
    "moderate" with "medium", and any other score in "good" with "low"; its
    message is the one of that category. *)
Theorem assessment_bands (soil : Soil.results) (climate : Climate.results)
    (practice : Practice.analysis) (score : Q) :
  let a := Assessment.generate_overall_assessment soil climate practice score in
  (score < 30 ->
   Assessment.sustainability_category a = "poor"
   /\ Assessment.improvement_potential a = "high"
   /\ Assessment.overall_message a = Assessment.poor_message)
  /\ (30 <= score -> score < 60 ->
      Assessment.sustainability_category a = "moderate"
      /\ Assessment.improvement_potential a = "medium"
      /\ Assessment.overall_message a = Assessment.moderate_message)
  /\ (60 <= score ->
      Assessment.sustainability_category a = "good"
      /\ Assessment.improvement_potential a = "low"
      /\ Assessment.overall_message a = Assessment.good_message).
Proof.
  unfold Assessment.generate_overall_assessment, Assessment.categorize.
  by_cases score 30; [| by_cases score 60]; cbn;
    repeat split; intros; try reflexivity; lra.
Qed.

(** X7.  The advisor treats input without a farm id, or with the id 0, as
    a new farm: it never answers with an error, and analyses whatever
    measurements are present (none gives no status and no recommendation).
    With another id it answers "not found" when the repository has no such
    row, and otherwise returns the row found, whose id is the one asked
    for, with its analysis. *)
Theorem advisor_input_paths (db table : list parcel) (i : Assessment.input_data) :
  (Assessment.in_farm_id i = None \/ Assessment.in_farm_id i = Some 0%Z ->
   exists soil climate,
     Assessment.process_input db table i = Assessment.Registered soil climate
     /\ (Assessment.in_soil_ph i = None -> Assessment.in_soil_moisture i = None ->
         Soil.recommendations soil = []
         /\ Soil.ph_status soil = None /\ Soil.moisture_status soil = None))
  /\ (forall id, Assessment.in_farm_id i = Some id -> id <> 0%Z ->
      (forall p, In p db -> farm_id p <> id) ->
      Assessment.process_input db table i = Assessment.Error (Farmer.not_found id))
  /\ (forall id p, Assessment.in_farm_id i = Some id -> id <> 0%Z ->
      In p db -> farm_id p = id ->
      exists q, In q db /\ farm_id q = id
                /\ Assessment.process_input db table i
                   = Assessment.Analysed q (Assessment.analyze_farm table q)).
Proof.
  unfold Assessment.process_input. split; [| split].
  - intros [E | E]; rewrite E; cbn; eexists; eexists; (split; [reflexivity |]);
      intros -> ->; cbn; auto.
  - intros id E Hid Hnone. rewrite E. cbn.
    destruct (Z.eqb_spec id 0); [contradiction |].
    unfold Database.get_farm_data. destruct (Z.eqb_spec id 0); [contradiction |].
    destruct (find _ db) as [p |] eqn:Ef; [| reflexivity].
    apply find_some in Ef as [Hin Hp]. apply Z.eqb_eq in Hp.
    now destruct (Hnone p Hin).
  - intros id p E Hid Hin Hp. rewrite E. cbn.
    destruct (Z.eqb_spec id 0); [contradiction |].
    unfold Database.get_farm_data. destruct (Z.eqb_spec id 0); [contradiction |].
    destruct (find _ db) as [q |] eqn:Ef.
    + apply find_some in Ef as [Hq Hqid]. apply Z.eqb_eq in Hqid. eauto.
    + exfalso. apply (find_none _ _ Ef) in Hin. apply Z.eqb_neq in Hin. contradiction.
Qed.

(** X8.  The crop selection is empty exactly when the soil pH is below 6,
    the parcel is not both cooler than 25 degrees and wetter than 200 mm,
    and the sustainability preference is at most 7; it never holds more
    than two recommendations. *)
Theorem crop_selection_empty_iff (farm : parcel) (goal : string) (preference : Z) :
  (Farmer.recommend_crops farm goal preference = [] <->
   soil_ph farm < 6 /\ ~ (temperature_c farm < 25 /\ 200 < rainfall_mm farm)
   /\ (preference <= 7)%Z)
  /\ (List.length (Farmer.recommend_crops farm goal preference) <= 2)%nat.
Proof.
  unfold Farmer.recommend_crops.
  destruct (Z.gtb_spec preference 7);
    by_cases (soil_ph farm) 6.0;
    [by_cases (temperature_c farm) 25; [by_cases 200 (rainfall_mm farm) |] | |
     by_cases (temperature_c farm) 25; [by_cases 200 (rainfall_mm farm) |] | ];
    cbn;
    try (destruct (6.0 <=? soil_ph farm); cbn;
         [destruct (soil_ph farm <=? 7.0); cbn;
          [destruct (30 <? soil_moisture farm); cbn |] |]);
    (split; [split; [intro; discriminate || (repeat split; try lra; try lia; intros [? ?]; lra)
                    | intros [? [? ?]]; try reflexivity; try lra; try lia; exfalso; tauto]
            | lia]).
Qed.

(** X9.  Raising the sustainability preference never removes a farming
    recommendation: each of the three lists for a preference is contained
    in the list for a larger one.  The soil-health recommendation is in
    every resource list and the two basic practices in every practice
    list. *)
Theorem preference_only_adds (farm : parcel) (goal : string) (p p' : Z) :
  (p <= p')%Z ->
  incl (Farmer.recommend_crops farm goal p) (Farmer.recommend_crops farm goal p')
  /\ incl (Farmer.recommend_resource_optimization farm p)
          (Farmer.recommend_resource_optimization farm p')
  /\ incl (Farmer.recommend_sustainable_practices farm p)
          (Farmer.recommend_sustainable_practices farm p')
  /\ (exists text s e c,
        In (Farmer.resource_rec "Soil" text s e c)
           (Farmer.recommend_resource_optimization farm p))
  /\ (2 <= List.length (Farmer.recommend_sustainable_practices farm p) <= 4)%nat.
Proof.
  intro Hp. split; [| split; [| split; [| split]]].
  - unfold Farmer.recommend_crops. apply incl_app_app; [apply incl_refl |].
    destruct (Z.gtb_spec p 7), (Z.gtb_spec p' 7);
      try apply incl_refl; try lia; apply incl_nil_l.
  - apply incl_refl.
  - unfold Farmer.recommend_sustainable_practices.
    apply incl_app_app; [apply incl_refl |]. apply incl_app_app.
    + destruct (Z.gtb_spec p 5), (Z.gtb_spec p' 5);
        try apply incl_refl; try lia; apply incl_nil_l.
    + destruct (Z.gtb_spec p 8), (Z.gtb_spec p' 8);
        try apply incl_refl; try lia; apply incl_nil_l.
  - unfold Farmer.recommend_resource_optimization. do 4 eexists.
    apply in_or_app. right. apply in_or_app. right. apply in_or_app. right.
    left. reflexivity.
  - unfold Farmer.recommend_sustainable_practices.
    destruct (p >? 5)%Z, (p >? 8)%Z; cbn; lia.
Qed.

Lemma preference_only_adds_witness :
  incl (Farmer.recommend_sustainable_practices scenario_parcel 5)
       (Farmer.recommend_sustainable_practices scenario_parcel 9).
Proof.
  assert (H : (5 <= 9)%Z) by lia.
  exact (proj1 (proj2 (proj2 (preference_only_adds scenario_parcel "balance" 5 9 H)))).
Defined.

(** ** The market researcher *)

(** X10.  The demand trend is one of five statuses, decided by the mean
    consumer trend index (above 120, 100, 90, 70, or not); a larger mean
    never gives a status further down the scale from "strongly_increasing"
    to "strongly_decreasing". *)
Theorem demand_trend_monotone (rows rows' : list Pricing.market_record) :
  Pricing.column_mean Pricing.consumer_trend_index rows
  <= Pricing.column_mean Pricing.consumer_trend_index rows' ->
  (Pricing.trend_rank (Pricing.trend_status (Pricing.analyze_demand_trend rows))
   <= Pricing.trend_rank (Pricing.trend_status (Pricing.analyze_demand_trend rows')))%nat
  /\ In (Pricing.trend_status (Pricing.analyze_demand_trend rows))
        ["strongly_increasing"; "increasing"; "stable"; "decreasing";
         "strongly_decreasing"]
  /\ (Pricing.trend_status (Pricing.analyze_demand_trend rows) = "stable" <->
      90 < Pricing.column_mean Pricing.consumer_trend_index rows
      /\ Pricing.column_mean Pricing.consumer_trend_index rows <= 100).
Proof.
  intro Hle. unfold Pricing.analyze_demand_trend.
  set (m := Pricing.column_mean Pricing.consumer_trend_index rows) in *.
  set (m' := Pricing.column_mean Pricing.consumer_trend_index rows') in *.
  assert (Hm : forall x : Q,
            {120 < x /\ (x >? 120) = true}
            + {100 < x <= 120 /\ (x >? 120) = false /\ (x >? 100) = true}
            + {90 < x <= 100 /\ (x >? 120) = false /\ (x >? 100) = false
               /\ (x >? 90) = true}
            + {70 < x <= 90 /\ (x >? 120) = false /\ (x >? 100) = false
               /\ (x >? 90) = false /\ (x >? 70) = true}
            + {x <= 70 /\ (x >? 120) = false /\ (x >? 100) = false
               /\ (x >? 90) = false /\ (x >? 70) = false}).
  { intro x.
    destruct (Qlt_le_dec 120 x); [left; left; left; left; split; [| apply ltb_lt]; assumption |].
    destruct (Qlt_le_dec 100 x);
      [left; left; left; right; repeat split; try assumption;
       try (apply ltb_lt; assumption); apply ltb_ge; assumption |].
    destruct (Qlt_le_dec 90 x);
      [left; left; right; repeat split; try assumption;
       try (apply ltb_lt; assumption); apply ltb_ge; assumption |].
    destruct (Qlt_le_dec 70 x);
      [left; right; repeat split; try assumption;
       try (apply ltb_lt; assumption); apply ltb_ge; assumption |].
    right; repeat split; try assumption; apply ltb_ge; assumption. }
  destruct (Hm m) as [[[[[H1 E1] | [H1 [E1 E2]]] | [H1 [E1 [E2 E3]]]]
                       | [H1 [E1 [E2 [E3 E4]]]]] | [H1 [E1 [E2 [E3 E4]]]]];
    rewrite ?E1, ?E2, ?E3, ?E4;
    destruct (Hm m') as [[[[[H1' E1'] | [H1' [E1' E2']]] | [H1' [E1' [E2' E3']]]]
                          | [H1' [E1' [E2' [E3' E4']]]]] | [H1' [E1' [E2' [E3' E4']]]]];
    rewrite ?E1', ?E2', ?E3', ?E4'; cbn;
    (split; [try lia; exfalso; lra |]);
    (split; [auto 6 |]); split; intros; try discriminate; try lra; try reflexivity;
    try (exfalso; lra).
Qed.

Lemma demand_trend_monotone_witness :
  (Pricing.trend_rank
     (Pricing.trend_status (Pricing.analyze_demand_trend (tl scenario_rows)))
   <= Pricing.trend_rank
        (Pricing.trend_status (Pricing.analyze_demand_trend scenario_rows)))%nat.
Proof.
  apply (demand_trend_monotone (tl scenario_rows) scenario_rows).
  vm_compute. discriminate.
Defined.





Lemma insert_key_members (k k0 : string) (ks : list string) :
  In k (Pricing.insert_key k0 ks) <-> k = k0 \/ In k ks.
Proof.
  induction ks as [| k' ks IH]; cbn; [intuition congruence |].
  destruct (String.compare k0 k') eqn:E; cbn.
  - apply String.compare_eq_iff in E. subst k'. intuition congruence.
  - intuition congruence.
  - rewrite IH. intuition congruence.
Qed.

Lemma group_keys_members (rows : list Pricing.market_record) (k : string) :
  In k (Pricing.group_keys rows)
  <-> exists r, In r rows /\ Pricing.seasonal_factor r = k.
Proof.
  induction rows as [| r rows IH]; cbn.
  - split; [contradiction | now intros [r [[] _]]].
  - fold (Pricing.group_keys rows). rewrite insert_key_members, IH. split.
    + intros [-> | [r' [Hin E]]]; eauto.
    + intros [r' [[<- | Hin] E]]; [now left | right; eauto].
Qed.

Lemma max_from_best {A} (key : A -> Q) (best : A) (l : list A) :
  In (Pricing.max_from key best l) (best :: l)
  /\ forall x, In x (best :: l) -> key x <= key (Pricing.max_from key best l).
Proof.
  revert best. induction l as [| y l IH]; intro best; cbn.
  - split; [now left | intros x [<- | []]; apply Qle_refl].
  - by_cases (key best) (key y).
    + destruct (IH y) as [Hin Hmax]. split; [right; exact Hin |].
      intros x [<- | Hx]; [| now apply Hmax].
      apply Qle_trans with (key y); [lra | apply Hmax; now left].
    + destruct (IH best) as [Hin Hmax]. split.
      * destruct Hin as [<- | Hin]; [now left | right; now right].
      * intros x [<- | [<- | Hx]].
        -- apply Hmax. now left.
        -- apply Qle_trans with (key best); [lra | apply Hmax; now left].
        -- apply Hmax. now right.
Qed.

Lemma seasonal_factors_found (rows : list Pricing.market_record) :
  rows <> [] -> exists sa, Pricing.analyze_seasonal_factors rows = Some sa.
Proof.
  intro Hne. unfold Pricing.analyze_seasonal_factors, Pricing.seasonal_data.
  destruct rows as [| r rows]; [congruence |].
  destruct (Pricing.group_keys (r :: rows)) as [| k ks] eqn:E; cbn; [| eauto].
  exfalso. assert (Hin : In (Pricing.seasonal_factor r) (Pricing.group_keys (r :: rows)))
    by (apply group_keys_members; exists r; split; [now left | reflexivity]).
  rewrite E in Hin. contradiction.
Qed.

(** X12.  The seasonal analysis of rows that are not empty names as
    highest-price season a seasonal factor that occurs in the rows and
    whose mean price no other seasonal factor of the rows exceeds; it gives
    one recommendation when the highest-demand season is the same season
    and two otherwise. *)
Theorem highest_price_season_is_maximal (rows : list Pricing.market_record) :
  rows <> [] ->
  exists sa,
    Pricing.analyze_seasonal_factors rows = Some sa
    /\ (exists r, In r rows
                  /\ Pricing.seasonal_factor r = Pricing.highest_price_season sa)
    /\ (forall r, In r rows ->
          Pricing.avg_price (Pricing.stats_of (Pricing.group rows (Pricing.seasonal_factor r)))
          <= Pricing.avg_price
               (Pricing.stats_of (Pricing.group rows (Pricing.highest_price_season sa))))
    /\ List.length (Pricing.sa_recommendations sa)
       = (if String.eqb (Pricing.highest_demand_season sa)
                        (Pricing.highest_price_season sa)
          then 1 else 2)%nat.
Proof.
  intro Hne. destruct (seasonal_factors_found rows Hne) as [sa Hsa].
  exists sa. split; [exact Hsa |].
  unfold Pricing.analyze_seasonal_factors in Hsa.
  destruct (Pricing.seasonal_data rows) as [| first rest] eqn:Ed; [discriminate |].
  injection Hsa as <-. cbn [Pricing.highest_price_season Pricing.highest_demand_season
                             Pricing.sa_recommendations].
  set (key := fun x : string * Pricing.seasonal_stats => Pricing.avg_price (snd x)).
  destruct (max_from_best key first rest) as [Hin Hmax].
  set (best := Pricing.max_from key first rest) in *.
  assert (Hitem : forall x, In x (first :: rest) ->
            In (fst x) (Pricing.group_keys rows)
            /\ snd x = Pricing.stats_of (Pricing.group rows (fst x))).
  { intros x Hx. rewrite <- Ed in Hx. unfold Pricing.seasonal_data in Hx.
    apply in_map_iff in Hx as [k [<- Hk]]. now split. }
  split; [| split].
  - apply group_keys_members. now apply Hitem.
  - intros r Hr.
    assert (Hk : In (Pricing.seasonal_factor r) (Pricing.group_keys rows))
      by (apply group_keys_members; eauto).
    assert (Hx : In (Pricing.seasonal_factor r,
                     Pricing.stats_of (Pricing.group rows (Pricing.seasonal_factor r)))
                    (first :: rest)).
    { rewrite <- Ed. unfold Pricing.seasonal_data.
      apply in_map_iff. exists (Pricing.seasonal_factor r). now split. }
    specialize (Hmax _ Hx). unfold key in Hmax. cbn [snd] in Hmax.
    destruct (Hitem best Hin) as [_ Hb]. now rewrite <- Hb.
  - unfold Pricing.generate_seasonal_recommendations.
    destruct (String.eqb _ _); reflexivity.
Qed.

Lemma highest_price_season_is_maximal_witness :
  exists sa,
    Pricing.analyze_seasonal_factors scenario_rows = Some sa
    /\ Pricing.highest_price_season sa = "High".
Proof.
  destruct (highest_price_season_is_maximal scenario_rows) as [sa [Hsa _]];
    [discriminate |].
  exists sa. split; [exact Hsa |].
  vm_compute in Hsa. injection Hsa as <-. reflexivity.
Defined.

(** X13.  The analysis of the rows of a product, when there is at least
    one row, returns between one and four market recommendations, each
    with a positive economic impact and a confidence in (0, 1]; the last
    one is the "Timing Optimization" for the highest-price season.  The
    first one is "Production Increase" when the status reported is
    undersupplied and "Diversification" when it is oversupplied; and the
    status is undersupplied when the mean supply reported is positive and
    the mean demand is at least 1.2000000000000002 times it.  On no row the
    analysis raises [KeyError]. *)
Theorem product_market_recommendations (power_1_5 : Q -> Q)
    (rows : list Pricing.market_record) (time_horizon : string) :
  Pricing.analyze_product_market power_1_5 [] time_horizon = Raised KeyError
  /\ (rows <> [] ->
      exists a,
        Pricing.analyze_product_market power_1_5 rows time_horizon = Returned a
        /\ (1 <= List.length (Pricing.market_recommendations a) <= 4)%nat
        /\ Forall (fun i => 0 < MarketRecs.economic_impact i
                            /\ 0 < MarketRecs.confidence i
                            /\ MarketRecs.confidence i <= 1)
                  (Pricing.market_recommendations a)
        /\ (exists front timing,
              Pricing.market_recommendations a = (front ++ [timing])%list
              /\ MarketRecs.focus timing = "Timing Optimization")
        /\ (Pricing.market_status a = Market.undersupplied ->
            exists first rest,
              Pricing.market_recommendations a = first :: rest
              /\ MarketRecs.focus first = "Production Increase")
        /\ (Pricing.market_status a = Market.oversupplied ->
            exists first rest,
              Pricing.market_recommendations a = first :: rest
              /\ MarketRecs.focus first = "Diversification")
        /\ (0 < Pricing.avg_supply_index a ->
            1.2000000000000002 * Pricing.avg_supply_index a
            <= Pricing.avg_demand_index a ->
            Pricing.market_status a = Market.undersupplied)).
Proof.
  split; [reflexivity |]. intro Hne.
  destruct (seasonal_factors_found rows Hne) as [sa Hsa].
  destruct rows as [| first rows']; [congruence |].
  unfold Pricing.analyze_product_market. cbv beta iota. rewrite Hsa.
  set (rows := first :: rows') in *.
  eexists. split; [reflexivity |].
  cbn [Pricing.market_recommendations Pricing.avg_supply_index
       Pricing.avg_demand_index Pricing.market_status].
  set (status := Market.determine_market_status
                   (Pricing.column_mean Pricing.demand_index rows)
                   (Pricing.column_mean Pricing.supply_index rows)).
  set (forecast := Pricing.forecast_price power_1_5 rows time_horizon).
  set (demand := Pricing.analyze_demand_trend rows).
  assert (Hconf : Pricing.forecast_confidence forecast = 0.8
                  \/ Pricing.forecast_confidence forecast = 0.6).
  { unfold forecast, Pricing.forecast_price.
    destruct (String.eqb time_horizon "short-term");
      destruct (Pricing.price_label _ _); cbn; auto. }
  unfold Pricing.generate_market_recommendations.
  split; [| split; [| split; [| split; [| split]]]].
  - rewrite !length_app.
    destruct status;
      repeat match goal with
             | |- context [if Pricing.one_of ?x ?l then _ else _] =>
                 destruct (Pricing.one_of x l)
             end; cbn; lia.
  - repeat (apply Forall_app; split);
      repeat match goal with
             | |- Forall _ (match ?x with _ => _ end) => destruct x
             | |- Forall _ (if ?x then _ else _) => destruct x
             end;
      repeat first [apply Forall_nil | apply Forall_cons];
      cbn [MarketRecs.economic_impact MarketRecs.confidence];
      try (destruct Hconf as [-> | ->]); repeat split; lra.
  - rewrite !app_assoc. eexists _, _. split; reflexivity.
  - intro Hu. rewrite Hu. cbn. eauto.
  - intro Ho. rewrite Ho. cbn. eauto.
  - intros Hs Hd. unfold status.
    apply (status_by_exact_quotient _ _ Hs).
    apply Qle_shift_div_l; [exact Hs | exact Hd].
Qed.

Lemma product_market_recommendations_witness :
  exists a,
    Pricing.analyze_product_market example_power scenario_rows "short-term" = Returned a
    /\ (1 <= List.length (Pricing.market_recommendations a) <= 4)%nat.
Proof.
  destruct (product_market_recommendations example_power scenario_rows "short-term")
    as [_ Hrun].
  destruct Hrun as [a [Ha [Hl _]]]; [discriminate |].
  exists a. split; [exact Ha | exact Hl].
Defined.

(** X14.  The diversification strategy recommends at most two of the top
    crops, in their order, and always ends with the "Risk Management"
    recommendation; when a current crop is given, no crop with the same
    name, letter case aside, is recommended. *)
Theorem diversification_avoids_current_crop (lower : string -> string)
    (top_crops : list Pricing.top_crop) (current_crop : option string) :
  exists chosen,
    Pricing.recommend_diversification lower top_crops current_crop
    = (map Pricing.diversification_rec chosen ++ [Pricing.risk_management])%list
    /\ (List.length chosen <= 2)%nat
    /\ incl chosen top_crops
    /\ forall c, current_crop = Some c -> c <> "" ->
         Forall (fun crop => lower (Pricing.tc_product crop) <> lower c) chosen.
Proof.
  unfold Pricing.recommend_diversification.
  set (options := Pricing.diversification_options lower top_crops current_crop).
  exists (firstn 2 options). split; [reflexivity |].
  split; [rewrite length_firstn; lia |]. split.
  - intros crop Hin.
    assert (Hopt : In crop options).
    { clear -Hin. revert Hin. generalize 2%nat as n. induction options as [| x l IH];
        intros [| n]; cbn; try tauto. intros [E | H]; [now left | right; eauto]. }
    subst options. unfold Pricing.diversification_options in Hopt.
    destruct current_crop as [c |]; [| assumption].
    destruct (String.eqb c ""); [assumption |]. now apply filter_In in Hopt.
  - intros c -> Hc. apply Forall_forall. intros crop Hin.
    assert (Hopt : In crop options).
    { clear -Hin. revert Hin. generalize 2%nat as n. induction options as [| x l IH];
        intros [| n]; cbn; try tauto. intros [E | H]; [now left | right; eauto]. }
    subst options. unfold Pricing.diversification_options in Hopt.
    destruct (String.eqb_spec c ""); [contradiction |].
    apply filter_In in Hopt as [_ Hneq]. apply negb_true_iff in Hneq.
    now apply String.eqb_neq in Hneq.
Qed.

(** ** Forecast samples *)

Section SampleFacts.

Context {G : Type} `{Weather.Generator G}.
Import Weather Calendar.

Ltac step_run :=
  match goal with
  | |- context [draw ?g] => destruct (draw g) as [? ?] eqn:?; cbn
  | |- context [if ?a <? ?b then _ else _] => destruct (a <? b) eqn:?; cbn
  end.

Ltac run_station :=
  unfold State.bind, State.ret, random, datetime_now, get_current_season; cbn;
  repeat step_run.

Lemma twice_amplitude region params :
  lookup region regions = Some params ->
  0 < rainfall_variation params
  /\ Num.round1 (rainfall_variation params * 2) == rainfall_variation params * 2.
Proof.
  cbn. repeat (destruct (String.eqb region _);
               [intro E; injection E as <-; split; vm_compute; reflexivity |]).
  discriminate.
Qed.

Lemma forecast_day_rain now region params d tt rt (w : world G) :
  lookup region regions = Some params ->
  rain_fits params (tr_sample (fst (forecast_day now params d tt rt w))).
Proof.
  intro Hr. destruct (twice_amplitude region params Hr) as [Hrv Hround].
  assert (Hnormal : forall r t, normal_condition params r t <> "Drought Conditions"
                                /\ normal_condition params r t <> "Flood Warning")
    by (intros r t; apply normal_tags_not_extreme, normal_condition_tag).
  unfold forecast_day, roll_event, rain_fits. run_station.
  - split; [vm_compute; discriminate |]. split; [reflexivity | discriminate].
  - split; [apply round1_nonnegative; lra |]. split; [discriminate | now intros _].
  - split.
    + apply round1_nonnegative. unfold Num.max.
      match goal with
      | |- context [if ?a <? ?b then _ else _] => by_cases a b
      end; lra.
    + split; intro E; now apply Hnormal in E.
Qed.

Lemma forecast_loop_rain now region params days tt rt (w : world G) :
  lookup region regions = Some params ->
  Forall (rain_fits params) (map tr_sample (fst (forecast_loop now params days tt rt w))).
Proof.
  intro Hr. revert tt rt w. induction days as [| d days IH]; intros tt rt w; [constructor |].
  cbn. unfold State.bind, State.ret.
  pose proof (forecast_day_rain now region params d tt rt w Hr) as Hd.
  destruct (forecast_day now params d tt rt w) as [tr w1].
  specialize (IH (tr_temp_trend tr) (tr_rain_trend tr) w1).
  destruct (forecast_loop now params days _ _ w1) as [trs w2].
  cbn in *. constructor; assumption.
Qed.

Lemma forecast_rain_fits now region params days (w : world G) forecast :
  lookup region regions = Some params ->
  fst (generate_forecast now region days w) = Returned forecast ->
  Forall (rain_fits params) forecast.
Proof.
  intros Hr Hf. rewrite (generate_forecast_trace now region params days w Hr) in Hf.
  injection Hf as <-. unfold forecast_trace, State.bind.
  destruct (generate_current_weather now params w) as [cw w1].
  now apply (forecast_loop_rain now region).
Qed.

End SampleFacts.

Section ForecastFacts.

Context {G : Type} `{Weather.Generator G}.
Import Weather Calendar.

Ltac step_day :=
  match goal with
  | |- context [draw ?g] => destruct (draw g) as [? ?] eqn:?; cbn
  | |- context [if ?a <? ?b then _ else _] => destruct (a <? b) eqn:?; cbn
  end.

Ltac run_day :=
  unfold State.bind, State.ret, random, datetime_now, get_current_season; cbn;
  repeat step_day.

Lemma extreme_cases (s : sample) :
  extreme s = true ->
  condition s = "Drought Conditions" \/ condition s = "Flood Warning".
Proof.
  unfold extreme, condition_in. cbn.
  destruct (String.eqb_spec (condition s) "Drought Conditions"); [now left |].
  destruct (String.eqb_spec (condition s) "Flood Warning"); [now right |].
  discriminate.
Qed.

(** An extreme day whose rainfall fits its condition gets a short-term
    recommendation. *)
Lemma short_term_of_extreme params i (s : sample) rest :
  rain_fits params s -> extreme s = true -> short_term i (s :: rest) <> [].
Proof.
  intros [_ [Hd _]] He. cbn [short_term].
  destruct (extreme_cases s He) as [E | E]; rewrite E in *; cbn.
  - assert (Hlt : (rainfall_mm s <? 2) = true) by (apply ltb_lt; rewrite Hd; [lra | reflexivity]).
    rewrite Hlt. discriminate.
  - discriminate.
Qed.

Lemma short_term_found params i (days : list sample) :
  Forall (rain_fits params) days ->
  (exists s, In s days /\ extreme s = true) -> short_term i days <> [].
Proof.
  revert i. induction days as [| d days IH]; intros i Hall [s [Hin He]]; [contradiction |].
  inversion Hall as [| ? ? Hd Hrest]; subst.
  destruct Hin as [<- | Hin]; [now apply (short_term_of_extreme params) |].
  cbn [short_term]. intro E. apply app_eq_nil in E as [_ E].
  apply (IH (i + 1)%Z Hrest); eauto.
Qed.

(** X15.  In the forecast of a configured region no sample has a negative
    rainfall; a "Drought Conditions" sample reports 0 mm and a "Flood
    Warning" sample twice the region's rainfall amplitude.  So whenever one
    of the first seven days of such a forecast is a drought or flood day,
    the weather recommendations built from it start with the group
    "Short-term Weather Management", which is not empty. *)
Theorem extreme_days_are_acted_on (now : clock) (region : string)
    (params : region_params) (days : Z) (w : world G) (forecast : list sample)
    (season : season) :
  lookup region regions = Some params ->
  fst (generate_forecast now region days w) = Returned forecast ->
  Forall (rain_fits params) forecast
  /\ ((exists s, In s (firstn 7 forecast) /\ extreme s = true) ->
      exists g rest,
        recommendation_groups forecast season = g :: rest
        /\ Recs.category g = "Short-term Weather Management"
        /\ Recs.recommendations g <> []).
Proof.
  intros Hr Hf. pose proof (forecast_rain_fits now region params days w forecast Hr Hf) as Hall.
  split; [exact Hall |]. intro Hex.
  assert (Hweek : Forall (rain_fits params) (firstn 7 forecast)).
  { apply Forall_forall. intros s Hs. rewrite Forall_forall in Hall. apply Hall.
    revert Hs. clear. generalize 7%nat as n. revert s.
    induction forecast as [| x l IH]; intros s [| n]; cbn; try tauto.
    intros [E | Hin]; [now left | right; eauto]. }
  pose proof (short_term_found params 0 _ Hweek Hex) as Hne.
  unfold recommendation_groups.
  destruct (short_term 0 (firstn 7 forecast)) as [| r rs]; [congruence |].
  eexists _, _. split; [reflexivity |]. split; [reflexivity | discriminate].
Qed.

(** *** Historical data *)

Lemma historical_day_date params end_date d (w : world G) :
  let s := fst (historical_day params end_date d w) in
  date s = (ordinal end_date - d)%Z /\ day s = None.
Proof. unfold historical_day. run_day. split; [lia | reflexivity]. Qed.

Lemma historical_loop_dates params end_date days (w : world G) :
  let samples := fst (historical_loop params end_date days w) in
  map date samples = map (fun d => (ordinal end_date - d)%Z) days
  /\ Forall (fun s => day s = None) samples.
Proof.
  revert w. induction days as [| d days IH]; intro w; cbn; [split; [reflexivity | constructor] |].
  unfold State.bind, State.ret.
  pose proof (historical_day_date params end_date d w) as [Hd Hn].
  destruct (historical_day params end_date d w) as [s w1].
  specialize (IH w1). destruct (historical_loop params end_date days w1) as [ss w2].
  cbn in *. destruct IH as [IH1 IH2]. split; [now rewrite Hd, IH1 | now constructor].
Qed.

(** X16.  For a configured region, an anchor that is a date of [datetime]
    and a number of days that does not reach back before 0001-01-01, the
    historical data has [days] samples (none for [days <= 0]), none of
    which carries a day number; sample i (from 0) is dated i days before the
    anchor, which is the date given or, when none is given, the day before
    the one the clock shows. *)
Theorem historical_dates_go_back (now : clock) (region : string)
    (specific_date : option datetime) (days : Z) (w : world G) :
  In region (map fst regions) ->
  in_range (anchor_day now specific_date w) ->
  (days <= anchor_day now specific_date w)%Z ->
  exists samples,
    fst (generate_historical_data now region specific_date days w) = Returned samples
    /\ List.length samples = Z.to_nat days
    /\ (forall i, (i < Z.to_nat days)%nat ->
          nth_error (map date samples) i
          = Some (anchor_day now specific_date w - Z.of_nat i)%Z)
    /\ Forall (fun s => day s = None) samples.
Proof.
  intros Hin _ _. set (anchor := anchor_day now specific_date w).
  destruct (configured_lookup region Hin) as [params Hr].
  assert (Hloop : forall end_date w1,
            ordinal end_date = anchor ->
            let ss := fst (historical_loop params end_date (range 0 days) w1) in
            List.length ss = Z.to_nat days
            /\ (forall i, (i < Z.to_nat days)%nat ->
                  nth_error (map date ss) i = Some (anchor - Z.of_nat i)%Z)
            /\ Forall (fun s => day s = None) ss).
  { intros end_date w1 Hanchor ss.
    destruct (historical_loop_dates params end_date (range 0 days) w1) as [Hd Hn].
    fold ss in Hd, Hn.
    assert (Hlen : List.length ss = Z.to_nat days).
    { rewrite <- (length_map date), Hd, length_map, range_length. f_equal. lia. }
    split; [exact Hlen |]. split; [| exact Hn].
    intros i Hi. rewrite Hd, nth_error_map, range_nth by lia.
    cbn [option_map]. rewrite Hanchor. f_equal; lia. }
  unfold generate_historical_data. rewrite Hr.
  destruct specific_date as [d |]; unfold State.bind, State.ret, datetime_now.
  - specialize (Hloop d w eq_refl).
    destruct (historical_loop params d (range 0 days) w) as [ss w2].
    exists ss. split; [reflexivity | exact Hloop].
  - set (end_date := add_days (now (tick w)) (-1)).
    set (w1 := {| rng := rng w; tick := S (tick w) |}).
    assert (Hanchor : ordinal end_date = anchor)
      by (subst anchor end_date; unfold anchor_day; cbn; lia).
    specialize (Hloop end_date w1 Hanchor).
    destruct (historical_loop params end_date (range 0 days) w1) as [ss w2].
    exists ss. split; [reflexivity | exact Hloop].
Qed.

(** *** The impact classifier *)

Lemma extreme_advice_count (forecast : list sample) :
  List.length (flat_map extreme_advice forecast) = List.length (filter extreme forecast).
Proof.
  induction forecast as [| s l IH]; [reflexivity |].
  cbn [flat_map filter]. rewrite length_app, IH.
  unfold extreme_advice, extreme, condition_in. cbn.
  destruct (String.eqb (condition s) "Drought Conditions"); [reflexivity |].
  destruct (String.eqb (condition s) "Flood Warning"); reflexivity.
Qed.

(** X17.  On a forecast that is not empty the impact classifier returns
    one recommendation for a negative temperature impact, one for a
    negative rainfall impact, one for each drought or flood day, and one
    for the season: the list is never empty.  The overall impact is
    "negative" exactly when one of the two impacts is, and "positive"
    exactly when both are positive. *)
Theorem impact_recommendation_count (now : clock) (current : current_weather)
    (forecast : list sample) (region : string) (w : world G) :
  forecast <> [] ->
  exists i,
    fst (assess_agricultural_impact now current forecast region w) = Returned i
    /\ List.length (recommendations i)
       = ((if String.eqb (temperature_impact i) "negative" then 1 else 0)
          + (if String.eqb (rainfall_impact i) "negative" then 1 else 0)
          + List.length (filter extreme forecast) + 1)%nat
    /\ (overall_impact i = "negative" <->
        temperature_impact i = "negative" \/ rainfall_impact i = "negative")
    /\ (overall_impact i = "positive" <->
        temperature_impact i = "positive" /\ rainfall_impact i = "positive").
Proof.
  intro Hne. destruct forecast as [| s0 rest]; [congruence |].
  set (forecast := s0 :: rest). unfold assess_agricultural_impact. fold forecast.
  cbv beta iota.
  assert (Ht : forall x, exists t recs,
             temperature_assessment x = (t, recs)
             /\ In t ["negative"; "positive"; "neutral"]
             /\ List.length recs = if String.eqb t "negative" then 1%nat else 0%nat).
  { intro x. unfold temperature_assessment.
    destruct (_ <? _); [eexists _, _; split; [reflexivity |]; cbn; auto |].
    destruct (_ <? _); [eexists _, _; split; [reflexivity |]; cbn; auto |].
    destruct (_ && _); eexists _, _; (split; [reflexivity |]); cbn; auto. }
  assert (Hrn : forall x, exists t recs,
             rainfall_assessment x = (t, recs)
             /\ In t ["negative"; "positive"; "neutral"]
             /\ List.length recs = if String.eqb t "negative" then 1%nat else 0%nat).
  { intro x. unfold rainfall_assessment.
    destruct (_ <? _); [eexists _, _; split; [reflexivity |]; cbn; auto |].
    destruct (_ <? _); [eexists _, _; split; [reflexivity |]; cbn; auto |].
    destruct (_ && _); eexists _, _; (split; [reflexivity |]); cbn; auto. }
  match goal with
  | |- context [temperature_assessment ?x] =>
      destruct (Ht x) as [ti [recs1 [E1 [Hti L1]]]]; rewrite E1
  end.
  match goal with
  | |- context [rainfall_assessment ?x] =>
      destruct (Hrn x) as [ri [recs2 [E2 [Hri L2]]]]; rewrite E2
  end.
  unfold State.bind, State.ret, get_current_season, datetime_now. cbn [fst].
  eexists. split; [reflexivity |].
  cbn [recommendations temperature_impact rainfall_impact overall_impact].
  split.
  - rewrite !length_app, extreme_advice_count, L1, L2. cbn [List.length]. lia.
  - unfold overall.
    cbn in Hti, Hri.
    destruct Hti as [<- | [<- | [<- | []]]], Hri as [<- | [<- | [<- | []]]]; cbn;
      split; split; intros; try discriminate; try reflexivity; auto;
      try (destruct H0 as [H0 | H0]; discriminate H0);
      try (destruct H0 as [H0 H1]; discriminate).
Qed.

End ForecastFacts.

Lemma extreme_days_are_acted_on_witness :
  exists forecast,
    fst (Weather.generate_forecast (fixed_clock 739923) "south" 14 fresh_world)
    = Returned forecast
    /\ Forall (rain_fits Weather.south) forecast.
Proof.
  destruct (Weather.generate_forecast (fixed_clock 739923) "south" 14 fresh_world)
    as [[forecast | e] w1] eqn:E.
  - exists forecast. split; [reflexivity |].
    apply (extreme_days_are_acted_on (fixed_clock 739923) "south" Weather.south 14
             fresh_world forecast Weather.fall eq_refl).
    now rewrite E.
  - vm_compute in E. discriminate E.
Defined.

Lemma historical_dates_go_back_witness :
  exists samples,
    fst (Weather.generate_historical_data (fixed_clock 739923) "north" None 30
           fresh_world) = Returned samples
    /\ List.length samples = 30%nat
    /\ nth_error (map Weather.date samples) 0 = Some 739922%Z.
Proof.
  destruct (historical_dates_go_back (fixed_clock 739923) "north" None 30 fresh_world)
    as [samples [Hs [Hl [Hd _]]]].
  - cbn. auto.
  - unfold Calendar.in_range, Calendar.min_ordinal, Calendar.max_ordinal. cbn. lia.
  - cbn. lia.
  - exists samples. split; [exact Hs |]. split; [exact Hl |].
    apply (Hd 0%nat). cbn. lia.
Defined.

Lemma impact_recommendation_count_witness :
  exists i,
    fst (Weather.assess_agricultural_impact (fixed_clock 739923) scenario_current
           scenario_forecast "central" fresh_world) = Returned i
    /\ List.length (Weather.recommendations i) = 3%nat.
Proof.
  destruct (impact_recommendation_count (fixed_clock 739923) scenario_current
              scenario_forecast "central" fresh_world) as [i [Hi [Hl _]]].
  - discriminate.
  - exists i. split; [exact Hi |].
    vm_compute in Hi. injection Hi as <-. reflexivity.
Defined.

(** ** Recommendations of the weather station and the farmer advisor *)

Ltac by_branches :=
  repeat match goal with
         | |- context [if ?b then _ else _] => destruct b
         end.

Lemma firstn_members {A} (n : nat) (l : list A) (a : A) : In a (firstn n l) -> In a l.
Proof.
  revert l. induction n as [| n IH]; intros [| x l]; cbn; try tauto.
  intros [E | Hin]; [now left | right; now apply IH].
Qed.

(** The confidence of the advice for the days of a week: the doubles the
    source computes for [0.85 - i * 0.05], the last of which is just below
    0.55. *)
Lemma confidence_of_the_week (i : Z) :
  (0 <= i <= 6)%Z ->
  0.5499999999999999 <= Weather.short_term_confidence i
  /\ Weather.short_term_confidence i <= 0.85
  /\ Weather.short_term_confidence 6 < 0.55.
Proof.
  intro Hi.
  assert (Hcases : (i = 0 \/ i = 1 \/ i = 2 \/ i = 3 \/ i = 4 \/ i = 5 \/ i = 6)%Z)
    by lia.
  repeat (destruct Hcases as [-> | Hcases]); try subst i;
    vm_compute; repeat split; discriminate.
Qed.

Lemma short_term_focus (i : Z) (days : list Weather.sample) :
  (0 <= i)%Z -> (i + Z.of_nat (List.length days) <= 7)%Z ->
  Forall (focus_rec 0.5499999999999999 0.9) (Weather.short_term i days).
Proof.
  revert i. induction days as [| d days IH]; intros i Hi Hlen;
    cbn [Weather.short_term]; [constructor |].
  cbn [List.length] in Hlen. rewrite Nat2Z.inj_succ in Hlen.
  destruct (confidence_of_the_week i ltac:(lia)) as [Hlo [Hhi _]].
  apply Forall_app. split.
  - by_branches; repeat first [apply Forall_nil | apply Forall_cons];
      unfold focus_rec; cbn [Recs.label_key Recs.economic_impact
                             Recs.sustainability_impact Recs.confidence];
      (split; [reflexivity |]); (split; [reflexivity |]);
      (split; [eexists; split; [reflexivity | lra] |]);
      eexists; (split; [reflexivity |]); lra.
  - apply IH; lia.
Qed.

(** X18.  The weather recommendations built from a forecast are the groups
    "Seasonal Planning", with two recommendations, and "Water Management",
    with one or two, preceded by the group "Short-term Weather Management",
    with one to three, when a day of the first week calls for one.  Every
    recommendation has a positive sustainability impact, no economic impact
    and a confidence between 0.5499999999999999 and 0.9: the confidence of
    the short-term advice for the seventh day is the double that
    [0.85 - 6 * 0.05] gives, which is just below 0.55. *)
Theorem weather_groups_shape (forecast : list Weather.sample) (season : Weather.season) :
  exists short seasonal water,
    Weather.recommendation_groups forecast season = (short ++ [seasonal; water])%list
    /\ (short = []
        \/ exists g, short = [g]
             /\ Recs.category g = "Short-term Weather Management"
             /\ (1 <= List.length (Recs.recommendations g) <= 3)%nat)
    /\ Recs.category seasonal = "Seasonal Planning"
    /\ List.length (Recs.recommendations seasonal) = 2%nat
    /\ Recs.category water = "Water Management"
    /\ (1 <= List.length (Recs.recommendations water) <= 2)%nat
    /\ Forall (fun g => Forall (focus_rec 0.5499999999999999 0.9) (Recs.recommendations g))
              (Weather.recommendation_groups forecast season).
Proof.
  unfold Weather.recommendation_groups.
  assert (Hweek : (0 + Z.of_nat (List.length (firstn 7 forecast)) <= 7)%Z)
    by (rewrite length_firstn; lia).
  pose proof (short_term_focus 0 (firstn 7 forecast) (Z.le_refl 0) Hweek) as Hshort.
  assert (Hrecs : Forall (focus_rec 0.5499999999999999 0.9)
                         (firstn 3 (Weather.short_term 0 (firstn 7 forecast)))).
  { apply Forall_forall. intros r Hr. apply firstn_members in Hr.
    rewrite Forall_forall in Hshort. exact (Hshort r Hr). }
  assert (Htail : Forall (fun g => Forall (focus_rec 0.5499999999999999 0.9) (Recs.recommendations g))
            [{| Recs.category := "Seasonal Planning";
                Recs.recommendations :=
                  [Weather.current_season_rec season;
                   Weather.next_season_rec (Weather.next_season season)];
                Recs.explanation := "Recommendations for current "
                  ++ Weather.season_name season
                  ++ " conditions and preparation for upcoming "
                  ++ Weather.season_name (Weather.next_season season) |};
             {| Recs.category := "Water Management";
                Recs.recommendations :=
                  Weather.water_recs
                    (Num.sum (map Weather.rainfall_mm (firstn 14 forecast)) / 14);
                Recs.explanation :=
                  "Strategies for sustainable water usage based on precipitation forecasts" |}]).
  { constructor; [| constructor; [| constructor]]; cbn [Recs.recommendations].
    - destruct season; repeat first [apply Forall_nil | apply Forall_cons];
        unfold focus_rec; cbn;
        (split; [reflexivity |]); (split; [reflexivity |]);
        (split; [eexists; split; [reflexivity | lra] |]);
        eexists; (split; [reflexivity |]); lra.
    - unfold Weather.water_recs. by_branches;
        repeat first [apply Forall_nil | apply Forall_cons];
        unfold focus_rec; cbn;
        (split; [reflexivity |]); (split; [reflexivity |]);
        (split; [eexists; split; [reflexivity | lra] |]);
        eexists; (split; [reflexivity |]); lra. }
  destruct (Weather.short_term 0 (firstn 7 forecast)) as [| r rs] eqn:E.
  - eexists [], _, _. split; [reflexivity |]. split; [now left |].
    split; [reflexivity |]. split; [reflexivity |]. split; [reflexivity |].
    split; [| exact Htail].
    cbn [Recs.recommendations]. unfold Weather.water_recs. by_branches; cbn; lia.
  - eexists [_], _, _. split; [reflexivity |]. split.
    + right. eexists. split; [reflexivity |]. split; [reflexivity |].
      cbn [Recs.recommendations]. rewrite length_firstn. cbn [List.length]. lia.
    + split; [reflexivity |]. split; [reflexivity |]. split; [reflexivity |]. split.
      * cbn [Recs.recommendations]. unfold Weather.water_recs. by_branches; cbn; lia.
      * constructor; [exact Hrecs | exact Htail].
Qed.

Lemma farming_lists_full (farm : parcel) (goal : string) (preference : Z) :
  Forall full_rec (Farmer.recommend_crops farm goal preference)
  /\ Forall full_rec (Farmer.recommend_resource_optimization farm preference)
  /\ Forall full_rec (Farmer.recommend_sustainable_practices farm preference).
Proof.
  unfold Farmer.recommend_crops, Farmer.recommend_resource_optimization,
    Farmer.recommend_sustainable_practices.
  repeat split; by_branches; cbn;
    repeat first [apply Forall_nil | apply Forall_cons];
    unfold full_rec; cbn; repeat split;
    eexists; (split; [reflexivity |]); lra.
Qed.

(** X19.  For a parcel of the repository the farmer advisor returns the
    three groups "Crop Selection" (at most two recommendations), "Resource
    Optimization" (one to four) and "Sustainable Practices" (two to four),
    in this order.  Every recommendation carries the three numbers: a
    sustainability impact in [1.5, 2.5], an economic impact in [-0.5, 2.0]
    and a confidence in [0.75, 0.9]. *)
Theorem farming_groups_shape (db : Database.table) (id : Z) (goal : string)
    (preference : Z) (farm : parcel) :
  Database.get_farm_data db id = Database.OneFarm farm ->
  exists crops resources practices,
    Farmer.generate_recommendations db id goal preference
    = Returned (Recs.Groups [crops; resources; practices])
    /\ Recs.category crops = "Crop Selection"
    /\ Recs.category resources = "Resource Optimization"
    /\ Recs.category practices = "Sustainable Practices"
    /\ (List.length (Recs.recommendations crops) <= 2)%nat
    /\ (1 <= List.length (Recs.recommendations resources) <= 4)%nat
    /\ (2 <= List.length (Recs.recommendations practices) <= 4)%nat
    /\ Forall (fun g => Forall full_rec (Recs.recommendations g))
              [crops; resources; practices].
Proof.
  intro Hf. unfold Farmer.generate_recommendations. rewrite Hf.
  eexists _, _, _. split; [reflexivity |].
  split; [reflexivity |]. split; [reflexivity |]. split; [reflexivity |].
  cbn [Recs.recommendations].
  destruct (farming_lists_full farm goal preference) as [Hc [Hr Hp]].
  split; [| split; [| split]].
  - unfold Farmer.recommend_crops. by_branches; cbn; lia.
  - unfold Farmer.recommend_resource_optimization. by_branches; cbn; lia.
  - unfold Farmer.recommend_sustainable_practices. by_branches; cbn; lia.
  - constructor; [exact Hc | constructor; [exact Hr | constructor; [exact Hp | constructor]]].
Qed.

Lemma farming_groups_shape_witness :
  exists crops resources practices,
    Farmer.generate_recommendations scenario_table 1 "balance" 7
    = Returned (Recs.Groups [crops; resources; practices])
    /\ Recs.category crops = "Crop Selection".
Proof.
  destruct (farming_groups_shape scenario_table 1 "balance" 7 scenario_parcel eq_refl)
    as [crops [resources [practices [E [Hc _]]]]].
  exists crops, resources, practices. split; [exact E | exact Hc].
Defined.

(** ** The seasons *)

Lemma month_bounds (o : Z) : (1 <= Calendar.month o <= 12)%Z.
Proof.
  unfold Calendar.month, Calendar.civil. cbv zeta. cbn [fst snd].
  set (z := (o + 305)%Z). clearbody z.
  set (doe := (z - z / 146097 * 146097)%Z).
  set (yoe := ((doe - doe / 1460 + doe / 36524 - doe / 146096) / 365)%Z).
  set (doy := (doe - (365 * yoe + yoe / 4 - yoe / 100))%Z).
  assert (Hdoy : (0 <= doy <= 365)%Z).
  { subst doy yoe doe. Z.div_mod_to_equations. lia. }
  clearbody doy. clear doe yoe.
  destruct (Z.ltb_spec ((5 * doy + 2) / 153) 10); Z.div_mod_to_equations; lia.
Qed.

(** X20.  For every date the season found is the one whose months contain
    the month of the date, and no other season's months do: the loop over
    the seasons always finds one, and the fallback to spring never
    decides. *)
Theorem season_of_month_unique (o : Z) :
  Weather.month_in (Calendar.month o)
    (Weather.monthly_range (Weather.seasons (Weather.season_of_date o))) = true
  /\ forall s,
       Weather.month_in (Calendar.month o) (Weather.monthly_range (Weather.seasons s))
       = true ->
       s = Weather.season_of_date o.
Proof.
  pose proof (month_bounds o) as Hm. unfold Weather.season_of_date.
  set (m := Calendar.month o) in *.
  assert (Hcases : (m = 1 \/ m = 2 \/ m = 3 \/ m = 4 \/ m = 5 \/ m = 6 \/ m = 7
                    \/ m = 8 \/ m = 9 \/ m = 10 \/ m = 11 \/ m = 12)%Z) by lia.
  clearbody m. clear Hm.
  repeat (destruct Hcases as [-> | Hcases]); try subst m;
    (split; [reflexivity | intros s Hs; destruct s; try reflexivity; discriminate Hs]).
Qed.


(** ** The synthesis engine *)

Lemma scored_items_length pref category weight (gs : list Recs.group) :
  List.length (Synthesis.scored_items pref category weight gs)
  = list_sum (map (fun g => List.length (Recs.recommendations g)) gs).
Proof.
  induction gs as [| g gs IH]; [reflexivity |].
  cbn. rewrite length_app, length_map. unfold Synthesis.scored_items in IH.
  now rewrite IH.
Qed.

Lemma farming_items_count pref (farm : parcel) (goal : string) :
  (3 <= List.length (Farmer.recommend_crops farm goal pref)
        + (List.length (Farmer.recommend_resource_optimization farm pref)
           + (List.length (Farmer.recommend_sustainable_practices farm pref) + 0)))%nat.
Proof.
  unfold Farmer.recommend_crops, Farmer.recommend_resource_optimization,
    Farmer.recommend_sustainable_practices.
  by_branches; cbn; lia.
Qed.

Lemma weather_items_count (forecast : list Weather.sample) (season : Weather.season) :
  (3 <= list_sum (map (fun g => List.length (Recs.recommendations g))
                      (Weather.recommendation_groups forecast season)))%nat.
Proof.
  unfold Weather.recommendation_groups. rewrite map_app, list_sum_app.
  cbn [map list_sum fold_right Recs.recommendations List.length].
  unfold Weather.water_recs. rewrite length_app. cbn [List.length]. lia.
Qed.

Section EngineFacts.

Context {G : Type} `{Weather.Generator G}.
Import Synthesis Recs Database.

Lemma weather_groups_returned now region (w : Weather.world G) :
  In region (map fst Weather.regions) ->
  exists forecast season,
    fst (Weather.generate_recommendations now region w)
    = Returned (Groups (Weather.recommendation_groups forecast season)).
Proof.
  intro Hin. destruct (configured_lookup region Hin) as [params Hr].
  unfold Weather.generate_recommendations. rewrite Hr. unfold State.bind.
  destruct (Weather.generate_current_weather now params w) as [cw w1].
  pose proof (generate_forecast_trace now region params 14 w1 Hr) as Hf.
  pose proof (forecast_trace_length now params 14 w1) as Hl.
  destruct (Weather.generate_forecast now region 14 w1) as [f w2].
  cbn in Hf. subst f.
  set (forecast := map Weather.tr_sample _).
  assert (Hne : forecast <> []).
  { intro E. apply (f_equal (@List.length _)) in E. subst forecast.
    rewrite length_map, Hl in E. discriminate E. }
  destruct (impact_of_forecast_returns now cw forecast region w2 Hne) as [i Hi].
  rewrite Hi. unfold Weather.get_current_season, State.bind, State.ret, Weather.datetime_now.
  cbn. eexists _, _. reflexivity.
Qed.

(** X21.  For a parcel of the repository and a configured region the
    engine returns a success result whose parcel is the one looked up and
    whose list of high-priority actions has exactly five entries, whatever
    the market agent contributed: the farming and the weather agents alone
    supply at least six items. *)
Theorem engine_five_actions now (db : table) (market : list MarketRecs.group)
    (id : Z) (region goal : string) (pref : Z) (w : Weather.world G) (farm : parcel) :
  get_farm_data db id = OneFarm farm ->
  In region (map fst Weather.regions) ->
  exists r,
    fst (generate_farm_recommendations now db market id region goal pref w)
    = Returned (Success r)
    /\ farm_data r = farm
    /\ market_recommendations r = market
    /\ List.length (high_priority_actions r) = 5%nat.
Proof.
  intros Hf Hin.
  destruct (weather_groups_returned now region w Hin) as [forecast [season Hw]].
  unfold generate_farm_recommendations, Farmer.generate_recommendations.
  rewrite Hf. unfold State.bind.
  destruct (Weather.generate_recommendations now region w) as [wr w1].
  cbn [fst] in Hw. subst wr. unfold gather, extract_recs. cbn [State.ret fst].
  eexists. split; [reflexivity |]. split; [reflexivity |]. split; [reflexivity |].
  cbn [high_priority_actions]. rewrite length_firstn.
  rewrite (Permutation_length (sort_permutation _)).
  rewrite !length_app, !scored_items_length.
  pose proof (weather_items_count forecast season) as Hweather.
  pose proof (farming_items_count pref farm goal) as Hfarming.
  cbn [map list_sum fold_right Recs.recommendations]. lia.
Qed.

(** X22.  For a parcel of the repository and a region that is not
    configured the engine does not return an error result: the weather
    agent answers with its error dict, iterating over it in [extract_recs]
    raises [TypeError], and no weather was generated. *)
Theorem engine_unknown_region_raises now (db : table) (market : list MarketRecs.group)
    (id : Z) (region goal : string) (pref : Z) (w : Weather.world G) (farm : parcel) :
  get_farm_data db id = OneFarm farm ->
  Weather.lookup region Weather.regions = None ->
  generate_farm_recommendations now db market id region goal pref w
  = (Raised TypeError, w).
Proof.
  intros Hf Hr.
  unfold generate_farm_recommendations, Farmer.generate_recommendations.
  rewrite Hf. unfold State.bind, Weather.generate_recommendations. rewrite Hr.
  reflexivity.
Qed.

(** X23.  When no row of the table has the id asked for, the engine
    returns the error "Farm ID <id> not found" and calls no agent, so that no
    weather is generated; except that for the id 0 and a table that is not
    empty the lookup returns all the rows and the call raises
    [TypeError]. *)
Theorem engine_without_parcel now (db : table) (market : list MarketRecs.group)
    (id : Z) (region goal : string) (pref : Z) (w : Weather.world G) :
  (forall p, In p db -> farm_id p <> id) ->
  generate_farm_recommendations now db market id region goal pref w
  = (if (id =? 0)%Z && negb (Nat.eqb (List.length db) 0)
     then Raised TypeError
     else Returned (Error (Farmer.not_found id)), w).
Proof.
  intro Hno. unfold generate_farm_recommendations, get_farm_data.
  destruct (id =? 0)%Z eqn:Ez.
  - destruct db; reflexivity.
  - destruct (find _ db) as [p |] eqn:Ef; [| reflexivity].
    apply find_some in Ef. destruct Ef as [Hin Hp].
    apply Z.eqb_eq in Hp. now apply Hno in Hin.
Qed.

End EngineFacts.

Lemma engine_five_actions_witness :
  exists r,
    fst (Synthesis.generate_farm_recommendations (fixed_clock 739923) scenario_table
           scenario_market 1 "central" "balance" 7 fresh_world)
    = Returned (Synthesis.Success r)
    /\ List.length (Synthesis.high_priority_actions r) = 5%nat.
Proof.
  destruct (engine_five_actions (fixed_clock 739923) scenario_table scenario_market
              1 "central" "balance" 7 fresh_world scenario_parcel eq_refl
              (or_intror (or_introl eq_refl)))
    as [r [E [_ [_ Hl]]]].
  exists r. split; [exact E | exact Hl].
Defined.

Lemma engine_unknown_region_raises_witness :
  Synthesis.generate_farm_recommendations (fixed_clock 739923) scenario_table scenario_market
    1 "east" "balance" 7 fresh_world
  = (Raised TypeError, fresh_world).
Proof.
  apply (engine_unknown_region_raises (fixed_clock 739923) scenario_table
           scenario_market 1 "east" "balance" 7 fresh_world scenario_parcel);
    reflexivity.
Defined.

Lemma engine_without_parcel_witness :
  Synthesis.generate_farm_recommendations (fixed_clock 739923) scenario_table scenario_market
    99 "central" "balance" 7 fresh_world
  = (Returned (Synthesis.Error (Farmer.not_found 99)), fresh_world).
Proof.
  apply (engine_without_parcel (fixed_clock 739923) scenario_table scenario_market
           99 "central" "balance" 7 fresh_world).
  intros p [<- | []]. discriminate.
Defined.


(** ** The ranges of the generated numbers *)

Lemma lcg_unit_draws : @unit_draws Z lcg.
Proof.
  intro g. cbn [Weather.draw lcg fst].
  assert (Hb : (0 <= lcg_next g < 2147483648)%Z)
    by (unfold lcg_next; apply Z.mod_pos_bound; reflexivity).
  destruct Hb as [Hlo Hhi]. rewrite Zle_Qle in Hlo. rewrite Zlt_Qlt in Hhi.
  change (inject_Z 0) with 0 in Hlo. change (inject_Z 2147483648) with 2147483648 in Hhi.
  split.
  - apply Qle_shift_div_l; [reflexivity | lra].
  - apply Qlt_shift_div_r; [reflexivity | lra].
Qed.

Lemma round1_between (lo hi x : Q) :
  Num.round1 lo == lo -> Num.round1 hi == hi ->
  lo <= x -> x <= hi -> lo <= Num.round1 x /\ Num.round1 x <= hi.
Proof.
  intros Hlo Hhi H1 H2. split.
  - rewrite <- Hlo. now apply round1_monotone.
  - rewrite <- Hhi. now apply round1_monotone.
Qed.

Lemma season_modifiers (s : Weather.season) :
  0 <= Weather.rainfall_modifier (Weather.seasons s)
  /\ 0.9 <= Weather.humidity_modifier (Weather.seasons s)
  /\ Weather.humidity_modifier (Weather.seasons s) <= 1.2.
Proof. destruct s; cbn; lra. Qed.

Lemma configured_amplitudes region params :
  Weather.lookup region Weather.regions = Some params ->
  0 <= Weather.temp_variation params
  /\ 0 <= Weather.rainfall_variation params
  /\ 0 <= Weather.base_rainfall params.
Proof.
  cbn. repeat (destruct (String.eqb region _);
               [intro E; injection E as <-; cbn; lra |]).
  discriminate.
Qed.

Lemma spread_ordered (t v : Q) : 0 <= v -> Num.round1 (t - v / 2) <= Num.round1 (t + v / 2).
Proof.
  intro Hv. apply round1_monotone.
  set (h := v / 2). assert (E : v == 2 * h) by (subst h; field). lra.
Qed.

Section RangeFacts.

Context {G : Type} `{Weather.Generator G}.
Hypothesis unit : unit_draws.
Import Weather Calendar.

Ltac step_unit :=
  match goal with
  | |- context [draw ?g] =>
      let E := fresh "E" in
      let Hb := fresh "Hb" in
      destruct (draw g) as [? ?] eqn:E;
      pose proof (unit g) as Hb; rewrite E in Hb; cbn [fst] in Hb; clear E; cbn
  | |- context [if ?a <? ?b then _ else _] => destruct (a <? b) eqn:?; cbn
  end.

Ltac run_unit :=
  unfold State.bind, State.ret, random, datetime_now, get_current_season; cbn;
  repeat step_unit.



Lemma forecast_day_plausible now region params d tt rt (w : world G) :
  lookup region regions = Some params ->
  -1 <= tt /\ tt <= 1 -> -1 <= rt /\ rt <= 1 ->
  plausible (tr_sample (fst (forecast_day now params d tt rt w)))
  /\ (-1 <= tr_temp_trend (fst (forecast_day now params d tt rt w))
      /\ tr_temp_trend (fst (forecast_day now params d tt rt w)) <= 1)
  /\ (-1 <= tr_rain_trend (fst (forecast_day now params d tt rt w))
      /\ tr_rain_trend (fst (forecast_day now params d tt rt w)) <= 1).
Proof.
  intros Hr [Ht1 Ht2] [Hr1 Hr2].
  destruct (configured_amplitudes region params Hr) as [Htv [Hrv Hbr]].
  pose proof (season_modifiers (season_of_date (ordinal (now (tick w)) + d)))
    as [Hrm [Hh1 Hh2]].
  unfold forecast_day, roll_event, plausible. run_unit.
  all: (split; [| split; split; lra]).
  all: (split; [apply spread_ordered; apply Qmult_le_0_compat; lra |]).
  all: (split;
        [apply round1_nonnegative;
         first [lra
               | unfold Num.max;
                 match goal with
                 | |- context [if ?a <? ?b then _ else _] => by_cases a b
                 end; lra]
        |]).
  all: (split;
        (apply round1_between; [vm_compute; reflexivity | vm_compute; reflexivity | lra | lra])).
Qed.

Lemma forecast_loop_plausible now region params days tt rt (w : world G) :
  lookup region regions = Some params ->
  -1 <= tt /\ tt <= 1 -> -1 <= rt /\ rt <= 1 ->
  Forall plausible (map tr_sample (fst (forecast_loop now params days tt rt w))).
Proof.
  intro Hr. revert tt rt w.
  induction days as [| d days IH]; intros tt rt w Ht Hrt; [constructor |].
  cbn. unfold State.bind, State.ret.
  destruct (forecast_day_plausible now region params d tt rt w Hr Ht Hrt)
    as [Hd [Ht' Hrt']].
  destruct (forecast_day now params d tt rt w) as [tr w1].
  cbn [fst] in Hd, Ht', Hrt'.
  specialize (IH (tr_temp_trend tr) (tr_rain_trend tr) w1 Ht' Hrt').
  destruct (forecast_loop now params days _ _ w1) as [trs w2].
  cbn in *. constructor; assumption.
Qed.

Lemma forecast_plausible now region days (w : world G) :
  In region (map fst regions) ->
  exists forecast,
    fst (generate_forecast now region days w) = Returned forecast
    /\ Forall plausible forecast.
Proof.
  intro Hin. destruct (configured_lookup region Hin) as [params Hr].
  rewrite (generate_forecast_trace now region params days w Hr).
  eexists. split; [reflexivity |].
  unfold forecast_trace, State.bind.
  destruct (generate_current_weather now params w) as [cw w1].
  apply (forecast_loop_plausible now region); [assumption | lra | lra].
Qed.


End RangeFacts.

(** X24.  With a generator whose draws lie in [0, 1), as those of
    [random.random()] do, and as long as the dates stay within the range of
    [datetime], every day of every forecast of a configured region has its
    low temperature at or below its high temperature, no negative rainfall,
    a humidity between 68 and 94 percent and a wind speed between 5 and 20
    km/h, on the days of a drought or a flood too. *)
Theorem forecast_samples_plausible {G : Type} `{Weather.Generator G} now region days
    (w : Weather.world G) :
  unit_draws ->
  In region (map fst Weather.regions) ->
  (forall i, (i < Z.to_nat days)%nat ->
     Calendar.in_range
       (Calendar.ordinal (now (Weather.tick w + 2 + i)%nat) + 1 + Z.of_nat i)) ->
  exists forecast,
    fst (Weather.generate_forecast now region days w) = Returned forecast
    /\ Forall plausible forecast.
Proof. intros Hu Hin _. now apply forecast_plausible. Qed.

Lemma forecast_samples_plausible_witness :
  exists forecast,
    fst (Weather.generate_forecast (fixed_clock 739923) "central" 7 fresh_world)
    = Returned forecast
    /\ Forall plausible forecast.
Proof.
  apply (forecast_samples_plausible (fixed_clock 739923) "central" 7 fresh_world
           lcg_unit_draws).
  - right. left. reflexivity.
  - intros i Hi. change (Z.to_nat 7) with 7%nat in Hi.
    unfold Calendar.in_range, Calendar.min_ordinal, Calendar.max_ordinal, fixed_clock.
    cbn [Calendar.ordinal]. lia.
Defined.


